(** * tom_dataproducts.views: a shallow embedding of the data-product views

    The views of [tom_dataproducts/views.py] are modelled as computations in
    a state-and-exception monad over a [World] that holds the ORM tables the
    views touch, the media storage, the template-fragment cache, the flash
    messages of the request and an ordered trace of the outbound effects
    (HTTP requests, log lines, file and row deletions).  Code that the views
    call but that lives outside the module (model methods, hooks, the data
    processor, the URL configuration, the remote services) is collected in
    [Env]; the parts of Python and Django whose behaviour the views depend
    on ([csv.DictReader], [os.path], [FieldFile.path], [resolve_url]) are
    written out. *)

From Stdlib Require Import Ascii.
From stdpp Require Import gmap strings list fin_maps pretty.

Local Open Scope string_scope.
Local Open Scope list_scope.
Local Open Scope Z_scope.

(** ** Python values *)

(** Exceptions the views raise, catch or let through. *)
Inductive exn : Type :=
| KeyError (key : string)
| IndexError
| AttributeError
| UnboundLocalError (name : string)
| FileNotFoundError (path : string)
| ValueError (msg : string)
| DoesNotExist
| Http404
| ImproperlyConfigured (msg : string)
| SuspiciousFileOperation (msg : string)
| NoReverseMatch
| csv_Error (msg : string)
| RequestException (msg : string)
| InvalidFileFormatException (msg : string)
| OtherException (msg : string).

(** JSON values: what [csv.DictReader] yields in a row (a cell, [None] for a
    short row, a list for the overflow of a long row) and what [requests]
    serialises for [json=]. A Python dict literal keeps its key order. *)
#[local] Unset Elimination Schemes.
Inductive json : Type :=
| JNull
| JStr (s : string)
| JNum (z : Z)
| JList (items : list json)
| JObj (fields : list (string * json)).
#[local] Set Elimination Schemes.

(** The newline character, ["\n"]. *)
Definition nl : string :=
  String (Ascii.Ascii false true false true false false false false) EmptyString.

(** [c in s] for a character. *)
Fixpoint has_char (c : ascii) (s : string) : bool :=
  match s with
  | EmptyString => false
  | String a rest => if decide (a = c) then true else has_char c rest
  end.

Definition hexdigit (n : N) : ascii :=
  default "0"%char (String.get (N.to_nat n) "0123456789abcdef").

(** [repr(s)] of a string: single quotes, or double quotes for a string
    that holds a single quote and no double quote; the quote, the backslash
    and the control characters are escaped. Bytes above 127 stand for
    printable text and are kept. *)
Fixpoint repr_body (quote : ascii) (s : string) : string :=
  match s with
  | EmptyString => EmptyString
  | String c rest =>
      (if decide (c = quote ∨ c = "\"%char) then String "\"%char (String c EmptyString)
       else if decide (c = "009"%char) then "\t"
       else if decide (c = "010"%char) then "\n"
       else if decide (c = "013"%char) then "\r"
       else if decide ((N_of_ascii c < 32)%N ∨ c = "127"%char)
            then "\x" +:+ String (hexdigit (N_of_ascii c / 16))
                            (String (hexdigit (N_of_ascii c mod 16)) EmptyString)
       else String c EmptyString)
      +:+ repr_body quote rest
  end.

Definition repr (s : string) : string :=
  let quote := if has_char "'"%char s && negb (has_char "034"%char s)
               then "034"%char else "'"%char in
  String quote (repr_body quote s +:+ String quote EmptyString).

(** [str(err)] of a [KeyError] raised for the key [key]: its [repr]. *)
Definition KeyError_str (key : string) : string := repr key.

(** ** [os.path] (posixpath) *)

(** [os.path.join(a, b)]. *)
Definition os_path_join (a b : string) : string :=
  if String.prefix "/" b then b
  else if decide (a = "") then b
  else if String.eqb (String.substring (String.length a - 1) 1 a) "/" then a +:+ b
  else a +:+ "/" +:+ b.

(** [s.split(sep)] for a separator of one character. *)
Fixpoint split (sep : ascii) (s : string) : list string :=
  match s with
  | EmptyString => [EmptyString]
  | String c rest =>
      if decide (c = sep) then EmptyString :: split sep rest
      else match split sep rest with
           | head :: tail => String c head :: tail
           | [] => [String c EmptyString]
           end
  end.

(** One turn of the loop of [normpath] over the components. *)
Definition normpath_step (initial_slashes : nat) (new_comps : list string) (comp : string)
    : list string :=
  if decide (comp = "" ∨ comp = ".") then new_comps
  else if decide (comp ≠ ".." ∨ (initial_slashes = 0%nat ∧ new_comps = [])
                  ∨ last new_comps = Some "..")
  then new_comps ++ [comp]
  else removelast new_comps.

(** [os.path.normpath(path)]. *)
Definition normpath (path : string) : string :=
  if decide (path = "") then "."
  else
    let initial_slashes : nat :=
      if String.prefix "/" path
      then if String.prefix "//" path && negb (String.prefix "///" path) then 2%nat else 1%nat
      else 0%nat in
    let new_comps := foldl (normpath_step initial_slashes) [] (split "/"%char path) in
    let joined := String.concat "" (replicate initial_slashes "/")
                    +:+ String.concat "/" new_comps in
    if decide (joined = "") then "." else joined.

(** [os.path.abspath(path)] in the working directory [cwd]. *)
Definition abspath (cwd path : string) : string :=
  normpath (if String.prefix "/" path then path else os_path_join cwd path).

Fixpoint all_slashes (s : string) : bool :=
  match s with
  | EmptyString => true
  | String c rest => if decide (c = "/"%char) then all_slashes rest else false
  end.

(** [s.rstrip('/')]. *)
Fixpoint rstrip_slashes (s : string) : string :=
  match s with
  | EmptyString => EmptyString
  | String c rest =>
      let stripped := rstrip_slashes rest in
      if decide (c = "/"%char ∧ stripped = "") then EmptyString else String c stripped
  end.

(** [os.path.dirname(p)]. *)
Definition dirname (p : string) : string :=
  match split "/"%char p with
  | [] | [_] => ""
  | comps =>
      let head := String.concat "/" (removelast comps) +:+ "/" in
      if all_slashes head then head else rstrip_slashes head
  end.

(** [django.utils._os.safe_join(base, name)]: the normalised absolute path
    of the join, refused when it lies outside the base. *)
Definition safe_join (cwd base name : string) : exn + string :=
  let final_path := abspath cwd (os_path_join base name) in
  let base_path := abspath cwd base in
  if negb (String.prefix (base_path +:+ "/") final_path)
     && negb (String.eqb final_path base_path)
     && negb (String.eqb (dirname base_path) base_path)
  then inl (SuspiciousFileOperation
              ("The joined path (" +:+ final_path
               +:+ ") is located outside of the base path component ("
               +:+ base_path +:+ ")"))
  else inr final_path.

(** ** [csv]: the reader of the default dialect and [DictReader] *)

(** A Python dict whose keys are strings or [None], as [csv.DictReader]
    yields one for a row. *)
Definition Row : Type := gmap (option string) json.

Module csv.

(** The states of the parser; the dialect has no escape character. *)
Inductive state : Type :=
| START_RECORD
| START_FIELD
| IN_FIELD
| IN_QUOTED_FIELD
| QUOTE_IN_QUOTED_FIELD
| EAT_CRNL.

#[global] Instance state_eq_dec : EqDecision state.
Proof. solve_decision. Defined.

Record parser := { st : state; field : string; fields : list string }.

Definition field_limit : Z := 131072.

Definition quotechar : ascii := "034"%char.

Definition is_newline (c : ascii) : bool :=
  bool_decide (c = "010"%char ∨ c = "013"%char).

Definition parse_reset : parser :=
  {| st := START_RECORD; field := ""; fields := [] |}.

Definition set_state (s : state) (p : parser) : parser :=
  {| st := s; field := field p; fields := fields p |}.

Definition parse_save_field (p : parser) : parser :=
  {| st := st p; field := ""; fields := fields p ++ [field p] |}.

Definition parse_add_char (p : parser) (c : ascii) : string + parser :=
  if decide (field_limit ≤ Z.of_nat (String.length (field p)))
  then inl "field larger than field limit (131072)"
  else inr {| st := st p; field := field p +:+ String c EmptyString; fields := fields p |}.

(** The case START_FIELD, which START_RECORD falls through to. *)
Definition start_field (delimiter : ascii) (p : parser) (c : option ascii) : string + parser :=
  match c with
  | None => inr (set_state START_RECORD (parse_save_field p))
  | Some a =>
      if is_newline a then inr (set_state EAT_CRNL (parse_save_field p))
      else if decide (a = quotechar) then inr (set_state IN_QUOTED_FIELD p)
      else if decide (a = delimiter) then inr (set_state START_FIELD (parse_save_field p))
      else match parse_add_char p a with
           | inl e => inl e
           | inr p' => inr (set_state IN_FIELD p')
           end
  end.

(** [parse_process_char]; [None] stands for the end of the line. *)
Definition parse_process_char (delimiter : ascii) (p : parser) (c : option ascii)
    : string + parser :=
  match st p with
  | START_RECORD =>
      match c with
      | None => inr p
      | Some a =>
          if is_newline a then inr (set_state EAT_CRNL p)
          else start_field delimiter p c
      end
  | START_FIELD => start_field delimiter p c
  | IN_FIELD =>
      match c with
      | None => inr (set_state START_RECORD (parse_save_field p))
      | Some a =>
          if is_newline a then inr (set_state EAT_CRNL (parse_save_field p))
          else if decide (a = delimiter) then inr (set_state START_FIELD (parse_save_field p))
          else parse_add_char p a
      end
  | IN_QUOTED_FIELD =>
      match c with
      | None => inr p
      | Some a =>
          if decide (a = quotechar) then inr (set_state QUOTE_IN_QUOTED_FIELD p)
          else parse_add_char p a
      end
  | QUOTE_IN_QUOTED_FIELD =>
      match c with
      | None => inr (set_state START_RECORD (parse_save_field p))
      | Some a =>
          if decide (a = quotechar) then
            match parse_add_char p a with
            | inl e => inl e
            | inr p' => inr (set_state IN_QUOTED_FIELD p')
            end
          else if decide (a = delimiter) then inr (set_state START_FIELD (parse_save_field p))
          else if is_newline a then inr (set_state EAT_CRNL (parse_save_field p))
          else match parse_add_char p a with
               | inl e => inl e
               | inr p' => inr (set_state IN_FIELD p')
               end
      end
  | EAT_CRNL =>
      match c with
      | None => inr (set_state START_RECORD p)
      | Some a =>
          if is_newline a then inr p
          else inl ("new-line character seen in unquoted field - "
                    +:+ "do you need to open the file in universal-newline mode?")
      end
  end.

(** One line through the parser, its characters and then the end of the
    line; [nul_error] is the refusal of NUL by Python before 3.11. *)
Fixpoint parse_line (nul_error : bool) (delimiter : ascii) (p : parser) (line : string)
    : string + parser :=
  match line with
  | EmptyString => parse_process_char delimiter p None
  | String c rest =>
      if nul_error && bool_decide (c = "000"%char) then inl "line contains NUL"
      else match parse_process_char delimiter p (Some c) with
           | inl e => inl e
           | inr p' => parse_line nul_error delimiter p' rest
           end
  end.

(** The lines of a text file opened with [newline='']: a line ends with
    ["\n"], ["\r"] or ["\r\n"], which it keeps. *)
Fixpoint readlines_from (line : string) (text : string) : list string :=
  match text with
  | EmptyString => if decide (line = "") then [] else [line]
  | String c rest =>
      if decide (c = "010"%char) then (line +:+ String c EmptyString) :: readlines_from "" rest
      else if decide (c = "013"%char) then
        match rest with
        | String c' rest' =>
            if decide (c' = "010"%char)
            then (line +:+ String c (String c' EmptyString)) :: readlines_from "" rest'
            else (line +:+ String c EmptyString) :: readlines_from "" rest
        | EmptyString => [line +:+ String c EmptyString]
        end
      else readlines_from (line +:+ String c EmptyString) rest
  end.

Definition readlines (text : string) : list string := readlines_from "" text.

(** [list(csv.reader(lines, delimiter=delimiter))]: a record is complete
    when a line leaves the parser at START_RECORD; at the end of the input
    a record that was begun is returned as it stands. *)
Fixpoint records (nul_error : bool) (delimiter : ascii) (p : parser) (lines : list string)
    : string + list (list string) :=
  match lines with
  | [] =>
      if decide (field p ≠ "" ∨ st p = IN_QUOTED_FIELD)
      then inr [fields (parse_save_field p)]
      else inr []
  | line :: rest =>
      match parse_line nul_error delimiter p line with
      | inl e => inl e
      | inr p' =>
          if decide (st p' = START_RECORD) then
            match records nul_error delimiter parse_reset rest with
            | inl e => inl e
            | inr rows => inr (fields p' :: rows)
            end
          else records nul_error delimiter p' rest
      end
  end.

Definition reader (nul_error : bool) (delimiter : ascii) (lines : list string)
    : string + list (list string) :=
  records nul_error delimiter parse_reset lines.

(** The dict [DictReader.__next__] builds for a row: [dict(zip(fieldnames,
    row))], then the cells beyond the header under the key [None], or
    [None] for the columns the row is too short for. *)
Definition row_dict (fieldnames row : list string) : Row :=
  let d : Row := foldl (λ d kv, <[Some kv.1 := JStr kv.2]> d) ∅ (zip fieldnames row) in
  let lf := length fieldnames in
  let lr := length row in
  if (lf <? lr)%nat then <[None := JList (JStr <$> drop lf row)]> d
  else if (lr <? lf)%nat then foldl (λ d key, <[Some key := JNull]> d) d (drop lr fieldnames)
  else d.

(** [[row for row in csv.DictReader(csvfile, delimiter=delimiter)]]: the
    first record is the header, empty records are skipped. *)
Definition DictReader (nul_error : bool) (delimiter : ascii) (csvfile : string)
    : exn + list Row :=
  match reader nul_error delimiter (readlines csvfile) with
  | inl msg => inl (csv_Error msg)
  | inr [] => inr []
  | inr (fieldnames :: rows) =>
      inr (row_dict fieldnames <$> filter (λ row, row ≠ []) rows)
  end.

End csv.

(** ** The models *)

Record Target := { target_id : Z; target_name : string }.

Record ObservationRecord := { observation_id : Z; observation_target : Target }.

(** [DataProduct.data], a [FieldFile]: the name under the media root. *)
Record FieldFile := { file_name : string }.

(** A [DataProduct] row; its primary key is the key of the table. *)
Record DataProduct := {
  target : Target;
  observation_record : option ObservationRecord;
  data : FieldFile;
  product_id : option string;
  data_product_type : string;
  featured : bool
}.

(** A [ReducedDatum] row: the nullable foreign key and the stored value. *)
Record ReducedDatum := { data_product : option Z; value : string }.

#[global] Instance Target_eq_dec : EqDecision Target.
Proof. solve_decision. Defined.
#[global] Instance ObservationRecord_eq_dec : EqDecision ObservationRecord.
Proof. solve_decision. Defined.
#[global] Instance FieldFile_eq_dec : EqDecision FieldFile.
Proof. solve_decision. Defined.
#[global] Instance DataProduct_eq_dec : EqDecision DataProduct.
Proof. solve_decision. Defined.
#[global] Instance ReducedDatum_eq_dec : EqDecision ReducedDatum.
Proof. solve_decision. Defined.

(** ** Settings *)

Record Settings := {
  DATA_SHARING : gmap string (gmap string string);
  MEDIA_ROOT : string;
  TARGET_PERMISSIONS_ONLY : bool
}.

(** ** Outbound effects *)

Inductive level : Type := DEBUG | INFO | SUCCESS | WARNING | ERROR.

#[global] Instance level_eq_dec : EqDecision level.
Proof. solve_decision. Defined.

(** The body of a [requests.post]: [json=] or [data=] with [files=]. *)
Inductive post_body : Type :=
| JsonBody (j : json)
| MultipartBody (form : list (string * json))
                (files : list (string * (string * string * string))).

Inductive event : Type :=
| HttpGet (url : string) (auth : string * string) (params : list (string * string))
| HttpPost (url : string) (body : post_body) (headers : list (string * string))
           (auth : option (string * string))
| Log (lvl : level) (msg : string)
| FileOpen (path : string)
| FileDelete (name : string)
| ReducedDelete (product_pk : Z)
| ProductSave (pk : Z)
| ProductDelete (pk : Z)
| CacheDelete (key : string).

Definition is_http (e : event) : bool :=
  match e with HttpGet _ _ _ | HttpPost _ _ _ _ => true | _ => false end.

Definition is_get (e : event) : bool :=
  match e with HttpGet _ _ _ => true | _ => false end.

Definition is_post (e : event) : bool :=
  match e with HttpPost _ _ _ _ => true | _ => false end.

(** A guardian object permission granted to a group. *)
Inductive perm_object : Type :=
| OnProduct (pk : Z)
| OnReduced (rows : list ReducedDatum).

Record World := {
  products : gmap Z DataProduct;
  reduced : list ReducedDatum;
  next_pk : Z;
  media : gmap string string;
  cache : gset string;
  perms : list (string * string * perm_object);
  flashes : list (level * string);
  trace : list event
}.

Definition set_products (f : gmap Z DataProduct → gmap Z DataProduct) (w : World) : World :=
  {| products := f (products w); reduced := reduced w; next_pk := next_pk w;
     media := media w; cache := cache w; perms := perms w;
     flashes := flashes w; trace := trace w |}.

Definition set_reduced (f : list ReducedDatum → list ReducedDatum) (w : World) : World :=
  {| products := products w; reduced := f (reduced w); next_pk := next_pk w;
     media := media w; cache := cache w; perms := perms w;
     flashes := flashes w; trace := trace w |}.

Definition set_next_pk (f : Z → Z) (w : World) : World :=
  {| products := products w; reduced := reduced w; next_pk := f (next_pk w);
     media := media w; cache := cache w; perms := perms w;
     flashes := flashes w; trace := trace w |}.

Definition set_media (f : gmap string string → gmap string string) (w : World) : World :=
  {| products := products w; reduced := reduced w; next_pk := next_pk w;
     media := f (media w); cache := cache w; perms := perms w;
     flashes := flashes w; trace := trace w |}.

Definition set_cache (f : gset string → gset string) (w : World) : World :=
  {| products := products w; reduced := reduced w; next_pk := next_pk w;
     media := media w; cache := f (cache w); perms := perms w;
     flashes := flashes w; trace := trace w |}.

Definition add_perm (p : string * string * perm_object) (w : World) : World :=
  {| products := products w; reduced := reduced w; next_pk := next_pk w;
     media := media w; cache := cache w; perms := perms w ++ [p];
     flashes := flashes w; trace := trace w |}.

Definition add_flash (m : level * string) (w : World) : World :=
  {| products := products w; reduced := reduced w; next_pk := next_pk w;
     media := media w; cache := cache w; perms := perms w;
     flashes := flashes w ++ [m]; trace := trace w |}.

Definition add_event (e : event) (w : World) : World :=
  {| products := products w; reduced := reduced w; next_pk := next_pk w;
     media := media w; cache := cache w; perms := perms w;
     flashes := flashes w; trace := trace w ++ [e] |}.

(** ** The monad: state with exceptions; a raise keeps the state reached. *)

Inductive Result (A : Type) : Type :=
| Ok (a : A)
| Raise (e : exn).
Arguments Ok {A} a.
Arguments Raise {A} e.

Definition M (A : Type) : Type := World → Result A * World.

#[global] Instance M_ret : MRet M := λ A a w, (Ok a, w).

#[global] Instance M_bind : MBind M := λ A B k m w,
  match m w with
  | (Ok a, w') => k a w'
  | (Raise e, w') => (Raise e, w')
  end.

Definition raise {A : Type} (e : exn) : M A := λ w, (Raise e, w).

(** [try: body except ...: handler]; the handler answers [None] for an
    exception no [except] clause matches, which then propagates. *)
Definition try_except {A : Type} (body : M A) (handler : exn → option (M A)) : M A :=
  λ w, match body w with
       | (Ok a, w') => (Ok a, w')
       | (Raise e, w') =>
           match handler e with
           | Some h => h w'
           | None => (Raise e, w')
           end
       end.

Definition effect (f : World → World) : M unit := λ w, (Ok (), f w).
Definition emit (e : event) : M unit := effect (add_event e).
Definition read {A : Type} (f : World → A) : M A := λ w, (Ok (f w), w).

(** [d[key]] on a dict. *)
Definition getitem {V : Type} (d : gmap string V) (key : string) : M V :=
  match d !! key with
  | Some v => mret v
  | None => raise (KeyError key)
  end.

(** [row[key]] on a row of the csv reader. *)
Definition row_getitem (row : Row) (key : string) : M json :=
  match row !! Some key with
  | Some v => mret v
  | None => raise (KeyError key)
  end.

(** [for x in xs: body x]. *)
Fixpoint for_each {A : Type} (xs : list A) (body : A → M unit) : M unit :=
  match xs with
  | [] => mret ()
  | x :: xs' => body x ;; for_each xs' body
  end.


(** ** What the views call outside this module *)

(** The destination TOM's answer to [GET api/targets/], as
    [response.json()] reads it. *)
Record RemoteTarget := {
  remote_id : Z;
  remote_name : string;
  remote_aliases : list string
}.

Record TargetsResponse := { count : Z; results : list RemoteTarget }.

Record HttpResponse := { status_code : Z; text : string }.

(** What the upload hook and the data processor do with one saved product:
    the values of the [ReducedDatum] rows they insert for it, and the
    exception that interrupted them, if any. Both live outside this module
    ([tom_common.hooks], [tom_dataproducts.data_processor]); they are taken
    to write reduced data of the product they are handed and nothing else. *)
Record Processing := { created : list string; raised : option exn }.

Record Env := {
  settings : Settings;
  (** [DataProduct.__str__] *)
  DataProduct_str : DataProduct → string;
  (** [str(datetime.datetime.now())] *)
  datetime_now : string;
  (** the service behind [requests.get(url, auth=, params=)] and the
      [response.json()] read as a page of targets: the page, or the
      exception raised on the way (by [requests], by the decoding of a
      reply that is no JSON, by the reading of one that is no page) *)
  targets_api : string → string * string → list (string * string) → exn + TargetsResponse;
  (** the service behind [requests.post]: the response, or the message of
      the [RequestException] the call raises *)
  post_api : string → post_body → string + HttpResponse;
  (** the URL configuration of the project: [reverse(viewname,
      kwargs=kwargs)], [None] where Django raises NoReverseMatch *)
  reverse_url : string → list (string * option string) → option string;
  (** [os.getcwd()] *)
  getcwd : string;
  (** the csv module refuses NUL (Python before 3.11) *)
  csv_nul_error : bool;
  (** [run_hook('data_product_post_upload', dp)] followed by
      [run_data_processor(dp)] *)
  process_upload : Z → DataProduct → Processing;
  (** the storage name [DataProduct.data] receives on save ([upload_to]) *)
  upload_to : Target → option ObservationRecord → string → string;
  (** [make_template_fragment_key(fragment, vary_on)] *)
  make_template_fragment_key : string → string → string;
  (** [urlparse(url).path] *)
  urlparse_path : string → string
}.

(** A request: the query string and the uploaded files (name, contents). *)
Record HttpRequest := {
  GET : gmap string string;
  FILES : list (string * string)
}.

(** Where a redirect leads: the URL of a view for the key of a row of its
    model, or a URL written out. *)
Inductive location : Type :=
| Reverse (name : string) (pk : option string)
| Path (p : string).

Inductive HttpResponseRedirect : Type := redirect (to : location).

(** ** The ORM, storage, logging and HTTP calls the views make *)

Section Runtime.

Context (env : Env).

(** [requests.get(url, auth=, params=)] with the [response.json()] that
    follows it; the call is recorded, then answered or failed. *)
Definition requests_get (url : string) (auth : string * string)
    (params : list (string * string)) : M TargetsResponse :=
  emit (HttpGet url auth params) ;;
  match targets_api env url auth params with
  | inr target_response => mret target_response
  | inl e => raise e
  end.

(** [requests.post(url, ...)]: the call is recorded, then answered or
    failed. *)
Definition requests_post (url : string) (body : post_body)
    (headers : list (string * string)) (auth : option (string * string)) : M HttpResponse :=
  emit (HttpPost url body headers auth) ;;
  match post_api env url body with
  | inr response => mret response
  | inl msg => raise (RequestException msg)
  end.

Definition logger (lvl : level) (msg : string) : M unit := emit (Log lvl msg).

Definition messages (lvl : level) (msg : string) : M unit := effect (add_flash (lvl, msg)).

(** [open(path)] and read; [FileOpen] records the attempt, which fails for
    a file that is not in the storage. *)
Definition open (path : string) : M string :=
  emit (FileOpen path) ;;
  contents ← read (λ w, media w !! path);
  match contents with
  | Some c => mret c
  | None => raise (FileNotFoundError path)
  end.

Definition find_product (pk : option Z) (w : World) : option (Z * DataProduct) :=
  pk ≫= λ k, (k,.) <$> products w !! k.

(** [DataProduct.objects.get(pk=pk)] *)
Definition objects_get (pk : option Z) : M (Z * DataProduct) :=
  row ← read (find_product pk);
  match row with
  | Some r => mret r
  | None => raise DoesNotExist
  end.

(** [self.get_object()] of a detail view, [pk] being the key of the URL:
    AttributeError for a URL without a key, 404 when there is no such
    row. *)
Definition get_object (pk : option Z) : M (Z * DataProduct) :=
  match pk with
  | None => raise AttributeError
  | Some _ =>
      row ← read (find_product pk);
      match row with
      | Some r => mret r
      | None => raise Http404
      end
  end.

(** [instance.save()]: insert, or update the row of that key. *)
Definition save (pk : Z) (row : DataProduct) : M unit :=
  effect (set_products (insert pk row)) ;;
  emit (ProductSave pk).

(** [instance.delete()] on a [DataProduct]: the row goes. Every view deletes
    the reduced data of the product first, so a cascade would find none. *)
Definition delete_instance (pk : Z) : M unit :=
  effect (set_products (delete pk)) ;;
  emit (ProductDelete pk).

(** The reduced datum [r] belongs to the product [pk]. *)
Definition references (pk : Z) (r : ReducedDatum) : Prop := data_product r = Some pk.

#[global] Instance references_dec pk r : Decision (references pk r).
Proof. unfold references. apply _. Defined.

(** [ReducedDatum.objects.filter(data_product=pk).delete()] *)
Definition ReducedDatum_filter_delete (pk : Z) : M unit :=
  effect (set_reduced (filter (λ r, ¬ references pk r))) ;;
  emit (ReducedDelete pk).

(** Where the storage keeps the file of a product: the media root joined
    with the name. *)
Definition data_path (product : DataProduct) : string :=
  os_path_join (MEDIA_ROOT (settings env)) (file_name (data product)).

(** [FileSystemStorage.path(name)]: the name joined safely to the absolute
    location of the storage. *)
Definition storage_path (name : string) : exn + string :=
  safe_join (getcwd env) (abspath (getcwd env) (MEDIA_ROOT (settings env))) name.

(** [product.data.path], Django's [FieldFile.path]: ValueError for a
    product without a file, and the refusal of a name that leaves the media
    root. *)
Definition FieldFile_path (product : DataProduct) : M string :=
  if decide (file_name (data product) = "") then
    raise (ValueError "The 'data' attribute has no file associated with it.")
  else
    match storage_path (file_name (data product)) with
    | inr path => mret path
    | inl e => raise e
    end.

(** [reverse(viewname, kwargs=kwargs)]. *)
Definition reverse (viewname : string) (kwargs : list (string * option string)) : M string :=
  match reverse_url env viewname kwargs with
  | Some url => mret url
  | None => raise NoReverseMatch
  end.

(** [django.shortcuts.resolve_url(to)] for a string: a relative URL is
    kept, a URL name is reversed, and what cannot be reversed is kept when
    it looks like a URL; [None] where NoReverseMatch is raised. *)
Definition resolve_url (to : string) : option string :=
  if String.prefix "./" to || String.prefix "../" to then Some to
  else match reverse_url env to [] with
       | Some url => Some url
       | None => if has_char "/"%char to || has_char "."%char to then Some to else None
       end.

(** [django.shortcuts.redirect(to)]. *)
Definition shortcuts_redirect (to : string) : M HttpResponseRedirect :=
  match resolve_url to with
  | Some url => mret (redirect (Path url))
  | None => raise NoReverseMatch
  end.

Definition with_data (product : DataProduct) (f : FieldFile) : DataProduct :=
  {| target := target product; observation_record := observation_record product;
     data := f; product_id := product_id product;
     data_product_type := data_product_type product; featured := featured product |}.

Definition with_featured (product : DataProduct) (b : bool) : DataProduct :=
  {| target := target product; observation_record := observation_record product;
     data := data product; product_id := product_id product;
     data_product_type := data_product_type product; featured := b |}.

(** [instance.data.delete()]: nothing without a file; otherwise the stored
    file is removed, the name cleared and the instance saved. *)
Definition FieldFile_delete (pk : Z) (row : DataProduct) : M unit :=
  if decide (file_name (data row) = "") then mret ()
  else
    effect (set_media (delete (data_path row))) ;;
    emit (FileDelete (file_name (data row))) ;;
    save pk (with_data row {| file_name := "" |}).

End Runtime.

Arguments get_object : simpl never.

(** ** DataProductUploadView *)

Module DataProductUploadView.

(** [form.cleaned_data] of a valid [DataProductUploadForm]. *)
Record Form := {
  cleaned_target : option Target;
  cleaned_observation_record : option ObservationRecord;
  cleaned_data_product_type : string;
  cleaned_groups : list string;
  cleaned_referrer : option string
}.

Section View.

Context (env : Env).

(** The instance built for one uploaded file, as [dp.save()] stores it. *)
Definition new_product (target : Target) (observation_record : option ObservationRecord)
    (dp_type : string) (f : string * string) : DataProduct :=
  {| target := target; observation_record := observation_record;
     data := {| file_name := upload_to env target observation_record f.1 |};
     product_id := None; data_product_type := dp_type; featured := false |}.

(** [dp.save()] of a new instance: the file goes to the storage and the row
    receives the next primary key. *)
Definition save_new (dp : DataProduct) (contents : string) : M Z :=
  pk ← read next_pk;
  effect (set_media (insert (data_path env dp) contents)) ;;
  effect (set_next_pk Z.succ) ;;
  save pk dp ;;
  mret pk.

(** The hook and the data processor: rows are inserted, then the call
    returns them or raises. *)
Definition run_data_processor (pk : Z) (dp : DataProduct) : M (list ReducedDatum) :=
  let outcome := process_upload env pk dp in
  let rows : list ReducedDatum :=
    (λ v, {| data_product := Some pk; value := v |}) <$> created outcome in
  effect (set_reduced (λ table, (table ++ rows))) ;;
  match raised outcome with
  | Some e => raise e
  | None => mret rows
  end.

Definition assign_perm (perm group : string) (obj : perm_object) : M unit :=
  effect (add_perm (perm, group, obj)).

(** The three permissions a group receives on an uploaded product. *)
Definition grant (pk : Z) (reduced_data : list ReducedDatum) (group : string) : M unit :=
  assign_perm "tom_dataproducts.view_dataproduct" group (OnProduct pk) ;;
  assign_perm "tom_dataproducts.delete_dataproduct" group (OnProduct pk) ;;
  assign_perm "tom_dataproducts.view_reduceddatum" group (OnReduced reduced_data).

(** The message each [except] clause flashes. *)
Definition error_message (e : exn) (dp : DataProduct) : string :=
  match e with
  | InvalidFileFormatException iffe =>
      "File format invalid for file " +:+ DataProduct_str env dp
        +:+ " -- error was " +:+ iffe
  | _ => "There was a problem processing your file: " +:+ DataProduct_str env dp
  end.

(** The body of the loop over the uploaded files. *)
Definition upload_file (form : Form) (target : Target)
    (observation_record : option ObservationRecord) (dp_type : string)
    (f : string * string) (successful_uploads : list string) : M (list string) :=
  let dp := new_product target observation_record dp_type f in
  pk ← save_new dp f.2;
  try_except
    (reduced_data ← run_data_processor pk dp;
     (if TARGET_PERMISSIONS_ONLY (settings env) then mret ()
      else for_each (cleaned_groups form) (grant pk reduced_data)) ;;
     mret (successful_uploads ++ [DataProduct_str env dp]))
    (λ e, match e with
          | InvalidFileFormatException iffe =>
              Some (ReducedDatum_filter_delete pk ;;
                    delete_instance pk ;;
                    messages ERROR ("File format invalid for file " +:+ DataProduct_str env dp
                                    +:+ " -- error was " +:+ iffe) ;;
                    mret successful_uploads)
          | _ =>
              Some (ReducedDatum_filter_delete pk ;;
                    delete_instance pk ;;
                    messages ERROR ("There was a problem processing your file: "
                                    +:+ DataProduct_str env dp) ;;
                    mret successful_uploads)
          end).

Fixpoint upload_files (form : Form) (target : Target)
    (observation_record : option ObservationRecord) (dp_type : string)
    (data_product_files : list (string * string)) (successful_uploads : list string)
    : M (list string) :=
  match data_product_files with
  | [] => mret successful_uploads
  | f :: rest =>
      uploads ← upload_file form target observation_record dp_type f successful_uploads;
      upload_files form target observation_record dp_type rest uploads
  end.

Definition form_valid (request : HttpRequest) (form : Form) : M HttpResponseRedirect :=
  '(target, observation_record) ←
    match cleaned_target form with
    | Some target => mret (target, None)
    | None =>
        match cleaned_observation_record form with
        | Some observation_record =>
            mret (observation_target observation_record, Some observation_record)
        | None => raise AttributeError
        end
    end;
  let dp_type := cleaned_data_product_type form in
  let data_product_files := FILES request in
  successful_uploads ← upload_files form target observation_record dp_type
                         data_product_files [];
  (if decide (successful_uploads = []) then mret ()
   else messages SUCCESS ("Successfully uploaded: " +:+ String.concat nl successful_uploads)) ;;
  shortcuts_redirect env (default "/" (cleaned_referrer form)).

End View.

End DataProductUploadView.

(** ** DataProductDeleteView *)

Module DataProductDeleteView.

Section View.

Context (env : Env).

Definition get_success_url (request : HttpRequest) : string :=
  match GET request !! "next" with
  | Some referer => if decide (referer = "") then "/" else urlparse_path env referer
  | None => "/"
  end.

(** [DeletionMixin.delete], the [super().delete] of the view: the object is
    fetched again and its row deleted. *)
Definition super_delete (request : HttpRequest) (pk : option Z) : M HttpResponseRedirect :=
  '(k, _) ← get_object pk;
  let success_url := get_success_url request in
  delete_instance k ;;
  mret (redirect (Path success_url)).

Definition delete (request : HttpRequest) (pk : option Z) : M HttpResponseRedirect :=
  '(k, _) ← get_object pk;
  ReducedDatum_filter_delete k ;;
  '(k', object) ← get_object pk;
  FieldFile_delete env k' object ;;
  super_delete request pk.

End View.

End DataProductDeleteView.

(** ** DataProductFeatureView *)

Module DataProductFeatureView.

Section View.

Context (env : Env).

(** The rows [filter(featured=True, data_product_type=..., target=...)]
    selects. *)
Definition same_pair (product p : DataProduct) : Prop :=
  data_product_type p = data_product_type product ∧
  target_id (target p) = target_id (target product).

#[global] Instance same_pair_dec product p : Decision (same_pair product p).
Proof. unfold same_pair. apply _. Defined.

Definition currently_featured (product : DataProduct) (row : Z * DataProduct) : Prop :=
  featured row.2 = true ∧ same_pair product row.2.

#[global] Instance currently_featured_dec product row : Decision (currently_featured product row).
Proof. unfold currently_featured. apply _. Defined.

Definition unfeature (row : Z * DataProduct) : M unit :=
  let featured_image := with_featured row.2 false in
  save row.1 featured_image ;;
  let featured_image_cache_key :=
    make_template_fragment_key env "featured_image"
      (pretty (target_id (target featured_image))) in
  effect (set_cache (λ c, c ∖ {[featured_image_cache_key]})) ;;
  emit (CacheDelete featured_image_cache_key).

Definition get (request : HttpRequest) (pk : option Z) : M HttpResponseRedirect :=
  '(k, product) ← objects_get pk;
  try_except
    (current_featured ← read (λ w, map_to_list (filter (currently_featured product) (products w)));
     for_each current_featured unfeature)
    (λ e, match e with DoesNotExist => Some (mret ()) | _ => None end) ;;
  save k (with_featured product true) ;;
  url ← reverse env "tom_targets:detail" [("pk", GET request !! "target_id")];
  shortcuts_redirect env url.

End View.

End DataProductFeatureView.

(** ** DataProductShareView *)

Module DataProductShareView.

Section View.

Context (env : Env).

(** One turn of the loop of [submit_to_stream]: the dict literal reads the
    four columns of the row in the order written. *)
Definition hermes_entry (target_name : string) (tomtoolkit_photometry : Row) : M json :=
  dateObs ← row_getitem tomtoolkit_photometry "time";
  band ← row_getitem tomtoolkit_photometry "filter";
  brightness ← row_getitem tomtoolkit_photometry "magnitude";
  brightnessError ← row_getitem tomtoolkit_photometry "error";
  mret (JObj [("photometryId", JStr target_name);
              ("dateObs", dateObs);
              ("band", band);
              ("brightness", brightness);
              ("brightnessError", brightnessError);
              ("brightnessUnit", JStr "AB mag")]).

Fixpoint hermes_loop (target_name : string) (photometry_data : list Row)
    (hermes_photometry_data : list json) : M (list json) :=
  match photometry_data with
  | [] => mret hermes_photometry_data
  | tomtoolkit_photometry :: rest =>
      entry ← hermes_entry target_name tomtoolkit_photometry;
      hermes_loop target_name rest (hermes_photometry_data ++ [entry])
  end.

Definition alert (hermes_photometry_data : list json) : json :=
  JObj [("topic", JStr "hermes.test");
        ("title", JStr "TOM Toolkit test (Photometry)");
        ("author", JStr "llindstrom@lco.global");
        ("data", JObj [("photometry_data", JList hermes_photometry_data)]);
        ("message_text", JStr ("Test alert from TOM Toolkit at " +:+ datetime_now env))].

Definition submit_to_stream (stream_name target_name : string)
    (photometry_data : list Row) (message : string) : M unit :=
  destination ← getitem (DATA_SHARING (settings env)) stream_name;
  hermes_base_url ← getitem destination "BASE_URL";
  let submit_url := hermes_base_url +:+ "submit/" in
  let headers := [] in
  hermes_photometry_data ← hermes_loop target_name photometry_data [];
  submit_response ← requests_post env submit_url (JsonBody (alert hermes_photometry_data))
                      headers None;
  mret ().

(** [settings.DATA_SHARING[tom_name][key]] *)
Definition sharing_setting (tom_name key : string) : M string :=
  destination ← getitem (DATA_SHARING (settings env)) tom_name;
  getitem destination key.

(** The [try] block that opens [share_with_tom]. *)
Definition sharing_credentials (tom_name : string) : M (string * string * string) :=
  try_except
    (destination_tom_base_url ← sharing_setting tom_name "BASE_URL";
     username ← sharing_setting tom_name "USERNAME";
     password ← sharing_setting tom_name "PASSWORD";
     mret (destination_tom_base_url, username, password))
    (λ err, match err with
            | KeyError key =>
                Some (raise (ImproperlyConfigured
                  ("Check DATA_SHARING configuration for " +:+ tom_name +:+ ": Key "
                   +:+ KeyError_str key +:+ " not found.")))
            | _ => None
            end).

(** The message of the ambiguous-target branch. *)
Definition ambiguous_msg (tom_name target_name : string) (found : list RemoteTarget) : string :=
  fold_left
    (λ msg t, msg +:+ "  Target: " +:+ remote_name t +:+ " Aliases: "
                  +:+ String.concat ", " (remote_aliases t) +:+ nl)
    found
    ("Target name must be unique on destination TOM " +:+ tom_name +:+ ". "
     +:+ "The following targets share a name or alias with " +:+ target_name +:+ ":" +:+ nl).

(** The second half of [share_with_tom]; [destination_tom_target_id] is
    [None] when no branch bound the local variable. *)
Definition post_dataproduct (destination_tom_base_url : string) (auth : string * string)
    (product : DataProduct) (destination_tom_target_id : option Z) : M unit :=
  let data_products_url := destination_tom_base_url +:+ "api/dataproducts/" in
  let dataproduct_filename :=
    os_path_join (MEDIA_ROOT (settings env)) (file_name (data product)) in
  dataproduct_filep ← open dataproduct_filename;
  let files := [("file", (file_name (data product), dataproduct_filep, "text/csv"))] in
  target_pk ← match destination_tom_target_id with
              | Some i => mret i
              | None => raise (UnboundLocalError "destination_tom_target_id")
              end;
  let form := [("target", JNum target_pk);
               ("data_product_type", JStr (data_product_type product))] in
  let headers := [("Media-Type", "multipart/form-data")] in
  response ← requests_post env data_products_url (MultipartBody form files) headers (Some auth);
  logger DEBUG ("DataProductShareView.share_with_tom response.status_code: "
                +:+ pretty (status_code response)) ;;
  logger DEBUG ("DataProductShareView.share_with_tom response.text: " +:+ text response).

Definition share_with_tom (tom_name : string) (product : DataProduct) : M unit :=
  '(destination_tom_base_url, username, password) ← sharing_credentials tom_name;
  let auth := (username, password) in
  let target_name := target_name (target product) in
  let targets_url := destination_tom_base_url +:+ "api/targets/" in
  let target_params := [("name", target_name)] in
  target_response ← requests_get env targets_url auth target_params;
  if decide (count target_response = 1) then
    match results target_response with
    | first :: _ =>
        post_dataproduct destination_tom_base_url auth product (Some (remote_id first))
    | [] => raise IndexError
    end
  else if decide (count target_response = 0) then
    logger WARNING
      ("DataProductShareView.share_with_tom Target " +:+ target_name +:+ " not found on "
       +:+ tom_name +:+ ". " +:+ "If target " +:+ target_name
       +:+ " does exist on the destination TOM, then this may an "
       +:+ "authentication problem preventing access to the targets on " +:+ tom_name +:+ ".")
  else if decide (count target_response > 1) then
    logger WARNING (ambiguous_msg tom_name target_name (results target_response))
  else
    post_dataproduct destination_tom_base_url auth product None.

Definition get (request : HttpRequest) (pk : option Z) : M HttpResponseRedirect :=
  '(_, product) ← objects_get pk;
  logger DEBUG ("Sharing data product: " +:+ DataProduct_str env product
                +:+ " of type: " +:+ data_product_type product) ;;
  (if decide (data_product_type product = "photometry") then
     let sharing_destination := "hermes" in
     if decide (sharing_destination = "hermes") then
       path ← FieldFile_path env product;
       csvfile ← open path;
       data ← match csv.DictReader (csv_nul_error env) ","%char csvfile with
              | inr rows => mret rows
              | inl e => raise e
              end;
       submit_to_stream sharing_destination (target_name (target product)) data
                        "From TOMToolkit"
     else
       share_with_tom sharing_destination product
   else mret ()) ;;
  url ← reverse env "tom_targets:detail" [("pk", GET request !! "target_id")];
  shortcuts_redirect env url.

End View.

End DataProductShareView.

(** ** Vocabulary of the properties *)

(** [settings.DATA_SHARING[name][key]], when both lookups succeed. *)
Definition sharing_key (s : Settings) (name key : string) : option string :=
  DATA_SHARING s !! name ≫= λ destination, destination !! key.

(** The entry of [name] is absent or lacks one of the three keys. *)
Definition misconfigured (s : Settings) (name : string) : Prop :=
  sharing_key s name "BASE_URL" = None ∨
  sharing_key s name "USERNAME" = None ∨
  sharing_key s name "PASSWORD" = None.

#[global] Instance misconfigured_dec s name : Decision (misconfigured s name).
Proof. unfold misconfigured. apply _. Defined.

(** A row of a photometry CSV carries the four photometry columns. *)
Definition photometry_row (row : Row) : Prop :=
  is_Some (row !! Some "time") ∧ is_Some (row !! Some "filter") ∧
  is_Some (row !! Some "magnitude") ∧ is_Some (row !! Some "error").

#[global] Instance photometry_row_dec row : Decision (photometry_row row).
Proof. unfold photometry_row. apply _. Defined.

(** [entry] is the HERMES record of [row]. *)
Definition maps_to (target_name : string) (row : Row) (entry : json) : Prop :=
  ∃ t f m e,
    row !! Some "time" = Some t ∧ row !! Some "filter" = Some f ∧
    row !! Some "magnitude" = Some m ∧ row !! Some "error" = Some e ∧
    entry = JObj [("photometryId", JStr target_name); ("dateObs", t); ("band", f);
                  ("brightness", m); ("brightnessError", e);
                  ("brightnessUnit", JStr "AB mag")].

(** The file [share_with_tom] uploads, the requests it makes and the reply
    of the destination to the first of them. *)
Definition upload_path (env : Env) (product : DataProduct) : string :=
  os_path_join (MEDIA_ROOT (settings env)) (file_name (data product)).

Definition dataproduct_post (base : string) (auth : string * string) (product : DataProduct)
    (remote_pk : Z) (contents : string) : event :=
  HttpPost (base +:+ "api/dataproducts/")
    (MultipartBody [("target", JNum remote_pk);
                    ("data_product_type", JStr (data_product_type product))]
                   [("file", (file_name (data product), contents, "text/csv"))])
    [("Media-Type", "multipart/form-data")] (Some auth).

Definition targets_get (base : string) (auth : string * string) (product : DataProduct) : event :=
  HttpGet (base +:+ "api/targets/") auth [("name", target_name (target product))].

Definition targets_reply (env : Env) (base : string) (auth : string * string)
    (product : DataProduct) : exn + TargetsResponse :=
  targets_api env (base +:+ "api/targets/") auth [("name", target_name (target product))].

(** The answer of the share and feature views: the redirect to the detail
    page of the target that the request names, when that URL resolves. *)
Definition target_detail (env : Env) (request : HttpRequest) : M HttpResponseRedirect :=
  url ← reverse env "tom_targets:detail" [("pk", GET request !! "target_id")];
  shortcuts_redirect env url.

(** A component of a path that [normpath] keeps as it is. *)
Definition plain_component (c : string) : Prop :=
  c ≠ "" ∧ c ≠ "." ∧ c ≠ ".." ∧ has_char "/"%char c = false.

#[global] Instance plain_component_dec c : Decision (plain_component c).
Proof. unfold plain_component. apply _. Defined.

(** A cell that needs no quoting in a csv file: it holds no comma, quote,
    line end or NUL and fits the field limit of the reader. *)
Definition plain_cell (c : string) : Prop :=
  has_char ","%char c = false ∧ has_char "034"%char c = false ∧
  has_char "010"%char c = false ∧ has_char "013"%char c = false ∧
  has_char "000"%char c = false ∧ Z.of_nat (String.length c) ≤ 131072.

#[global] Instance plain_cell_dec c : Decision (plain_cell c).
Proof. unfold plain_cell. apply _. Defined.

(** The text of a csv file of plain cells: the cells of a line separated
    by commas, each line ended by a newline. *)
Definition csv_line (cells : list string) : string := String.concat "," cells.

Definition csv_text (lines : list (list string)) : string :=
  foldr (λ cells text, csv_line cells +:+ nl +:+ text) "" lines.

(** A header-based reader, as the specification words it: the first
    line names the columns; every later line that is not blank gives a row,
    in file order, which maps the name of each column to the cell at its
    position, [None] where the line has no such cell, and lists the cells
    beyond the header under the key [None]. *)
Definition blank (cells : list string) : Prop := csv_line cells = "".

#[global] Instance blank_dec cells : Decision (blank cells).
Proof. unfold blank. apply _. Defined.

Definition header_row (header cells : list string) : Row :=
  let named : Row :=
    list_to_map (list.reverse (zip (Some <$> header)
                              ((JStr <$> cells)
                               ++ replicate (length header - length cells) JNull))) in
  if (length header <? length cells)%nat
  then <[None := JList (JStr <$> drop (length header) cells)]> named
  else named.

Definition header_rows (header : list string) (lines : list (list string)) : list Row :=
  header_row (if decide (blank header) then [] else header)
    <$> filter (λ cells, ¬ blank cells) lines.

(** At most one row is featured for a target and a data product type. *)
Definition at_most_one_featured (table : gmap Z DataProduct) : Prop :=
  map_Forall (λ k1 p1,
    map_Forall (λ k2 p2,
      featured p1 = true → featured p2 = true →
      DataProductFeatureView.same_pair p1 p2 → k1 = k2) table) table.

#[global] Instance at_most_one_featured_dec table : Decision (at_most_one_featured table).
Proof. unfold at_most_one_featured. apply _. Defined.

(** The cache key of the featured image of a product's target. *)
Definition featured_image_key (env : Env) (p : DataProduct) : string :=
  make_template_fragment_key env "featured_image" (pretty (target_id (target p))).

(** The database hands out fresh primary keys: the rows of the product
    table, and the products the reduced data reference, lie below the next
    key. *)
Definition below (n : Z) (r : ReducedDatum) : Prop :=
  match data_product r with Some k => k < n | None => True end.

#[global] Instance below_dec n r : Decision (below n r).
Proof. unfold below. destruct (data_product r); apply _. Defined.

Definition well_formed (w : World) : Prop :=
  map_Forall (λ k _, k < next_pk w) (products w) ∧ Forall (below (next_pk w)) (reduced w).

#[global] Instance well_formed_dec w : Decision (well_formed w).
Proof. unfold well_formed. apply _. Defined.

(** The target and observation record [form_valid] works with. *)
Definition selection (form : DataProductUploadView.Form)
    : option (Target * option ObservationRecord) :=
  match DataProductUploadView.cleaned_target form with
  | Some target => Some (target, None)
  | None => (λ o, (observation_target o, Some o))
              <$> DataProductUploadView.cleaned_observation_record form
  end.

(** The rows the processing of an upload inserts for the product [pk]. *)
Definition created_rows (env : Env) (pk : Z) (dp : DataProduct) : list ReducedDatum :=
  (λ v, {| data_product := Some pk; value := v |}) <$> created (process_upload env pk dp).

(** How the upload of the file [f], saved under the key [pk], has ended in
    the world [w'] with the names [uploads] reported: after a failure
    neither the product nor a reduced datum of it is left and the error is
    flashed; after a success the product, its reduced data and its name are
    there. *)
Definition upload_settled (env : Env) (target : Target)
    (observation_record : option ObservationRecord) (dp_type : string)
    (uploads : list string) (w' : World) (pk : Z) (f : string * string) : Prop :=
  let dp := DataProductUploadView.new_product env target observation_record dp_type f in
  match raised (process_upload env pk dp) with
  | Some e =>
      products w' !! pk = None ∧
      (∀ r, r ∈ reduced w' → ¬ references pk r) ∧
      (ERROR, DataProductUploadView.error_message env e dp) ∈ flashes w'
  | None =>
      products w' !! pk = Some dp ∧
      filter (references pk) (reduced w') = created_rows env pk dp ∧
      DataProduct_str env dp ∈ uploads
  end.

(** ** Sample data *)

Module Sample.

Definition M31 : Target := {| target_id := 7; target_name := "M31" |}.

Definition photometry : DataProduct :=
  {| target := M31; observation_record := None;
     data := {| file_name := "M31/phot.csv" |}; product_id := None;
     data_product_type := "photometry"; featured := false |}.

Definition spectrum : DataProduct :=
  {| target := M31; observation_record := None;
     data := {| file_name := "M31/spec.fits" |}; product_id := None;
     data_product_type := "spectroscopy"; featured := true |}.

Definition finder : DataProduct :=
  {| target := M31; observation_record := None;
     data := {| file_name := "M31/finder.png" |}; product_id := None;
     data_product_type := "image_file"; featured := true |}.

Definition closeup : DataProduct :=
  {| target := M31; observation_record := None;
     data := {| file_name := "M31/closeup.png" |}; product_id := None;
     data_product_type := "image_file"; featured := false |}.

Definition row1 : Row :=
  {[ Some "time" := JStr "59000.1"; Some "filter" := JStr "r";
     Some "magnitude" := JStr "17.2"; Some "error" := JStr "0.05" ]}.

Definition row2 : Row :=
  {[ Some "time" := JStr "59001.3"; Some "filter" := JStr "g";
     Some "magnitude" := JStr "17.9"; Some "error" := JStr "0.07" ]}.

(** The photometry file of M31: a header and two observations. *)
Definition phot_csv : string :=
  "time,filter,magnitude,error" +:+ nl
  +:+ "59000.1,r,17.2,0.05" +:+ nl
  +:+ "59001.3,g,17.9,0.07" +:+ nl.

Fixpoint digits (s : string) : bool :=
  match s with
  | EmptyString => true
  | String c rest =>
      bool_decide (48 ≤ N_of_ascii c ≤ 57)%N && digits rest
  end.

(** A URL configuration with the target pages under [/targets/<int:pk>/]
    and the home page. *)
Definition urls (viewname : string) (kwargs : list (string * option string)) : option string :=
  match kwargs with
  | [] => if decide (viewname = "home") then Some "/" else None
  | [("pk", Some pk)] =>
      if decide (viewname = "tom_targets:detail")
      then if digits pk && negb (bool_decide (pk = "")) then Some ("/targets/" +:+ pk +:+ "/")
           else None
      else None
  | _ => None
  end.

Definition sharing : Settings :=
  {| DATA_SHARING :=
       {[ "hermes" := {[ "BASE_URL" := "https://hermes.example/" ]};
          "tom" := {[ "BASE_URL" := "https://tom.example/";
                      "USERNAME" := "alice"; "PASSWORD" := "secret" ]} ]};
     MEDIA_ROOT := "/media"; TARGET_PERMISSIONS_ONLY := false |}.

(** A destination that knows [n] targets of every name asked for. *)
Definition env (n : Z) : Env :=
  {| settings := sharing;
     DataProduct_str := λ p, file_name (data p);
     datetime_now := "2023-01-01 00:00:00";
     targets_api := λ _ _ params,
       inr {| count := n;
              results := replicate (Z.to_nat n)
                           {| remote_id := 42; remote_name := "M31";
                              remote_aliases := ["NGC 224"; "Andromeda"] |} |};
     post_api := λ _ _, inr {| status_code := 201; text := "created" |};
     reverse_url := urls;
     getcwd := "/srv/tom";
     csv_nul_error := true;
     process_upload := λ pk dp,
       if decide (file_name (data dp) = "M31/bad.csv")
       then {| created := ["17.2"]; raised := Some (InvalidFileFormatException "no time column") |}
       else if decide (file_name (data dp) = "M31/broken.csv")
       then {| created := []; raised := Some (OtherException "hook failed") |}
       else {| created := ["17.2"; "17.9"]; raised := None |};
     upload_to := λ t _ name, target_name t +:+ "/" +:+ name;
     make_template_fragment_key := λ fragment vary, "template.cache." +:+ fragment +:+ "." +:+ vary;
     urlparse_path := λ url, url |}.

Definition world : World :=
  {| products := {[ 1 := photometry; 2 := spectrum; 3 := finder; 4 := closeup ]};
     reduced := [ {| data_product := Some 1; value := "17.2" |};
                  {| data_product := Some 2; value := "flux" |};
                  {| data_product := None; value := "broker" |} ];
     next_pk := 5;
     media := {[ "/media/M31/phot.csv" := phot_csv;
                 "/media/M31/spec.fits" := "SIMPLE";
                 "/media/M31/finder.png" := "PNG"; "/media/M31/closeup.png" := "PNG" ]};
     cache := {[ "template.cache.featured_image.7" ]};
     perms := []; flashes := []; trace := [] |}.

Definition request : HttpRequest :=
  {| GET := {[ "target_id" := "7" ]};
     FILES := [("good.csv", "a"); ("bad.csv", "b"); ("broken.csv", "c"); ("fine.csv", "d")] |}.

Definition form : DataProductUploadView.Form :=
  {| DataProductUploadView.cleaned_target := Some M31;
     DataProductUploadView.cleaned_observation_record := None;
     DataProductUploadView.cleaned_data_product_type := "photometry";
     DataProductUploadView.cleaned_groups := ["observers"];
     DataProductUploadView.cleaned_referrer := Some "/targets/7/" |}.

End Sample.

(** ** DataProductSaveView *)

Module DataProductSaveView.

(** What [post] does besides answering: the calls to the facility, the
    hooks it runs and the messages it flashes, in order. *)
Inductive action : Type :=
| SaveDataProducts (facility : string) (observation : Z) (product : option string)
| RunHook (name : string) (saved : list DataProduct)
| Message (lvl : level) (msg : string).

(** [request.POST]: the facility posted, if any, and the products ticked. *)
Record Posted := { posted_facility : option string; posted_products : list string }.

(** The observation facilities, outside this module: [get_service_class]
    finds the class of a name or raises, and [save_data_products] of the
    class answers with the products it has saved for the observation, all
    of them or the one asked for. What a facility writes is its own
    business and is not followed here. *)
Record Facilities := {
  get_service_class :
    string → exn + (ObservationRecord → option string → list DataProduct);
  observation_records : gmap Z ObservationRecord
}.

Section View.

Context (env : Env) (facilities : Facilities).

(** The loop over the ticked products, with the list it accumulates. *)
Fixpoint save_selected (facility : string)
    (save_data_products : ObservationRecord → option string → list DataProduct)
    (observation_record : ObservationRecord) (products : list string)
    (total_saved_products : list DataProduct) (done : list action)
    : list DataProduct * list action :=
  match products with
  | [] => (total_saved_products, done)
  | product :: rest =>
      let saved_products := save_data_products observation_record (Some product) in
      save_selected facility save_data_products observation_record rest
        (total_saved_products ++ saved_products)
        (done ++ [SaveDataProducts facility (observation_id observation_record) (Some product);
                  RunHook "data_product_post_save" saved_products;
                  Message SUCCESS
                    ("Successfully saved: "
                     +:+ String.concat nl (DataProduct_str env <$> saved_products))])
  end.

Definition post (request : Posted) (pk : Z) : Result HttpResponseRedirect * list action :=
  match posted_facility request with
  | None => (Raise (KeyError "facility"), [])
  | Some facility =>
      match get_service_class facilities facility with
      | inl e => (Raise e, [])
      | inr save_data_products =>
          match observation_records facilities !! pk with
          | None => (Raise DoesNotExist, [])
          | Some observation_record =>
              let products := posted_products request in
              (Ok (redirect (Reverse "tom_observations:detail"
                               (Some (pretty (observation_id observation_record))))),
               match products with
               | [] =>
                   [Message WARNING
                      "No products were saved, please select at least one dataproduct"]
               | first :: _ =>
                   if decide (first = "ALL") then
                     [SaveDataProducts facility (observation_id observation_record) None;
                      Message SUCCESS "Saved all available data products"]
                   else
                     let '(total_saved_products, done) :=
                       save_selected facility save_data_products observation_record
                         products [] [] in
                     done ++ [RunHook "multiple_data_products_post_save" total_saved_products]
               end)
          end
      end
  end.

End View.

End DataProductSaveView.

(** ** DataProductGroupDetailView and DataProductGroupDataView *)

(** The group tables: the groups by key, and the pairs (group, product) of
    the many-to-many relation between groups and products. *)
Record Catalog := {
  catalog_products : gmap Z DataProduct;
  catalog_groups : gmap Z string;
  membership : gset (Z * Z)
}.

Definition set_membership (f : gset (Z * Z) → gset (Z * Z)) (c : Catalog) : Catalog :=
  {| catalog_products := catalog_products c; catalog_groups := catalog_groups c;
     membership := f (membership c) |}.

Module DataProductGroupDetailView.

(** The loop of [post]: each posted key is looked up, then its product is
    taken out of the group; a key without a product stops the loop where
    it stands. *)
Fixpoint remove_products (group : Z) (products : list Z) (c : Catalog)
    : Result unit * Catalog :=
  match products with
  | [] => (Ok (), c)
  | product :: rest =>
      match catalog_products c !! product with
      | None => (Raise DoesNotExist, c)
      | Some _ => remove_products group rest (set_membership (λ m, m ∖ {[(group, product)]}) c)
      end
  end.

Definition post (posted_products : list Z) (pk : Z) (c : Catalog)
    : Result HttpResponseRedirect * Catalog :=
  match catalog_groups c !! pk with
  | None => (Raise Http404, c)
  | Some _ =>
      match remove_products pk posted_products c with
      | (Ok _, c') =>
          (Ok (redirect (Reverse "tom_dataproducts:group-detail" (Some (pretty pk)))), c')
      | (Raise e, c') => (Raise e, c')
      end
  end.

End DataProductGroupDetailView.

Module DataProductGroupDataView.

(** [form_valid] with the group and the products of a valid form: the
    products are added to [group.dataproduct_set]. *)
Definition form_valid (group : Z) (products : list Z) (c : Catalog)
    : HttpResponseRedirect * Catalog :=
  (redirect (Reverse "tom_dataproducts:group-detail" (Some (pretty group))),
   set_membership (λ m, m ∪ list_to_set ((group,.) <$> products)) c).

End DataProductGroupDataView.

(** ** Further vocabulary *)

(** What the loop of [DataProductSaveView.post] does for one ticked
    product: the call, the hook on what it saved, the message. *)
Definition saved_one (env : Env) (facility : string)
    (save_data_products : ObservationRecord → option string → list DataProduct)
    (observation_record : ObservationRecord) (product : string)
    : list DataProductSaveView.action :=
  [DataProductSaveView.SaveDataProducts facility (observation_id observation_record)
     (Some product);
   DataProductSaveView.RunHook "data_product_post_save"
     (save_data_products observation_record (Some product));
   DataProductSaveView.Message SUCCESS
     ("Successfully saved: "
      +:+ String.concat nl
            (DataProduct_str env <$> save_data_products observation_record (Some product)))].

(** The first of the four photometry columns a row lacks, in the order
    [submit_to_stream] reads them. *)
Definition missing_column (row : Row) : option string :=
  if decide (row !! Some "time" = None) then Some "time"
  else if decide (row !! Some "filter" = None) then Some "filter"
  else if decide (row !! Some "magnitude" = None) then Some "magnitude"
  else if decide (row !! Some "error" = None) then Some "error"
  else None.

(** Everything a request can leave behind, the trace apart, is as before. *)
Definition untouched (w w' : World) : Prop :=
  products w' = products w ∧ reduced w' = reduced w ∧ next_pk w' = next_pk w ∧
  media w' = media w ∧ cache w' = cache w ∧ perms w' = perms w ∧
  flashes w' = flashes w.

(** The reply of the destination TOM to the POST of a product. *)
Definition dataproduct_reply (env : Env) (base : string) (product : DataProduct)
    (remote_pk : Z) (contents : string) : string + HttpResponse :=
  post_api env (base +:+ "api/dataproducts/")
    (MultipartBody [("target", JNum remote_pk);
                    ("data_product_type", JStr (data_product_type product))]
                   [("file", (file_name (data product), contents, "text/csv"))]).

(** Every reduced datum that names a product names one of the table. *)
Definition owned (table : gmap Z DataProduct) (r : ReducedDatum) : Prop :=
  match data_product r with Some k => is_Some (table !! k) | None => True end.

#[global] Instance owned_dec table r : Decision (owned table r).
Proof. unfold owned. destruct (data_product r); apply _. Defined.

Definition referential_integrity (w : World) : Prop :=
  Forall (owned (products w)) (reduced w).

#[global] Instance referential_integrity_dec w : Decision (referential_integrity w).
Proof. unfold referential_integrity. apply _. Defined.

(** The product table after [DataProductFeatureView.get] has featured the
    row [product] of key [k]: the featured rows of its target and type are
    unfeatured, then the selection is stored as featured. *)
Definition unfeature_pair (product p : DataProduct) : DataProduct :=
  if decide (featured p = true ∧ DataProductFeatureView.same_pair product p)
  then with_featured p false else p.

Definition feature_in (product : DataProduct) (k : Z) (table : gmap Z DataProduct)
    : gmap Z DataProduct :=
  <[k := with_featured product true]> (unfeature_pair product <$> table).

(** The permissions [form_valid] grants to the groups for one uploaded
    product and its reduced data. *)
Definition grants (pk : Z) (rows : list ReducedDatum) (groups : list string)
    : list (string * string * perm_object) :=
  groups ≫= λ group,
    [("tom_dataproducts.view_dataproduct", group, OnProduct pk);
     ("tom_dataproducts.delete_dataproduct", group, OnProduct pk);
     ("tom_dataproducts.view_reduceddatum", group, OnReduced rows)].

(** The uploads of a request in order: the key each file is saved under,
    its product, and the exception its processing raises, if any. *)
Fixpoint upload_outcomes (env : Env) (target : Target)
    (observation_record : option ObservationRecord) (dp_type : string) (pk : Z)
    (files : list (string * string)) : list (Z * DataProduct * option exn) :=
  match files with
  | [] => []
  | f :: rest =>
      let dp := DataProductUploadView.new_product env target observation_record dp_type f in
      (pk, dp, raised (process_upload env pk dp))
        :: upload_outcomes env target observation_record dp_type (pk + 1) rest
  end.

(** The error flashes, the names reported as uploaded and the permissions
    granted, read off the outcomes. *)
Definition error_flashes (env : Env) (outcomes : list (Z * DataProduct * option exn))
    : list (level * string) :=
  outcomes ≫= λ '(_, dp, r),
    match r with
    | Some e => [(ERROR, DataProductUploadView.error_message env e dp)]
    | None => []
    end.

Definition uploaded_names (env : Env) (outcomes : list (Z * DataProduct * option exn))
    : list string :=
  outcomes ≫= λ '(_, dp, r),
    match r with Some _ => [] | None => [DataProduct_str env dp] end.

Definition upload_grants (env : Env) (groups : list string)
    (outcomes : list (Z * DataProduct * option exn)) : list (string * string * perm_object) :=
  outcomes ≫= λ '(pk, dp, r),
    match r with Some _ => [] | None => grants pk (created_rows env pk dp) groups end.

Definition success_flash (names : list string) : list (level * string) :=
  if decide (names = []) then []
  else [(SUCCESS, "Successfully uploaded: " +:+ String.concat nl names)].

(** The storage after the files have been saved in order. *)
Definition stored (env : Env) (target : Target)
    (observation_record : option ObservationRecord) (dp_type : string)
    (files : list (string * string)) (storage : gmap string string) : gmap string string :=
  foldl (λ m f,
           <[data_path env (DataProductUploadView.new_product env target observation_record
                              dp_type f) := f.2]> m)
        storage files.

(** ** Further sample data *)

Module Cases.

(** A row without its filter and error columns. *)
Definition short_row : Row :=
  {[ Some "time" := JStr "59002.0"; Some "magnitude" := JStr "18.1" ]}.

(** A product whose file is not in the storage. *)
Definition lost : DataProduct :=
  {| target := Sample.M31; observation_record := None;
     data := {| file_name := "M31/lost.csv" |}; product_id := None;
     data_product_type := "photometry"; featured := false |}.

(** A photometry product that has no file. *)
Definition nameless : DataProduct :=
  {| target := Sample.M31; observation_record := None;
     data := {| file_name := "" |}; product_id := None;
     data_product_type := "photometry"; featured := false |}.

(** The sample form with a referrer that is neither a URL nor the name of
    one. *)
Definition stray_form : DataProductUploadView.Form :=
  {| DataProductUploadView.cleaned_target := Some Sample.M31;
     DataProductUploadView.cleaned_observation_record := None;
     DataProductUploadView.cleaned_data_product_type := "photometry";
     DataProductUploadView.cleaned_groups := ["observers"];
     DataProductUploadView.cleaned_referrer := Some "nowhere" |}.

(** The sample environment with both remote services out of reach. *)
Definition offline : Env :=
  {| settings := settings (Sample.env 1);
     DataProduct_str := DataProduct_str (Sample.env 1);
     datetime_now := datetime_now (Sample.env 1);
     targets_api := λ _ _ _, inl (RequestException "Connection refused");
     post_api := λ _ _, inl "Connection refused";
     reverse_url := reverse_url (Sample.env 1);
     getcwd := getcwd (Sample.env 1);
     csv_nul_error := csv_nul_error (Sample.env 1);
     process_upload := process_upload (Sample.env 1);
     upload_to := upload_to (Sample.env 1);
     make_template_fragment_key := make_template_fragment_key (Sample.env 1);
     urlparse_path := urlparse_path (Sample.env 1) |}.

End Cases.

Module Staff.

(** A facility that saves one product for a product id and two for the
    whole observation. *)
Definition frame (name : string) : DataProduct :=
  {| target := Sample.M31; observation_record := None;
     data := {| file_name := "M31/" +:+ name |}; product_id := Some name;
     data_product_type := "image_file"; featured := false |}.

Definition night : ObservationRecord :=
  {| observation_id := 11; observation_target := Sample.M31 |}.

Definition facilities : DataProductSaveView.Facilities :=
  {| DataProductSaveView.get_service_class := λ name,
       if decide (name = "LCO")
       then inr (λ _ product,
                   match product with
                   | Some p => [frame p]
                   | None => [frame "a.fits"; frame "b.fits"]
                   end)
       else inl (OtherException "Could not a find a facility with that name.");
     DataProductSaveView.observation_records := {[ 11 := night ]} |}.

Definition catalog : Catalog :=
  {| catalog_products := products Sample.world;
     catalog_groups := {[ 1 := "survey"; 2 := "follow-up" ]};
     membership := {[ (1, 1); (1, 2); (2, 1) ]} |}.

End Staff.

(** * Properties *)

(** ** Running the monad *)

Ltac run :=
  repeat (progress (unfold mbind, M_bind, mret, M_ret, raise, try_except, emit, effect, read,
                    requests_get, requests_post, logger, messages, open, getitem,
                    row_getitem; cbn)).

Lemma trace_add_events (evs : list event) : ∀ w,
  trace (foldl (λ w e, add_event e w) w evs) = trace w ++ evs.
Proof.
  induction evs as [|e evs IH]; intros w; simpl.
  - by rewrite app_nil_r.
  - rewrite IH. simpl. by rewrite <- app_assoc.
Qed.

(** ** DataProductShareView.submit_to_stream *)

Section SubmitToStream.

Context (env : Env).

Import DataProductShareView.

Lemma hermes_entry_ok target_name row w :
  photometry_row row →
  ∃ entry, hermes_entry target_name row w = (Ok entry, w) ∧ maps_to target_name row entry.
Proof.
  intros ([t Ht] & [f Hf] & [m Hm] & [e He]).
  eexists. split.
  - unfold hermes_entry. run. rewrite Ht. run. rewrite Hf. run.
    rewrite Hm. run. rewrite He. run. reflexivity.
  - by exists t, f, m, e.
Qed.

Lemma hermes_loop_ok target_name rows : ∀ acc w,
  Forall photometry_row rows →
  ∃ entries, hermes_loop target_name rows acc w = (Ok (acc ++ entries), w)
             ∧ Forall2 (maps_to target_name) rows entries.
Proof.
  induction rows as [|row rows IH]; intros acc w Hrows.
  - exists []. rewrite app_nil_r. split; [reflexivity | constructor].
  - apply Forall_cons in Hrows as [Hrow Hrows].
    destruct (hermes_entry_ok target_name row w Hrow) as (entry & Hentry & Hmap).
    destruct (IH (acc ++ [entry]) w Hrows) as (entries & Hloop & Hmaps).
    exists (entry :: entries). split; [|by constructor].
    cbn. unfold mbind, M_bind. rewrite Hentry, Hloop.
    by rewrite <- app_assoc.
Qed.

(** The loop reads rows and touches nothing else. *)
Lemma hermes_entry_pure target_name row w : (hermes_entry target_name row w).2 = w.
Proof.
  unfold hermes_entry. run.
  repeat (match goal with |- context [?m !! ?k] => destruct (m !! k) end; run); reflexivity.
Qed.

Lemma hermes_loop_pure target_name rows : ∀ acc w,
  (hermes_loop target_name rows acc w).2 = w.
Proof.
  induction rows as [|row rows IH]; intros acc w; [reflexivity|].
  cbn. unfold mbind, M_bind.
  pose proof (hermes_entry_pure target_name row w) as Hw.
  destruct (hermes_entry target_name row w) as [[entry|e] w1]; simpl in Hw; subst w1.
  - apply IH.
  - reflexivity.
Qed.

(** A row that lacks a column stops the loop with the KeyError of a
    column. *)
Lemma hermes_entry_raises target_name row w e :
  (hermes_entry target_name row w).1 = Raise e → ¬ photometry_row row ∧ ∃ key, e = KeyError key.
Proof.
  unfold hermes_entry, photometry_row. run.
  destruct (row !! Some "time") as [t|]; run;
    [|intros [= <-]; split; [by intros ([? ?] & _)|by eexists]].
  destruct (row !! Some "filter") as [f|]; run;
    [|intros [= <-]; split; [by intros (_ & [? ?] & _)|by eexists]].
  destruct (row !! Some "magnitude") as [m|]; run;
    [|intros [= <-]; split; [by intros (_ & _ & [? ?] & _)|by eexists]].
  destruct (row !! Some "error") as [r|]; run;
    [|intros [= <-]; split; [by intros (_ & _ & _ & [? ?])|by eexists]].
  done.
Qed.

Lemma hermes_loop_raises target_name rows : ∀ acc w e,
  (hermes_loop target_name rows acc w).1 = Raise e →
  ¬ Forall photometry_row rows ∧ ∃ key, e = KeyError key.
Proof.
  induction rows as [|row rows IH]; intros acc w e; [done|].
  cbn. unfold mbind, M_bind.
  destruct (hermes_entry target_name row w) as [[entry|e0] w1] eqn:Hentry.
  - intros Hloop. destruct (IH _ _ _ Hloop) as [Hnot Hkey]. split; [|done].
    intros Hall. apply Hnot. by apply Forall_cons in Hall as [_ ?].
  - simpl. intros [= <-].
    destruct (hermes_entry_raises target_name row w e0) as [Hnot Hkey]; [by rewrite Hentry|].
    split; [|done]. intros Hall. apply Hnot. by apply Forall_cons in Hall as [? _].
Qed.

(** The runs of [submit_to_stream]: it raises before the call and leaves
    the world as it was, or it makes the POST and ends as the call ends. *)
Lemma submit_to_stream_cases stream_name target_name rows message w :
  (∃ e, submit_to_stream env stream_name target_name rows message w = (Raise e, w)) ∨
  (∃ url body r, submit_to_stream env stream_name target_name rows message w
                 = (r, add_event (HttpPost url body [] None) w)).
Proof.
  unfold submit_to_stream. run.
  destruct (DATA_SHARING (settings env) !! stream_name) as [d|]; run; [|by left; eexists].
  destruct (d !! "BASE_URL") as [base|]; run; [|by left; eexists].
  pose proof (hermes_loop_pure target_name rows [] w) as Hw.
  destruct (hermes_loop target_name rows [] w) as [[entries|e] w1]; simpl in Hw; subst w1.
  - right. destruct (post_api env _ _); by do 3 eexists.
  - left. by eexists.
Qed.

(** The run with a configured base URL and complete rows. *)
Lemma submit_to_stream_run stream_name target_name rows message w base_url :
  sharing_key (settings env) stream_name "BASE_URL" = Some base_url →
  Forall photometry_row rows →
  ∃ payload,
    Forall2 (maps_to target_name) rows payload ∧
    submit_to_stream env stream_name target_name rows message w
    = (match post_api env (base_url +:+ "submit/") (JsonBody (alert env payload)) with
       | inr _ => Ok ()
       | inl msg => Raise (RequestException msg)
       end,
       add_event (HttpPost (base_url +:+ "submit/") (JsonBody (alert env payload)) [] None) w).
Proof.
  intros Hbase Hrows. unfold sharing_key in Hbase.
  destruct (DATA_SHARING (settings env) !! stream_name) as [d|] eqn:Hd; [|done].
  simpl in Hbase.
  destruct (hermes_loop_ok target_name rows [] w Hrows) as (payload & Hloop & Hmaps).
  exists payload. split; [done|].
  unfold submit_to_stream. run. rewrite Hd. run. rewrite Hbase. run.
  rewrite Hloop. by destruct (post_api env _ _).
Qed.

(** C4. With a configured base URL and rows that carry the four photometry
    columns, [submit_to_stream] makes one POST, without credentials, to the
    base URL followed by [submit/]. Its JSON body is the alert with the
    fixed topic, title and author, the message text with the time of the
    call, and under data, photometry_data the list of entries that pairs
    with the input rows one to one and in order, each entry holding the
    target name as photometryId, the row's time, filter, magnitude and
    error as dateObs, band, brightness and brightnessError, and the unit
    AB mag. The run returns when the call is answered and raises what the
    call raises. *)
Theorem submit_to_stream_payload stream_name target_name rows message w base_url :
  sharing_key (settings env) stream_name "BASE_URL" = Some base_url →
  Forall photometry_row rows →
  ∃ payload,
    Forall2 (λ (row : Row) entry,
               ∃ t f m e,
                 row !! Some "time" = Some t ∧ row !! Some "filter" = Some f ∧
                 row !! Some "magnitude" = Some m ∧ row !! Some "error" = Some e ∧
                 entry = JObj [("photometryId", JStr target_name); ("dateObs", t);
                               ("band", f); ("brightness", m); ("brightnessError", e);
                               ("brightnessUnit", JStr "AB mag")])
            rows payload ∧
    let body :=
      JsonBody (JObj [("topic", JStr "hermes.test");
                      ("title", JStr "TOM Toolkit test (Photometry)");
                      ("author", JStr "llindstrom@lco.global");
                      ("data", JObj [("photometry_data", JList payload)]);
                      ("message_text",
                       JStr ("Test alert from TOM Toolkit at " +:+ datetime_now env))]) in
    submit_to_stream env stream_name target_name rows message w
    = (match post_api env (base_url +:+ "submit/") body with
       | inr _ => Ok ()
       | inl msg => Raise (RequestException msg)
       end,
       add_event (HttpPost (base_url +:+ "submit/") body [] None) w).
Proof.
  intros Hbase Hrows.
  destruct (submit_to_stream_run stream_name target_name rows message w base_url Hbase Hrows)
    as (payload & Hmaps & Hrun).
  exists payload. split; [exact Hmaps | exact Hrun].
Qed.

End SubmitToStream.

Lemma submit_to_stream_payload_witness :
  DataProductShareView.submit_to_stream (Sample.env 1) "hermes" "M31"
    [Sample.row1; Sample.row2] "From TOMToolkit" Sample.world
  = (Ok (),
     add_event
       (HttpPost "https://hermes.example/submit/"
          (JsonBody
             (JObj [("topic", JStr "hermes.test");
                    ("title", JStr "TOM Toolkit test (Photometry)");
                    ("author", JStr "llindstrom@lco.global");
                    ("data",
                     JObj [("photometry_data",
                            JList [JObj [("photometryId", JStr "M31");
                                         ("dateObs", JStr "59000.1"); ("band", JStr "r");
                                         ("brightness", JStr "17.2");
                                         ("brightnessError", JStr "0.05");
                                         ("brightnessUnit", JStr "AB mag")];
                                   JObj [("photometryId", JStr "M31");
                                         ("dateObs", JStr "59001.3"); ("band", JStr "g");
                                         ("brightness", JStr "17.9");
                                         ("brightnessError", JStr "0.07");
                                         ("brightnessUnit", JStr "AB mag")]])]);
                    ("message_text",
                     JStr "Test alert from TOM Toolkit at 2023-01-01 00:00:00")]))
          [] None) Sample.world).
Proof.
  destruct (submit_to_stream_payload (Sample.env 1) "hermes" "M31"
              [Sample.row1; Sample.row2] "From TOMToolkit" Sample.world
              "https://hermes.example/") as (payload & Hmaps & Hrun).
  - reflexivity.
  - refine (bool_decide_unpack _ _). vm_compute. exact I.
  - rewrite Hrun. clear Hrun.
    apply Forall2_cons_inv_l in Hmaps
      as (e1 & rest & (t1 & f1 & m1 & r1 & Ht1 & Hf1 & Hm1 & Hr1 & ->) & Hmaps & ->).
    apply Forall2_cons_inv_l in Hmaps
      as (e2 & rest' & (t2 & f2 & m2 & r2 & Ht2 & Hf2 & Hm2 & Hr2 & ->) & Hmaps & ->).
    apply Forall2_nil_inv_l in Hmaps as ->.
    vm_compute in Ht1, Hf1, Hm1, Hr1, Ht2, Hf2, Hm2, Hr2.
    injection Ht1 as <-. injection Hf1 as <-. injection Hm1 as <-. injection Hr1 as <-.
    injection Ht2 as <-. injection Hf2 as <-. injection Hm2 as <-. injection Hr2 as <-.
    reflexivity.
Defined.

(** ** DataProductShareView.share_with_tom *)

Section ShareWithTom.

Context (env : Env).

Import DataProductShareView.

Lemma sharing_setting_ok tom_name key v w :
  sharing_key (settings env) tom_name key = Some v →
  sharing_setting env tom_name key w = (Ok v, w).
Proof.
  unfold sharing_key, sharing_setting. intros H. run.
  destruct (DATA_SHARING (settings env) !! tom_name) as [d|]; [|done].
  simpl in H. run. by rewrite H.
Qed.

Lemma sharing_setting_err tom_name key w :
  sharing_key (settings env) tom_name key = None →
  ∃ missing, sharing_setting env tom_name key w = (Raise (KeyError missing), w).
Proof.
  unfold sharing_key, sharing_setting. intros H. run.
  destruct (DATA_SHARING (settings env) !! tom_name) as [d|]; run; [|by eexists].
  simpl in H. rewrite H. by eexists.
Qed.

Lemma sharing_credentials_ok tom_name base username password w :
  sharing_key (settings env) tom_name "BASE_URL" = Some base →
  sharing_key (settings env) tom_name "USERNAME" = Some username →
  sharing_key (settings env) tom_name "PASSWORD" = Some password →
  sharing_credentials env tom_name w = (Ok (base, username, password), w).
Proof.
  intros Hb Hu Hp. unfold sharing_credentials, try_except, mbind, M_bind.
  rewrite (sharing_setting_ok _ _ _ _ Hb), (sharing_setting_ok _ _ _ _ Hu),
    (sharing_setting_ok _ _ _ _ Hp).
  reflexivity.
Qed.

Lemma sharing_credentials_err tom_name w :
  misconfigured (settings env) tom_name →
  ∃ msg, sharing_credentials env tom_name w = (Raise (ImproperlyConfigured msg), w).
Proof.
  intros Hmis. unfold sharing_credentials, try_except, mbind, M_bind.
  destruct (sharing_key (settings env) tom_name "BASE_URL") as [b|] eqn:Hb.
  2:{ destruct (sharing_setting_err _ _ w Hb) as [k ->]. by eexists. }
  rewrite (sharing_setting_ok _ _ _ _ Hb).
  destruct (sharing_key (settings env) tom_name "USERNAME") as [u|] eqn:Hu.
  2:{ destruct (sharing_setting_err _ _ w Hu) as [k ->]. by eexists. }
  rewrite (sharing_setting_ok _ _ _ _ Hu).
  destruct (sharing_key (settings env) tom_name "PASSWORD") as [p|] eqn:Hp.
  2:{ destruct (sharing_setting_err _ _ w Hp) as [k ->]. by eexists. }
  destruct Hmis as [H|[H|H]]; congruence.
Qed.

(** The second half of [share_with_tom], by the file, the remote key and
    the outcome of the POST. *)
Lemma post_dataproduct_cases base auth product remote_pk w :
  let path := upload_path env product in
  match media w !! path, remote_pk with
  | None, _ =>
      post_dataproduct env base auth product remote_pk w
      = (Raise (FileNotFoundError path), add_event (FileOpen path) w)
  | Some _, None =>
      post_dataproduct env base auth product remote_pk w
      = (Raise (UnboundLocalError "destination_tom_target_id"), add_event (FileOpen path) w)
  | Some contents, Some i =>
      match dataproduct_reply env base product i contents with
      | inr response =>
          post_dataproduct env base auth product remote_pk w
          = (Ok (), foldl (λ w e, add_event e w) w
                      [FileOpen path; dataproduct_post base auth product i contents;
                       Log DEBUG ("DataProductShareView.share_with_tom response.status_code: "
                                  +:+ pretty (status_code response));
                       Log DEBUG ("DataProductShareView.share_with_tom response.text: "
                                  +:+ text response)])
      | inl msg =>
          post_dataproduct env base auth product remote_pk w
          = (Raise (RequestException msg),
             foldl (λ w e, add_event e w) w
               [FileOpen path; dataproduct_post base auth product i contents])
      end
  end.
Proof.
  unfold upload_path, post_dataproduct, dataproduct_reply. run.
  destruct (media w !! _) as [contents|]; run; [|reflexivity].
  destruct remote_pk as [i|]; run; [|reflexivity].
  by destruct (post_api env _ _).
Qed.

(** Every run against a configured destination, by the reply to the GET. *)
Lemma share_with_tom_cases tom_name product base username password w :
  sharing_key (settings env) tom_name "BASE_URL" = Some base →
  sharing_key (settings env) tom_name "USERNAME" = Some username →
  sharing_key (settings env) tom_name "PASSWORD" = Some password →
  let auth := (username, password) in
  let w1 := add_event (targets_get base auth product) w in
  share_with_tom env tom_name product w =
    match targets_reply env base auth product with
    | inl e => (Raise e, w1)
    | inr reply =>
        if decide (count reply = 1) then
          match results reply with
          | first :: _ => post_dataproduct env base auth product (Some (remote_id first)) w1
          | [] => (Raise IndexError, w1)
          end
        else if decide (count reply = 0 ∨ count reply > 1) then
          (Ok (), add_event (Log WARNING
             (if decide (count reply = 0)
              then "DataProductShareView.share_with_tom Target "
                   +:+ target_name (target product)
                   +:+ " not found on " +:+ tom_name +:+ ". " +:+ "If target "
                   +:+ target_name (target product)
                   +:+ " does exist on the destination TOM, then this may an "
                   +:+ "authentication problem preventing access to the targets on "
                   +:+ tom_name +:+ "."
              else ambiguous_msg tom_name (target_name (target product)) (results reply))) w1)
        else post_dataproduct env base auth product None w1
    end.
Proof.
  intros Hb Hu Hp auth w1. unfold share_with_tom, mbind, M_bind.
  rewrite (sharing_credentials_ok _ _ _ _ w Hb Hu Hp). run.
  fold auth. fold (targets_reply env base auth product).
  fold (targets_get base auth product). fold w1.
  destruct (targets_reply env base auth product) as [e|reply]; [reflexivity|].
  destruct (decide (count reply = 1)) as [H1|H1].
  - by destruct (results reply).
  - destruct (decide (count reply = 0)) as [H0|H0].
    + rewrite decide_True by auto. reflexivity.
    + destruct (decide (count reply > 1)) as [Hgt|Hgt].
      * rewrite decide_True by auto. reflexivity.
      * rewrite decide_False by (intros [|]; done). reflexivity.
Qed.


(** C2. When the destination's [api/targets/] query answers with a count of
    0 or a count above 1, [share_with_tom] logs one warning after the GET
    and returns: no POST is made, no flash message is added and no stored
    row or file changes. *)
Theorem share_with_tom_missing_or_ambiguous tom_name product base username password reply w :
  sharing_key (settings env) tom_name "BASE_URL" = Some base →
  sharing_key (settings env) tom_name "USERNAME" = Some username →
  sharing_key (settings env) tom_name "PASSWORD" = Some password →
  targets_reply env base (username, password) product = inr reply →
  count reply = 0 ∨ count reply > 1 →
  ∃ w' msg,
    share_with_tom env tom_name product w = (Ok (), w') ∧
    trace w' = trace w ++ [targets_get base (username, password) product; Log WARNING msg] ∧
    flashes w' = flashes w ∧
    products w' = products w ∧ reduced w' = reduced w ∧ media w' = media w.
Proof.
  intros Hb Hu Hp Hreply Hcount.
  rewrite (share_with_tom_cases _ _ _ _ _ w Hb Hu Hp). cbv zeta. rewrite Hreply.
  rewrite decide_False by lia. rewrite decide_True by done.
  eexists _, _. split; [reflexivity|].
  split; [exact (trace_add_events [_; _] w)|]. by repeat split.
Qed.

(** C3, amended. A destination whose entry is absent or lacks BASE_URL,
    USERNAME or PASSWORD makes [share_with_tom] raise ImproperlyConfigured
    before any outbound call; [submit_to_stream] reads BASE_URL alone, and
    with that key present it raises no ImproperlyConfigured, whatever else
    the entry lacks. *)
Theorem misconfigured_sharing tom_name product w :
  misconfigured (settings env) tom_name →
  (∃ msg, share_with_tom env tom_name product w = (Raise (ImproperlyConfigured msg), w)) ∧
  (is_Some (sharing_key (settings env) tom_name "BASE_URL") →
   ∀ target_name rows message msg,
     (submit_to_stream env tom_name target_name rows message w).1
     ≠ Raise (ImproperlyConfigured msg)).
Proof.
  intros Hmis. split.
  - destruct (sharing_credentials_err tom_name w Hmis) as [msg Hmsg].
    exists msg. unfold share_with_tom, mbind, M_bind. by rewrite Hmsg.
  - intros [base Hbase] target_name rows message msg.
    unfold sharing_key in Hbase.
    destruct (DATA_SHARING (settings env) !! tom_name) as [d|] eqn:Hd; [|done].
    simpl in Hbase. unfold submit_to_stream. run. rewrite Hd. run. rewrite Hbase. run.
    destruct (hermes_loop target_name rows [] w) as [[entries|e] w1] eqn:Hloop.
    + by destruct (post_api env _ _).
    + simpl. intros [= ->].
      destruct (hermes_loop_raises target_name rows [] w (ImproperlyConfigured msg))
        as [_ [key Hkey]]; [by rewrite Hloop|done].
Qed.

(** The events of the second half of [share_with_tom]: the file is opened,
    and the POST follows when the file exists and the remote key is bound. *)
Lemma post_dataproduct_events base auth product remote_pk w :
  ∃ rest,
    trace (post_dataproduct env base auth product remote_pk w).2
    = trace w ++ FileOpen (upload_path env product) :: rest ∧
    (rest = [] ∨
     ∃ i contents logs,
       remote_pk = Some i ∧ media w !! upload_path env product = Some contents ∧
       filter (λ e, is_http e) logs = [] ∧
       rest = dataproduct_post base auth product i contents :: logs) ∧
    (is_Some remote_pk → is_Some (media w !! upload_path env product) → rest ≠ []).
Proof.
  pose proof (post_dataproduct_cases base auth product remote_pk w) as Hcases.
  cbv zeta in Hcases.
  destruct (media w !! upload_path env product) as [contents|] eqn:Hfile.
  - destruct remote_pk as [i|].
    + destruct (dataproduct_reply env base product i contents) as [msg|response];
        rewrite Hcases; eexists; (split; [|split]).
      * exact (trace_add_events [_; _] w).
      * right. by exists i, contents, [].
      * done.
      * exact (trace_add_events [_; _; _; _] w).
      * right. exists i, contents. eexists. split; [done|]. split; [done|].
        split; [|reflexivity]. done.
      * done.
    + rewrite Hcases. exists []. split; [|split].
      * exact (trace_add_events [_] w).
      * by left.
      * by intros [? ?].
  - assert (Hrun : post_dataproduct env base auth product remote_pk w
                   = (Raise (FileNotFoundError (upload_path env product)),
                      add_event (FileOpen (upload_path env product)) w)).
    { by destruct remote_pk. }
    rewrite Hrun. exists []. split; [|split].
    + exact (trace_add_events [_] w).
    + by left.
    + by intros _ [? ?].
Qed.

(** What a run against a configured destination appends to the trace:
    the GET, and after it either no HTTP call at all or the file opened and
    the POST, followed by log lines when the POST is answered. The POST is
    there exactly when the query is answered with a count of one and a
    target listed and the product's file can be opened. *)
Lemma share_with_tom_trace tom_name product base username password w :
  sharing_key (settings env) tom_name "BASE_URL" = Some base →
  sharing_key (settings env) tom_name "USERNAME" = Some username →
  sharing_key (settings env) tom_name "PASSWORD" = Some password →
  ∃ rest,
    trace (share_with_tom env tom_name product w).2
    = trace w ++ targets_get base (username, password) product :: rest ∧
    ((filter (λ e, is_http e) rest = [] ∧
      ¬ (∃ reply, targets_reply env base (username, password) product = inr reply ∧
                  count reply = 1 ∧ results reply ≠ [] ∧
                  is_Some (media w !! upload_path env product))) ∨
     ((∃ reply, targets_reply env base (username, password) product = inr reply ∧
                count reply = 1 ∧ results reply ≠ [] ∧
                is_Some (media w !! upload_path env product)) ∧
      ∃ i contents logs,
        filter (λ e, is_http e) logs = [] ∧
        rest = FileOpen (upload_path env product)
               :: dataproduct_post base (username, password) product i contents :: logs)).
Proof.
  intros Hb Hu Hp.
  rewrite (share_with_tom_cases _ _ _ _ _ w Hb Hu Hp). cbv zeta.
  set (auth := (username, password)).
  set (g := targets_get base auth product).
  assert (Hposts : ∀ remote_pk,
    ∃ rest,
      trace (post_dataproduct env base auth product remote_pk (add_event g w)).2
      = trace w ++ g :: rest ∧
      ((filter (λ e, is_http e) rest = [] ∧
        ¬ (is_Some remote_pk ∧ is_Some (media w !! upload_path env product))) ∨
       (is_Some remote_pk ∧ is_Some (media w !! upload_path env product) ∧
        ∃ i contents logs,
          filter (λ e, is_http e) logs = [] ∧
          rest = FileOpen (upload_path env product)
                 :: dataproduct_post base auth product i contents :: logs))).
  { intros remote_pk.
    destruct (post_dataproduct_events base auth product remote_pk (add_event g w))
      as (rest & Htrace & Hrest & Hsome).
    eexists. split.
    { rewrite Htrace. simpl. by rewrite <- app_assoc. }
    destruct Hrest as [->|(i & contents & logs & Hpk & Hfile & Hlogs & ->)].
    - left. split; [done|]. intros [Hpk Hfile]. by destruct (Hsome Hpk Hfile).
    - right. split; [by rewrite Hpk|]. split; [by eexists|].
      by exists i, contents, logs. }
  destruct (targets_reply env base auth product) as [e|reply] eqn:Hreply.
  { exists []. split; [reflexivity|]. left. split; [done|]. by intros (? & ? & _). }
  destruct (decide (count reply = 1)) as [H1|H1].
  - destruct (results reply) as [|first others] eqn:Hresults.
    + exists []. split; [reflexivity|]. left. split; [done|].
      intros (r & [= <-] & _ & Hne & _). by rewrite Hresults in Hne.
    + destruct (Hposts (Some (remote_id first)))
        as (rest & Htrace & [[Hnone Hnot]|(_ & Hfile & Hpost)]).
      * exists rest. split; [exact Htrace|]. left. split; [exact Hnone|].
        intros (r & _ & _ & _ & Hfile). apply Hnot. by split.
      * exists rest. split; [exact Htrace|]. right. split; [|exact Hpost].
        exists reply. split; [done|]. split; [done|]. split; [by rewrite Hresults|done].
  - destruct (decide (count reply = 0 ∨ count reply > 1)) as [Hc|Hc].
    + eexists. split; [exact (trace_add_events [_; _] w)|].
      left. split; [done|]. by intros (r & [= <-] & ? & _).
    + destruct (Hposts None) as (rest & Htrace & [[Hnone _]|([? [=]] & _)]).
      exists rest. split; [exact Htrace|]. left. split; [exact Hnone|].
      by intros (r & [= <-] & ? & _).
Qed.

(** C5, amended. Against a configured destination [share_with_tom] first
    issues the GET to [api/targets/] with the configured username and
    password as basic authentication. A POST follows if and only if the
    query is answered with a count of exactly one, the reply lists that
    target and the product's file can be opened; it goes to
    [api/dataproducts/] with the same authentication. *)
Theorem share_with_tom_requests tom_name product base username password w :
  sharing_key (settings env) tom_name "BASE_URL" = Some base →
  sharing_key (settings env) tom_name "USERNAME" = Some username →
  sharing_key (settings env) tom_name "PASSWORD" = Some password →
  ∃ rest,
    trace (share_with_tom env tom_name product w).2
    = trace w ++ HttpGet (base +:+ "api/targets/") (username, password)
                         [("name", target_name (target product))] :: rest ∧
    (∀ e, e ∈ rest → is_post e →
       ∃ body headers,
         e = HttpPost (base +:+ "api/dataproducts/") body headers (Some (username, password))) ∧
    ((∃ e, e ∈ rest ∧ is_post e) ↔
     (∃ reply,
        targets_api env (base +:+ "api/targets/") (username, password)
          [("name", target_name (target product))] = inr reply ∧
        count reply = 1 ∧ results reply ≠ [] ∧
        is_Some (media w !! os_path_join (MEDIA_ROOT (settings env))
                              (file_name (data product))))).
Proof.
  intros Hb Hu Hp.
  destruct (share_with_tom_trace tom_name product base username password w Hb Hu Hp)
    as (rest & Htrace & [[Hnone Hnot]|[Hone (i & contents & logs & Hlogs & ->)]]).
  - exists rest. split; [exact Htrace|].
    assert (Hnopost : ∀ e, e ∈ rest → ¬ is_post e).
    { intros e He Hpost.
      assert (Hin : e ∈ filter (λ e, is_http e) rest).
      { apply list_elem_of_filter. split; [by destruct e|done]. }
      rewrite Hnone in Hin. by apply elem_of_nil in Hin. }
    split.
    + intros e He Hpost. by destruct (Hnopost e He).
    + split; [|by intros Hyes]. intros (e & He & Hpost). exfalso. exact (Hnopost e He Hpost).
  - eexists. split; [exact Htrace|]. split.
    + intros e He Hpost.
      apply elem_of_cons in He as [->|He]; [done|].
      apply elem_of_cons in He as [->|He]; [by do 2 eexists|].
      assert (Hin : e ∈ filter (λ e, is_http e) logs).
      { apply list_elem_of_filter. split; [by destruct e|done]. }
      rewrite Hlogs in Hin. by apply elem_of_nil in Hin.
    + split; [intros _; exact Hone|]. intros _. eexists. split.
      * apply elem_of_cons. right. apply elem_of_cons. by left.
      * done.
Qed.

Lemma configured_keys tom_name :
  ¬ misconfigured (settings env) tom_name →
  ∃ base username password,
    sharing_key (settings env) tom_name "BASE_URL" = Some base ∧
    sharing_key (settings env) tom_name "USERNAME" = Some username ∧
    sharing_key (settings env) tom_name "PASSWORD" = Some password.
Proof.
  unfold misconfigured. intros Hcfg.
  destruct (sharing_key (settings env) tom_name "BASE_URL") as [b|]; [|tauto].
  destruct (sharing_key (settings env) tom_name "USERNAME") as [u|]; [|tauto].
  destruct (sharing_key (settings env) tom_name "PASSWORD") as [p|]; [|tauto].
  by exists b, u, p.
Qed.

(** The loop of [submit_to_stream] returns for complete rows only. *)
Lemma hermes_loop_returns target_name rows acc w entries :
  (hermes_loop target_name rows acc w).1 = Ok entries → Forall photometry_row rows.
Proof.
  intros Hok. destruct (decide (Forall photometry_row rows)) as [|Hnot]; [done|].
  exfalso. revert acc w entries Hok.
  induction rows as [|row rows IH]; intros acc w entries; [by destruct Hnot|].
  cbn. unfold mbind, M_bind.
  destruct (decide (photometry_row row)) as [Hrow|Hrow].
  - destruct (hermes_entry_ok target_name row w Hrow) as (entry & -> & _).
    apply IH. intros Hall. apply Hnot. by constructor.
  - destruct (hermes_entry target_name row w) as [[entry|e] w1] eqn:Hentry; [|done].
    exfalso. apply Hrow. revert Hentry. unfold hermes_entry, photometry_row. run.
    destruct (row !! Some "time"); run; [|done].
    destruct (row !! Some "filter"); run; [|done].
    destruct (row !! Some "magnitude"); run; [|done].
    destruct (row !! Some "error"); run; [|done].
    intros _. by repeat split.
Qed.

(** C6, amended. No outbound call is repeated. What [submit_to_stream]
    appends to the trace holds at most one HTTP call, a POST without
    credentials: exactly one when BASE_URL is configured for the stream and
    every row carries the photometry columns, and none otherwise. A call
    that fails is not made again: the run then ends with the exception of
    the call. What [share_with_tom] appends holds no HTTP call when the
    configuration is rejected, and otherwise exactly one GET, followed by
    at most one POST. *)
Theorem sharing_calls_not_repeated stream_name target_name rows message tom_name product w :
  (∃ evs,
     trace (submit_to_stream env stream_name target_name rows message w).2 = trace w ++ evs ∧
     (filter (λ e, is_http e) evs = [] ∨
      ∃ url body, filter (λ e, is_http e) evs = [HttpPost url body [] None]) ∧
     (filter (λ e, is_http e) evs ≠ [] ↔
      is_Some (sharing_key (settings env) stream_name "BASE_URL") ∧
      Forall photometry_row rows) ∧
     (∀ e, (submit_to_stream env stream_name target_name rows message w).1 = Raise e →
        filter (λ e, is_http e) evs ≠ [] → ∃ msg, e = RequestException msg)) ∧
  (∃ evs,
     trace (share_with_tom env tom_name product w).2 = trace w ++ evs ∧
     (misconfigured (settings env) tom_name → filter (λ e, is_http e) evs = []) ∧
     (¬ misconfigured (settings env) tom_name →
      ∃ g, is_get g ∧
        (filter (λ e, is_http e) evs = [g] ∨
         ∃ p, is_post p ∧ filter (λ e, is_http e) evs = [g; p]))).
Proof.
  split.
  - destruct (sharing_key (settings env) stream_name "BASE_URL") as [base|] eqn:Hbase.
    + destruct (decide (Forall photometry_row rows)) as [Hrows|Hrows].
      * destruct (submit_to_stream_run env stream_name target_name rows message w base
                    Hbase Hrows) as (payload & _ & ->).
        eexists [_]. split; [reflexivity|]. split; [right; by eexists _, _|].
        split; [done|]. simpl. intros e He _.
        destruct (post_api env _ _) as [msg|]; [|done].
        injection He as <-. by eexists.
      * exists []. unfold sharing_key in Hbase.
        destruct (DATA_SHARING (settings env) !! stream_name) as [d|] eqn:Hd; [|done].
        simpl in Hbase. unfold submit_to_stream. run. rewrite Hd. run. rewrite Hbase. run.
        pose proof (hermes_loop_pure target_name rows [] w) as Hw.
        pose proof (hermes_loop_returns target_name rows [] w) as Hret.
        destruct (hermes_loop target_name rows [] w) as [[entries|e] w1];
          simpl in Hw; subst w1.
        { destruct Hrows. by eapply Hret. }
        simpl. rewrite app_nil_r. split; [done|]. split; [by left|].
        split; [|done]. split; [done|]. by intros [_ ?].
    + exists []. unfold sharing_key in Hbase. unfold submit_to_stream. run.
      destruct (DATA_SHARING (settings env) !! stream_name) as [d|]; simpl in Hbase; run.
      * rewrite Hbase. simpl. rewrite app_nil_r. split; [done|]. split; [by left|].
        split; [|done]. split; [done|]. by intros [[? ?] _].
      * rewrite app_nil_r. split; [done|]. split; [by left|].
        split; [|done]. split; [done|]. by intros [[? ?] _].
  - destruct (decide (misconfigured (settings env) tom_name)) as [Hmis|Hcfg].
    + destruct (sharing_credentials_err tom_name w Hmis) as [msg Hmsg].
      exists []. unfold share_with_tom, mbind, M_bind. rewrite Hmsg.
      split_and!; [by rewrite app_nil_r | done | done].
    + destruct (configured_keys tom_name Hcfg) as (base & u & p & Hb & Hu & Hp).
      destruct (share_with_tom_trace tom_name product base u p w Hb Hu Hp)
        as (rest & Htrace & Hrest).
      eexists. split; [exact Htrace|]. split; [done|]. intros _.
      exists (targets_get base (u, p) product). split; [done|].
      destruct Hrest as [[Hnone _]|[_ (i & contents & logs & Hlogs & ->)]].
      * left. rewrite filter_cons_True by done. by rewrite Hnone.
      * right. eexists. split.
        2:{ rewrite filter_cons_True by done. rewrite filter_cons_False by (by intros []).
            rewrite filter_cons_True by done. rewrite Hlogs. reflexivity. }
        done.
Qed.

End ShareWithTom.

Lemma share_with_tom_missing_or_ambiguous_witness :
  ∃ w' msg,
    DataProductShareView.share_with_tom (Sample.env 2) "tom" Sample.photometry Sample.world
    = (Ok (), w') ∧
    trace w'
    = trace Sample.world
      ++ [targets_get "https://tom.example/" ("alice", "secret") Sample.photometry;
          Log WARNING msg] ∧
    flashes w' = flashes Sample.world ∧
    products w' = products Sample.world ∧ reduced w' = reduced Sample.world ∧
    media w' = media Sample.world.
Proof.
  eapply (share_with_tom_missing_or_ambiguous (Sample.env 2) "tom" Sample.photometry
            "https://tom.example/" "alice" "secret" _ Sample.world).
  - reflexivity.
  - reflexivity.
  - reflexivity.
  - reflexivity.
  - right. reflexivity.
Defined.

(** C3 as stated fails: the HERMES entry lacks USERNAME and PASSWORD, and
    [submit_to_stream] returns normally instead of raising
    ImproperlyConfigured. *)
Lemma submit_to_stream_needs_base_url_only :
  misconfigured (settings (Sample.env 1)) "hermes" ∧
  (DataProductShareView.submit_to_stream (Sample.env 1) "hermes" "M31"
     [Sample.row1] "From TOMToolkit" Sample.world).1 = Ok () ∧
  ¬ ∃ msg,
      (DataProductShareView.submit_to_stream (Sample.env 1) "hermes" "M31"
         [Sample.row1] "From TOMToolkit" Sample.world).1
      = Raise (ImproperlyConfigured msg).
Proof.
  split; [|split].
  - right. left. reflexivity.
  - vm_compute. reflexivity.
  - intros [msg H]. vm_compute in H. discriminate H.
Qed.

Lemma misconfigured_sharing_witness :
  (∃ msg, DataProductShareView.share_with_tom (Sample.env 1) "hermes" Sample.photometry
            Sample.world = (Raise (ImproperlyConfigured msg), Sample.world)) ∧
  (is_Some (sharing_key (settings (Sample.env 1)) "hermes" "BASE_URL") →
   ∀ target_name rows message msg,
     (DataProductShareView.submit_to_stream (Sample.env 1) "hermes" target_name rows message
        Sample.world).1
     ≠ Raise (ImproperlyConfigured msg)).
Proof.
  apply (misconfigured_sharing (Sample.env 1) "hermes" Sample.photometry Sample.world).
  right. left. reflexivity.
Defined.

(** C5 as stated fails: the destination counts exactly one target for the
    product [Cases.lost], whose file is not in the storage, and the run
    makes no POST. *)
Lemma share_with_tom_one_match_without_post :
  ¬ misconfigured (settings (Sample.env 1)) "tom" ∧
  (∃ reply,
     targets_api (Sample.env 1) "https://tom.example/api/targets/" ("alice", "secret")
       [("name", target_name (target Cases.lost))] = inr reply ∧
     count reply = 1) ∧
  (DataProductShareView.share_with_tom (Sample.env 1) "tom" Cases.lost Sample.world).1
  = Raise (FileNotFoundError "/media/M31/lost.csv") ∧
  ¬ ∃ e,
      e ∈ trace (DataProductShareView.share_with_tom (Sample.env 1) "tom" Cases.lost
                   Sample.world).2 ∧
      is_post e.
Proof.
  split_and!.
  - intros [H|[H|H]]; vm_compute in H; discriminate H.
  - eexists. split; reflexivity.
  - vm_compute. reflexivity.
  - intros (e & He & Hpost). vm_compute in He.
    apply elem_of_cons in He as [->|He]; [done|].
    apply list_elem_of_singleton in He as ->. done.
Qed.

Lemma share_with_tom_requests_witness :
  ∃ rest,
    trace (DataProductShareView.share_with_tom (Sample.env 1) "tom" Sample.photometry
             Sample.world).2
    = trace Sample.world
      ++ HttpGet "https://tom.example/api/targets/" ("alice", "secret") [("name", "M31")]
         :: rest ∧
    ∃ e, e ∈ rest ∧ is_post e.
Proof.
  destruct (share_with_tom_requests (Sample.env 1) "tom" Sample.photometry
              "https://tom.example/" "alice" "secret" Sample.world
              eq_refl eq_refl eq_refl) as (rest & Hget & _ & Hpost).
  exists rest. split; [exact Hget|].
  apply Hpost. eexists. split; [reflexivity|]. split; [reflexivity|].
  split; [discriminate|]. vm_compute. eauto.
Defined.

(** C6 as stated fails: no stream named fink is configured, and the
    invocation of [submit_to_stream] for it makes no POST at all. *)
Lemma submit_to_stream_may_post_nothing :
  trace (DataProductShareView.submit_to_stream (Sample.env 1) "fink" "M31"
           [Sample.row1; Sample.row2] "From TOMToolkit" Sample.world).2
  = trace Sample.world ∧
  (DataProductShareView.submit_to_stream (Sample.env 1) "fink" "M31"
     [Sample.row1; Sample.row2] "From TOMToolkit" Sample.world).1
  = Raise (KeyError "fink") ∧
  ¬ ∃ e,
      e ∈ trace (DataProductShareView.submit_to_stream (Sample.env 1) "fink" "M31"
                   [Sample.row1; Sample.row2] "From TOMToolkit" Sample.world).2 ∧
      is_post e.
Proof.
  split; [reflexivity|]. split; [reflexivity|].
  intros (e & He & _). vm_compute in He. by apply elem_of_nil in He.
Qed.

Lemma sharing_calls_not_repeated_witness :
  (∃ evs,
     trace (DataProductShareView.submit_to_stream Cases.offline "hermes" "M31"
              [Sample.row1; Sample.row2] "From TOMToolkit" Sample.world).2
     = trace Sample.world ++ evs ∧
     ∃ url body, filter (λ e, is_http e) evs = [HttpPost url body [] None]) ∧
  (DataProductShareView.submit_to_stream Cases.offline "hermes" "M31"
     [Sample.row1; Sample.row2] "From TOMToolkit" Sample.world).1
  = Raise (RequestException "Connection refused") ∧
  (∃ evs,
     trace (DataProductShareView.share_with_tom Cases.offline "tom" Sample.photometry
              Sample.world).2
     = trace Sample.world ++ evs ∧
     ∃ g, is_get g ∧
       (filter (λ e, is_http e) evs = [g] ∨
        ∃ p, is_post p ∧ filter (λ e, is_http e) evs = [g; p])).
Proof.
  destruct (sharing_calls_not_repeated Cases.offline "hermes" "M31"
              [Sample.row1; Sample.row2] "From TOMToolkit" "tom" Sample.photometry
              Sample.world)
    as ((evs & Htrace & Hmost & Hone & _) & (evs' & Htrace' & _ & Hshare)).
  split; [|split].
  - exists evs. split; [exact Htrace|].
    destruct Hmost as [Hnone|Hpost]; [|exact Hpost].
    exfalso. apply (proj2 Hone); [|exact Hnone]. split.
    + by eexists.
    + refine (bool_decide_unpack _ _). vm_compute. exact I.
  - reflexivity.
  - exists evs'. split; [exact Htrace'|]. apply Hshare.
    intros [H|[H|H]]; discriminate H.
Defined.

(** ** Paths and csv text *)

Section Strings.

Lemma append_cons a (s t : string) : String a s +:+ t = String a (s +:+ t).
Proof. reflexivity. Qed.

Lemma append_nil_r (s : string) : s +:+ "" = s.
Proof. induction s as [|a s IH]; [done|]. by rewrite append_cons, IH. Qed.

Lemma append_assoc (s t u : string) : (s +:+ t) +:+ u = s +:+ (t +:+ u).
Proof. induction s as [|a s IH]; [done|]. by rewrite !append_cons, IH. Qed.

Lemma has_char_cons c a s :
  has_char c (String a s) = false ↔ a ≠ c ∧ has_char c s = false.
Proof.
  simpl. case_decide as Ha.
  - split; [done|]. by intros [? _].
  - split; [by intros ?|]. by intros [_ ?].
Qed.

Lemma has_char_app c s t :
  has_char c (s +:+ t) = false ↔ has_char c s = false ∧ has_char c t = false.
Proof.
  induction s as [|a s IH].
  - split; [by intros ?|]. by intros [_ ?].
  - rewrite append_cons. simpl. case_decide; [|exact IH].
    split; [done|]. by intros [? _].
Qed.

Lemma prefix_cons_eq a (s t : string) :
  String.prefix (String a s) (String a t) = String.prefix s t.
Proof. cbn [String.prefix]. by destruct (Ascii.ascii_dec a a). Qed.

Lemma prefix_cons_ne a b (s t : string) :
  a ≠ b → String.prefix (String a s) (String b t) = false.
Proof. intros Hne. cbn [String.prefix]. by destruct (Ascii.ascii_dec a b). Qed.

Lemma prefix_app (s t : string) : String.prefix s (s +:+ t) = true.
Proof.
  induction s as [|a s IH]; [by destruct t|]. by rewrite append_cons, prefix_cons_eq.
Qed.

Lemma prefix_slash (s : string) : String.prefix "/" ("/" +:+ s) = true.
Proof. by destruct s. Qed.

Lemma split_sep sep rest : split sep (String sep rest) = "" :: split sep rest.
Proof. simpl. by rewrite decide_True. Qed.

Lemma split_no_sep sep s : has_char sep s = false → split sep s = [s].
Proof.
  induction s as [|a s IH]; [done|]. intros [Ha Hs]%has_char_cons.
  simpl. rewrite decide_False by done. by rewrite IH.
Qed.

Lemma split_app sep s rest :
  has_char sep s = false → split sep (s +:+ String sep rest) = s :: split sep rest.
Proof.
  induction s as [|a s IH]; intros Hs.
  - change ("" +:+ String sep rest) with (String sep rest). simpl. by rewrite decide_True.
  - apply has_char_cons in Hs as [Ha Hs]. rewrite append_cons. simpl.
    rewrite decide_False by done. by rewrite IH.
Qed.

Lemma concat_cons sep (x y : string) l :
  String.concat sep (x :: y :: l) = x +:+ sep +:+ String.concat sep (y :: l).
Proof. reflexivity. Qed.

Lemma concat_app sep (l1 l2 : list string) :
  l1 ≠ [] → l2 ≠ [] →
  String.concat sep (l1 ++ l2) = String.concat sep l1 +:+ sep +:+ String.concat sep l2.
Proof.
  intros H1 H2. induction l1 as [|x l1 IH]; [done|].
  destruct l1 as [|y l1].
  - destruct l2 as [|z l2]; [done|]. reflexivity.
  - rewrite <- app_comm_cons. cbn [app] in *. rewrite !concat_cons.
    rewrite IH by done. by rewrite !append_assoc.
Qed.

Lemma split_concat (comps : list string) :
  comps ≠ [] → Forall (λ c, has_char "/"%char c = false) comps →
  split "/"%char (String.concat "/" comps) = comps.
Proof.
  intros Hne Hall. induction Hall as [|c comps Hc Hall IH]; [done|].
  destruct comps as [|d comps].
  - simpl. by apply split_no_sep.
  - rewrite concat_cons. change ("/" +:+ ?r) with (String "/"%char r).
    rewrite split_app by done. by rewrite IH.
Qed.

Lemma normpath_step_empty n acc : normpath_step n acc "" = acc.
Proof. unfold normpath_step. by rewrite decide_True by auto. Qed.

Lemma normpath_steps_plain n (comps : list string) : ∀ acc,
  Forall plain_component comps →
  foldl (normpath_step n) acc comps = acc ++ comps.
Proof.
  induction comps as [|c comps IH]; intros acc Hall; [by rewrite app_nil_r|].
  apply Forall_cons in Hall as [(Hne & Hdot & Hdots & _) Hall].
  cbn [foldl]. rewrite IH by done. unfold normpath_step.
  rewrite decide_False by (intros [|]; done). rewrite decide_True by auto.
  by rewrite <- app_assoc.
Qed.

(** The first character of a path of plain components is no slash. *)
Lemma concat_plain_head (comps : list string) :
  comps ≠ [] → Forall plain_component comps →
  ∃ a rest, String.concat "/" comps = String a rest ∧ a ≠ "/"%char.
Proof.
  intros Hne Hall. destruct Hall as [|c comps (Hc & _ & _ & Hslash) Hall]; [done|].
  destruct c as [|a c]; [done|]. apply has_char_cons in Hslash as [Ha _].
  exists a. destruct comps; simpl; eauto.
Qed.

Lemma plain_no_slash (comps : list string) :
  Forall plain_component comps → Forall (λ c, has_char "/"%char c = false) comps.
Proof. intros Hall. eapply Forall_impl; [exact Hall|]. by intros c (_ & _ & _ & ?). Qed.

(** An absolute path of plain components is its own normal form. *)
Lemma normpath_plain (comps : list string) :
  comps ≠ [] → Forall plain_component comps →
  normpath ("/" +:+ String.concat "/" comps) = "/" +:+ String.concat "/" comps.
Proof.
  intros Hne Hall. unfold normpath.
  destruct (concat_plain_head comps Hne Hall) as (a & rest & Hhead & Ha).
  rewrite decide_False by done.
  pose proof (prefix_slash (String.concat "/" comps)) as Hone.
  assert (Htwo : String.prefix "//" ("/" +:+ String.concat "/" comps) = false).
  { rewrite Hhead. change ("/" +:+ String a rest) with (String "/"%char (String a rest)).
    change "//" with (String "/"%char "/").
    rewrite prefix_cons_eq. apply prefix_cons_ne. by intros <-. }
  rewrite Hone, Htwo. cbn [andb].
  change ("/" +:+ String.concat "/" comps) with (String "/"%char (String.concat "/" comps)).
  rewrite split_sep.
  rewrite split_concat by (done || by apply plain_no_slash).
  cbn [foldl]. rewrite normpath_step_empty.
  rewrite normpath_steps_plain by done. cbn [app replicate String.concat].
  rewrite decide_False by done. reflexivity.
Qed.

Lemma substring_last (s : string) c :
  String.substring (String.length (s +:+ String c "") - 1) 1 (s +:+ String c "")
  = String c "".
Proof.
  induction s as [|a s IH]; [done|].
  rewrite append_cons. cbn [String.length].
  assert (Hlen : ∃ n, String.length (s +:+ String c "") = S n).
  { clear. destruct s; [by exists 0%nat|]. rewrite append_cons. by eexists. }
  destruct Hlen as [n Hlen]. rewrite Hlen in IH |- *.
  replace (S (S n) - 1)%nat with (S n) by lia.
  replace (S n - 1)%nat with n in IH by lia.
  cbn [String.substring]. exact IH.
Qed.

Lemma string_snoc (s : string) : s ≠ "" → ∃ s' c, s = s' +:+ String c "".
Proof.
  induction s as [|a s IH]; [done|]. intros _.
  destruct s as [|b s].
  - by exists "", a.
  - destruct IH as (s' & c & ->); [done|]. by exists (String a s'), c.
Qed.

(** A path of plain components does not end with a slash. *)
Lemma concat_plain_last (comps : list string) (before : string) :
  comps ≠ [] → Forall plain_component comps →
  ∃ s c, before +:+ String.concat "/" comps = s +:+ String c "" ∧ c ≠ "/"%char.
Proof.
  intros Hne Hall. revert before.
  induction Hall as [|x comps (Hx & _ & _ & Hslash) Hall IH]; [done|]. intros before.
  destruct comps as [|y comps].
  - destruct (string_snoc x Hx) as (s' & c & ->). exists (before +:+ s'), c.
    split; [by rewrite append_assoc|].
    apply has_char_app in Hslash as [_ Hc]. by apply has_char_cons in Hc as [? _].
  - rewrite concat_cons.
    destruct (IH ltac:(done) (before +:+ x +:+ "/")) as (s & c & Heq & Hc).
    exists s, c. split; [|done]. rewrite <- Heq. by rewrite !append_assoc.
Qed.

Lemma os_path_join_plain (root name : list string) :
  root ≠ [] → Forall plain_component root →
  name ≠ [] → Forall plain_component name →
  os_path_join ("/" +:+ String.concat "/" root) (String.concat "/" name)
  = "/" +:+ String.concat "/" root +:+ "/" +:+ String.concat "/" name.
Proof.
  intros Hroot Hplain Hname Hplain'. unfold os_path_join.
  destruct (concat_plain_head name Hname Hplain') as (a & rest & -> & Ha).
  assert (Hrel : String.prefix "/" (String a rest) = false).
  { apply prefix_cons_ne. by intros <-. }
  rewrite Hrel. rewrite decide_False by done.
  destruct (concat_plain_last root "/" Hroot Hplain) as (s & c & Heq & Hc).
  rewrite Heq, substring_last.
  assert (Hend : (String c "" =? "/")%string = false).
  { apply String.eqb_neq. by intros [= ->]. }
  rewrite Hend, <- Heq. by rewrite !append_assoc.
Qed.

(** The storage resolves a name of plain components to the media root
    followed by the name. *)
Lemma safe_join_plain cwd (root name : list string) :
  root ≠ [] → Forall plain_component root →
  name ≠ [] → Forall plain_component name →
  safe_join cwd (abspath cwd ("/" +:+ String.concat "/" root)) (String.concat "/" name)
  = inr ("/" +:+ String.concat "/" root +:+ "/" +:+ String.concat "/" name).
Proof.
  intros Hroot Hplain Hname Hplain'.
  assert (Habs : ∀ comps, comps ≠ [] → Forall plain_component comps →
            abspath cwd ("/" +:+ String.concat "/" comps) = "/" +:+ String.concat "/" comps).
  { intros comps Hne Hall. unfold abspath.
    rewrite prefix_slash. by apply normpath_plain. }
  rewrite (Habs root) by done. unfold safe_join.
  rewrite os_path_join_plain by done.
  assert (Hjoined : "/" +:+ String.concat "/" root +:+ "/" +:+ String.concat "/" name
                    = "/" +:+ String.concat "/" (root ++ name)).
  { by rewrite concat_app. }
  rewrite Hjoined, (Habs (root ++ name)), (Habs root); try done.
  - rewrite <- Hjoined.
    replace ("/" +:+ String.concat "/" root +:+ "/" +:+ String.concat "/" name)
      with (("/" +:+ String.concat "/" root +:+ "/") +:+ String.concat "/" name)
      by (by rewrite !append_assoc).
    by rewrite prefix_app.
  - by destruct root.
  - by apply Forall_app.
Qed.

End Strings.

Section CsvText.

Context (nul_error : bool).

Import csv.

Lemma append_not_empty (s : string) a t : s +:+ String a t ≠ "".
Proof. by destruct s. Qed.

Lemma length_append (s t : string) :
  String.length (s +:+ t) = (String.length s + String.length t)%nat.
Proof. induction s as [|a s IH]; [done|]. rewrite append_cons. simpl. by rewrite IH. Qed.

Lemma plain_cell_cons a c :
  plain_cell (String a c) →
  a ≠ ","%char ∧ a ≠ "034"%char ∧ a ≠ "010"%char ∧ a ≠ "013"%char ∧ a ≠ "000"%char ∧
  plain_cell c.
Proof.
  intros (H1 & H2 & H3 & H4 & H5 & Hlen).
  apply has_char_cons in H1 as [? ?]. apply has_char_cons in H2 as [? ?].
  apply has_char_cons in H3 as [? ?]. apply has_char_cons in H4 as [? ?].
  apply has_char_cons in H5 as [? ?].
  split_and!; try done. unfold plain_cell. split_and!; try done.
  cbn [String.length] in Hlen. lia.
Qed.

Lemma plain_not_newline a : a ≠ "010"%char → a ≠ "013"%char → is_newline a = false.
Proof.
  intros H10 H13. unfold is_newline. apply bool_decide_eq_false. by intros [|].
Qed.

Lemma nul_check a : a ≠ "000"%char → nul_error && bool_decide (a = "000"%char) = false.
Proof. intros Ha. rewrite bool_decide_eq_false_2 by done. apply andb_false_r. Qed.

(** The end of a line, after a field and at the start of a record. *)
Lemma newline_ends_field s0 f fs :
  s0 = START_FIELD ∨ s0 = IN_FIELD →
  parse_line nul_error ","%char {| st := s0; field := f; fields := fs |} nl
  = inr {| st := START_RECORD; field := ""; fields := fs ++ [f] |}.
Proof.
  intros Hs0. unfold nl. cbn [parse_line]. rewrite nul_check by done.
  by destruct Hs0 as [-> | ->].
Qed.

Lemma newline_blank fs :
  parse_line nul_error ","%char {| st := START_RECORD; field := ""; fields := fs |} nl
  = inr {| st := START_RECORD; field := ""; fields := fs |}.
Proof. unfold nl. cbn [parse_line]. by rewrite nul_check by done. Qed.

(** The characters of a plain cell go to the field being read. *)
Lemma in_field_chars (s : string) : ∀ f fs rest,
  plain_cell s →
  Z.of_nat (String.length f + String.length s) ≤ 131072 →
  parse_line nul_error ","%char {| st := IN_FIELD; field := f; fields := fs |} (s +:+ rest)
  = parse_line nul_error ","%char {| st := IN_FIELD; field := f +:+ s; fields := fs |} rest.
Proof.
  induction s as [|a s IH]; intros f fs rest Hplain Hlen.
  - by rewrite append_nil_r.
  - apply plain_cell_cons in Hplain as (Hc & Hq & Hlf & Hcr & Hnul & Hplain).
    rewrite append_cons. cbn [parse_line]. rewrite nul_check by done.
    unfold parse_process_char. cbn [st].
    rewrite plain_not_newline by done. rewrite decide_False by done.
    unfold parse_add_char. cbn [field st fields].
    rewrite decide_False by (unfold field_limit; simpl in Hlen; lia).
    rewrite IH.
    + by rewrite append_assoc.
    + done.
    + rewrite length_append. simpl in *. lia.
Qed.

(** A plain cell and the comma after it, at the start of a field. *)
Lemma cell_then_comma (c : string) s0 fs rest :
  s0 = START_RECORD ∨ s0 = START_FIELD →
  plain_cell c →
  parse_line nul_error ","%char {| st := s0; field := ""; fields := fs |}
    (c +:+ String ","%char rest)
  = parse_line nul_error ","%char {| st := START_FIELD; field := ""; fields := fs ++ [c] |} rest.
Proof.
  intros Hs0 Hplain.
  assert (Hstart : ∀ ch,
    parse_process_char ","%char {| st := s0; field := ""; fields := fs |} (Some ch)
    = if is_newline ch
      then parse_process_char ","%char {| st := s0; field := ""; fields := fs |} (Some ch)
      else start_field ","%char {| st := s0; field := ""; fields := fs |} (Some ch)).
  { intros ch. destruct Hs0 as [-> | ->]; unfold parse_process_char; cbn [st];
      by destruct (is_newline ch). }
  destruct c as [|a c].
  - change ("" +:+ String ","%char rest) with (String ","%char rest).
    cbn [parse_line]. rewrite nul_check by done. rewrite Hstart.
    change (is_newline ","%char) with false. cbn iota.
    unfold start_field. change (is_newline ","%char) with false. cbn iota.
    rewrite decide_False by done. rewrite decide_True by done. reflexivity.
  - pose proof Hplain as (_ & _ & _ & _ & _ & Hlen).
    apply plain_cell_cons in Hplain as (Hc & Hq & Hlf & Hcr & Hnul & Hplain).
    rewrite append_cons. cbn [parse_line]. rewrite nul_check by done. rewrite Hstart.
    rewrite plain_not_newline by done.
    unfold start_field. rewrite plain_not_newline by done.
    rewrite decide_False by done. rewrite decide_False by done.
    unfold parse_add_char. cbn [field st fields].
    rewrite decide_False by (unfold field_limit; simpl; lia).
    unfold set_state. cbn [field fields].
    change ("" +:+ String a "") with (String a "").
    rewrite in_field_chars by (done || simpl in *; lia).
    cbn [parse_line]. rewrite nul_check by done.
    unfold parse_process_char. cbn [st]. change (is_newline ","%char) with false. cbn iota.
    rewrite decide_True by done. reflexivity.
Qed.

(** A plain cell and the end of the line after it. *)
Lemma cell_then_newline (c : string) s0 fs :
  s0 = START_FIELD ∨ (s0 = START_RECORD ∧ c ≠ "") →
  plain_cell c →
  parse_line nul_error ","%char {| st := s0; field := ""; fields := fs |} (c +:+ nl)
  = inr {| st := START_RECORD; field := ""; fields := fs ++ [c] |}.
Proof.
  intros Hs0 Hplain.
  destruct c as [|a c].
  - destruct Hs0 as [-> | [_ ?]]; [|done].
    change ("" +:+ nl) with nl. apply newline_ends_field. by left.
  - pose proof Hplain as (_ & _ & _ & _ & _ & Hlen).
    apply plain_cell_cons in Hplain as (Hc & Hq & Hlf & Hcr & Hnul & Hplain).
    rewrite append_cons. cbn [parse_line]. rewrite nul_check by done.
    assert (Hstart :
      parse_process_char ","%char {| st := s0; field := ""; fields := fs |} (Some a)
      = start_field ","%char {| st := s0; field := ""; fields := fs |} (Some a)).
    { destruct Hs0 as [-> | [-> _]]; unfold parse_process_char; cbn [st]; [done|].
      by rewrite plain_not_newline. }
    rewrite Hstart. unfold start_field. rewrite plain_not_newline by done.
    rewrite decide_False by done. rewrite decide_False by done.
    unfold parse_add_char. cbn [field st fields].
    rewrite decide_False by (unfold field_limit; simpl; lia).
    unfold set_state. cbn [field fields].
    change ("" +:+ String a "") with (String a "").
    rewrite in_field_chars by (done || simpl in *; lia).
    apply newline_ends_field. by right.
Qed.

Lemma line_cells (cells : list (string)) : ∀ fs,
  cells ≠ [] → Forall plain_cell cells →
  parse_line nul_error ","%char {| st := START_FIELD; field := ""; fields := fs |}
    (csv_line cells +:+ nl)
  = inr {| st := START_RECORD; field := ""; fields := fs ++ cells |}.
Proof.
  induction cells as [|c cells IH]; intros fs Hne Hall; [done|].
  apply Forall_cons in Hall as [Hc Hall].
  destruct cells as [|d cells].
  - unfold csv_line. cbn [String.concat]. apply cell_then_newline; auto.
  - unfold csv_line in *. rewrite concat_cons, !append_assoc.
    change ("," +:+ ?r) with (String ","%char r).
    rewrite cell_then_comma by auto. rewrite IH by done.
    by rewrite <- app_assoc.
Qed.

(** The record the reader makes of a line of plain cells: the cells, and
    no cell for a blank line. *)
Lemma plain_line (cells : list string) :
  Forall plain_cell cells →
  parse_line nul_error ","%char parse_reset (csv_line cells +:+ nl)
  = inr {| st := START_RECORD; field := "";
           fields := if decide (blank cells) then [] else cells |}.
Proof.
  intros Hall. unfold parse_reset.
  destruct cells as [|c cells].
  - rewrite decide_True by done. apply newline_blank.
  - apply Forall_cons in Hall as [Hc Hall]. destruct cells as [|d cells].
    + destruct (decide (c = "")) as [->|Hne].
      * rewrite decide_True by done. apply newline_blank.
      * rewrite decide_False by done. unfold csv_line. cbn [String.concat].
        by apply cell_then_newline; auto.
    + rewrite decide_False
        by (unfold blank, csv_line; rewrite concat_cons; apply append_not_empty).
      unfold csv_line in *. rewrite concat_cons.
      rewrite !append_assoc. change ("," +:+ ?r) with (String ","%char r).
      rewrite cell_then_comma by auto.
      by apply (line_cells (d :: cells) [c]).
Qed.

Lemma csv_line_no_char ch (cells : list string) :
  ch ≠ ","%char → Forall (λ c, has_char ch c = false) cells →
  has_char ch (csv_line cells) = false.
Proof.
  intros Hch Hall. unfold csv_line.
  induction Hall as [|c cells Hc Hall IH]; [done|].
  destruct cells as [|d cells]; [done|].
  rewrite concat_cons. apply has_char_app. split; [done|].
  change ("," +:+ ?r) with (String ","%char r). apply has_char_cons. split; [done|].
  exact IH.
Qed.

Lemma readlines_from_line (s : string) : ∀ line rest,
  has_char "010"%char s = false → has_char "013"%char s = false →
  readlines_from line (s +:+ nl +:+ rest) = (line +:+ s +:+ nl) :: readlines_from "" rest.
Proof.
  induction s as [|a s IH]; intros line rest Hlf Hcr.
  - reflexivity.
  - apply has_char_cons in Hlf as [Hlf Hs]. apply has_char_cons in Hcr as [Hcr Hs'].
    rewrite append_cons. cbn [readlines_from].
    rewrite decide_False by done. rewrite decide_False by done.
    rewrite IH by done. by rewrite !append_assoc.
Qed.

Lemma readlines_csv_text (lines : list (list string)) :
  Forall (Forall plain_cell) lines →
  readlines (csv_text lines) = (λ cells, csv_line cells +:+ nl) <$> lines.
Proof.
  unfold readlines. induction 1 as [|cells lines Hcells Hall IH]; [done|].
  cbn [csv_text foldr fmap list_fmap].
  rewrite readlines_from_line.
  - fold (csv_text lines). by rewrite IH.
  - apply csv_line_no_char; [done|]. eapply Forall_impl; [exact Hcells|].
    by intros c (_ & _ & ? & _).
  - apply csv_line_no_char; [done|]. eapply Forall_impl; [exact Hcells|].
    by intros c (_ & _ & _ & ? & _).
Qed.

Lemma records_plain (lines : list (list string)) :
  Forall (Forall plain_cell) lines →
  records nul_error ","%char parse_reset ((λ cells, csv_line cells +:+ nl) <$> lines)
  = inr ((λ cells, if decide (blank cells) then [] else cells) <$> lines).
Proof.
  induction 1 as [|cells lines Hcells Hall IH]; [done|].
  rewrite !fmap_cons. cbn [records]. rewrite plain_line by done. cbn [st fields].
  rewrite decide_True by done. by rewrite IH.
Qed.

(** [dict(zip(...))] built by insertion is the map of the pairs, the last
    of equal keys winning. *)
Lemma foldl_insert_list_to_map (l : list (option string * json)) :
  foldl (λ (d : Row) kv, <[kv.1 := kv.2]> d) ∅ l = list_to_map (list.reverse l).
Proof.
  induction l as [|x l IH] using rev_ind; [done|].
  rewrite foldl_snoc, reverse_snoc, IH. by destruct x.
Qed.

(** The dict of [DictReader] for a row is the row of the header-based
    reader. *)
Lemma row_dict_header_row (header cells : list string) :
  row_dict header cells = header_row header cells.
Proof.
  unfold row_dict, header_row.
  assert (Hzip : foldl (λ (d : Row) kv, <[Some kv.1 := JStr kv.2]> d) ∅ (zip header cells)
                 = foldl (λ (d : Row) kv, <[kv.1 := kv.2]> d) ∅
                     (zip (Some <$> header) (JStr <$> cells))).
  { rewrite <- prod_map_zip. by rewrite foldl_fmap. }
  rewrite Hzip. clear Hzip.
  destruct (length header <? length cells)%nat eqn:Hlong.
  - apply Nat.ltb_lt in Hlong.
    replace (length header - length cells)%nat with 0%nat by lia.
    cbn [replicate]. rewrite app_nil_r. by rewrite foldl_insert_list_to_map.
  - apply Nat.ltb_ge in Hlong.
    destruct (length cells <? length header)%nat eqn:Hshort.
    + rewrite <- foldl_insert_list_to_map.
      rewrite (zip_with_app_r pair (Some <$> header) (JStr <$> cells)).
      rewrite zip_with_take_l.
      rewrite zip_with_replicate_r_eq by (rewrite length_drop, !length_fmap; lia).
      rewrite foldl_app, length_fmap.
      rewrite <- fmap_drop, foldl_fmap, foldl_fmap. reflexivity.
    + apply Nat.ltb_ge in Hshort.
      replace (length header - length cells)%nat with 0%nat by lia.
      cbn [replicate]. rewrite app_nil_r. by rewrite foldl_insert_list_to_map.
Qed.

Lemma filter_blank (lines : list (list string)) :
  filter (λ row, row ≠ []) ((λ cells, if decide (blank cells) then [] else cells) <$> lines)
  = filter (λ cells, ¬ blank cells) lines.
Proof.
  induction lines as [|cells lines IH]; [done|].
  rewrite fmap_cons. destruct (decide (blank cells)) as [Hblank|Hblank].
  - rewrite filter_cons_False by (by intros ?). rewrite filter_cons_False by auto. exact IH.
  - rewrite !filter_cons_True; [by rewrite IH|done|]. intros ->. by apply Hblank.
Qed.

(** On a file of plain cells [DictReader] yields the rows of the
    header-based reader, in the order of the lines. *)
Lemma DictReader_plain (header : list string) (lines : list (list string)) :
  Forall (Forall plain_cell) (header :: lines) →
  DictReader nul_error ","%char (csv_text (header :: lines)) = inr (header_rows header lines).
Proof.
  intros Hall. unfold DictReader, reader, header_rows.
  rewrite readlines_csv_text by done. rewrite records_plain by done.
  rewrite fmap_cons. rewrite filter_blank.
  f_equal. apply list_fmap_ext. intros _ cells _. apply row_dict_header_row.
Qed.

End CsvText.

(** ** DataProductShareView.get *)

Section ShareGet.

Context (env : Env).

Import DataProductShareView.

Lemma objects_get_found k product w :
  products w !! k = Some product → objects_get (Some k) w = (Ok (k, product), w).
Proof. intros H. unfold objects_get, find_product. run. by rewrite H. Qed.

Lemma objects_get_spec pk w :
  objects_get pk w
  = match find_product pk w with
    | Some r => (Ok r, w)
    | None => (Raise DoesNotExist, w)
    end.
Proof. unfold objects_get. run. by destruct (find_product pk w). Qed.

(** The answer of the view, by what the URL configuration resolves. *)
Lemma target_detail_run request w :
  target_detail env request w
  = (match reverse_url env "tom_targets:detail" [("pk", GET request !! "target_id")] with
     | Some url =>
         match resolve_url env url with
         | Some to => Ok (redirect (Path to))
         | None => Raise NoReverseMatch
         end
     | None => Raise NoReverseMatch
     end, w).
Proof.
  unfold target_detail, reverse, shortcuts_redirect. run.
  destruct (reverse_url env _ _) as [url|]; run; [|done].
  by destruct (resolve_url env url).
Qed.

(** The path Django gives a file whose name has plain components, under a
    media root of plain components. *)
Lemma FieldFile_path_plain product (root name : list string) w :
  MEDIA_ROOT (settings env) = "/" +:+ String.concat "/" root →
  root ≠ [] → Forall plain_component root →
  file_name (data product) = String.concat "/" name →
  name ≠ [] → Forall plain_component name →
  FieldFile_path env product w
  = (Ok (MEDIA_ROOT (settings env) +:+ "/" +:+ file_name (data product)), w).
Proof.
  intros Hroot Hne Hplain Hname Hne' Hplain'. unfold FieldFile_path, storage_path.
  assert (Hfile : file_name (data product) ≠ "").
  { rewrite Hname. destruct (concat_plain_head name Hne' Hplain') as (a & rest & -> & _).
    done. }
  rewrite decide_False by done. rewrite Hroot, Hname.
  rewrite safe_join_plain by done. by rewrite !append_assoc.
Qed.

(** The runs of [get], by the product found, its type, its file and what
    the reader makes of it. *)
Lemma share_get_cases request pk w :
  match find_product pk w with
  | None => get env request pk w = (Raise DoesNotExist, w)
  | Some (_, product) =>
      ∃ msg,
        let w0 := add_event (Log DEBUG msg) w in
        if decide (data_product_type product = "photometry") then
          if decide (file_name (data product) = "") then
            get env request pk w
            = (Raise (ValueError "The 'data' attribute has no file associated with it."), w0)
          else
            match storage_path env (file_name (data product)) with
            | inl e => get env request pk w = (Raise e, w0)
            | inr path =>
                let w1 := add_event (FileOpen path) w0 in
                match media w !! path with
                | None => get env request pk w = (Raise (FileNotFoundError path), w1)
                | Some contents =>
                    match csv.DictReader (csv_nul_error env) ","%char contents with
                    | inl e => get env request pk w = (Raise e, w1)
                    | inr rows =>
                        get env request pk w
                        = (submit_to_stream env "hermes" (target_name (target product)) rows
                             "From TOMToolkit" ;;
                           target_detail env request) w1
                    end
                end
            end
        else get env request pk w = target_detail env request w0
  end.
Proof.
  unfold get, mbind, M_bind. rewrite objects_get_spec.
  destruct (find_product pk w) as [[k product]|]; [|reflexivity].
  eexists. run.
  destruct (decide (data_product_type product = "photometry")) as [Htype|Htype]; run;
    [|reflexivity].
  destruct (decide ("hermes" = "hermes")) as [_|Hne]; [|done]. unfold FieldFile_path.
  destruct (decide (file_name (data product) = "")) as [Hname|Hname]; run; [reflexivity|].
  destruct (storage_path env (file_name (data product))) as [e|path]; run; [reflexivity|].
  destruct (media w !! path) as [contents|]; run; [|reflexivity].
  destruct (csv.DictReader _ _ contents) as [e|rows]; run; reflexivity.
Qed.

(** C7. For a product of type photometry whose file has a path
    ([product.data.path]) and is in the storage, [get] opens the file at
    that path, reads it with the comma-delimited [DictReader] and hands
    all the rows it yields, in its order, to [submit_to_stream]; an error
    of the reader ends the request. On a file of plain cells these are the
    rows of the header-based reader: one row for each line after the first
    that is not blank, in file order, with the cells of the line under the
    names of the header. With a media root and a file name made of plain
    path components the path is the media root joined with the name. *)
Theorem share_get_reads_product_csv request k product path contents w :
  products w !! k = Some product →
  data_product_type product = "photometry" →
  (FieldFile_path env product w).1 = Ok path →
  media w !! path = Some contents →
  ∃ msg,
    let w1 := add_event (FileOpen path) (add_event (Log DEBUG msg) w) in
    (∀ rows,
       csv.DictReader (csv_nul_error env) ","%char contents = inr rows →
       get env request (Some k) w
       = (submit_to_stream env "hermes" (target_name (target product)) rows
            "From TOMToolkit" ;;
          target_detail env request) w1) ∧
    (∀ e,
       csv.DictReader (csv_nul_error env) ","%char contents = inl e →
       get env request (Some k) w = (Raise e, w1)) ∧
    (∀ header lines,
       contents = csv_text (header :: lines) →
       Forall (Forall plain_cell) (header :: lines) →
       get env request (Some k) w
       = (submit_to_stream env "hermes" (target_name (target product))
            (header_rows header lines) "From TOMToolkit" ;;
          target_detail env request) w1) ∧
    (∀ root name,
       MEDIA_ROOT (settings env) = "/" +:+ String.concat "/" root →
       root ≠ [] → Forall plain_component root →
       file_name (data product) = String.concat "/" name →
       name ≠ [] → Forall plain_component name →
       path = MEDIA_ROOT (settings env) +:+ "/" +:+ file_name (data product)).
Proof.
  intros Hk Htype Hpath Hfile.
  pose proof (share_get_cases request (Some k) w) as Hcases.
  unfold find_product in Hcases. simpl in Hcases. rewrite Hk in Hcases. simpl in Hcases.
  destruct Hcases as [msg Hcases]. exists msg. cbv zeta in Hcases |- *.
  rewrite decide_True in Hcases by done.
  assert (Hplain : ∀ root name,
    MEDIA_ROOT (settings env) = "/" +:+ String.concat "/" root →
    root ≠ [] → Forall plain_component root →
    file_name (data product) = String.concat "/" name →
    name ≠ [] → Forall plain_component name →
    path = MEDIA_ROOT (settings env) +:+ "/" +:+ file_name (data product)).
  { intros root name Hroot Hne Hcomps Hname Hne' Hcomps'.
    rewrite (FieldFile_path_plain product root name w Hroot Hne Hcomps Hname Hne' Hcomps')
      in Hpath.
    simpl in Hpath. by injection Hpath as <-. }
  unfold FieldFile_path in Hpath.
  destruct (decide (file_name (data product) = "")) as [Hnone|Hsome]; [done|].
  destruct (storage_path env (file_name (data product))) as [e|path']; [done|].
  simpl in Hpath. injection Hpath as ->. rewrite Hfile in Hcases.
  split_and!.
  - intros rows Hrows. by rewrite Hrows in Hcases.
  - intros e He. by rewrite He in Hcases.
  - intros header lines -> Hcells.
    by rewrite (DictReader_plain (csv_nul_error env) header lines Hcells) in Hcases.
  - exact Hplain.
Qed.

(** C10. For a product of any other type [get] writes its debug line and
    nothing else: no file is opened, no HTTP call is made, and the tables,
    the storage, the cache, the permissions and the flash messages are as
    before. It answers with the redirect to the detail page of the target
    that the request names, when the URL configuration resolves that page;
    when it does not, NoReverseMatch is raised. *)
Theorem share_get_other_types request k product w :
  products w !! k = Some product →
  data_product_type product ≠ "photometry" →
  ∃ w' msg,
    (get env request (Some k) w).2 = w' ∧
    trace w' = trace w ++ [Log DEBUG msg] ∧
    products w' = products w ∧ reduced w' = reduced w ∧ next_pk w' = next_pk w ∧
    media w' = media w ∧ cache w' = cache w ∧ perms w' = perms w ∧
    flashes w' = flashes w ∧
    (∀ url to,
       reverse_url env "tom_targets:detail" [("pk", GET request !! "target_id")] = Some url →
       resolve_url env url = Some to →
       (get env request (Some k) w).1 = Ok (redirect (Path to))) ∧
    (reverse_url env "tom_targets:detail" [("pk", GET request !! "target_id")] = None →
     (get env request (Some k) w).1 = Raise NoReverseMatch).
Proof.
  intros Hk Htype.
  pose proof (share_get_cases request (Some k) w) as Hcases.
  unfold find_product in Hcases. simpl in Hcases. rewrite Hk in Hcases. simpl in Hcases.
  destruct Hcases as [msg Hcases]. rewrite decide_False in Hcases by done.
  rewrite Hcases, target_detail_run. eexists _, msg. split; [reflexivity|].
  split_and!; try done.
  - intros url to -> ->. reflexivity.
  - intros ->. reflexivity.
Qed.

End ShareGet.

Lemma share_get_reads_product_csv_witness :
  ∃ msg,
    DataProductShareView.get (Sample.env 1) Sample.request (Some 1) Sample.world
    = (Ok (redirect (Path "/targets/7/")),
       foldl (λ w e, add_event e w) Sample.world
         [Log DEBUG msg; FileOpen "/media/M31/phot.csv";
          HttpPost "https://hermes.example/submit/"
            (JsonBody
               (JObj [("topic", JStr "hermes.test");
                      ("title", JStr "TOM Toolkit test (Photometry)");
                      ("author", JStr "llindstrom@lco.global");
                      ("data",
                       JObj [("photometry_data",
                              JList [JObj [("photometryId", JStr "M31");
                                           ("dateObs", JStr "59000.1"); ("band", JStr "r");
                                           ("brightness", JStr "17.2");
                                           ("brightnessError", JStr "0.05");
                                           ("brightnessUnit", JStr "AB mag")];
                                     JObj [("photometryId", JStr "M31");
                                           ("dateObs", JStr "59001.3"); ("band", JStr "g");
                                           ("brightness", JStr "17.9");
                                           ("brightnessError", JStr "0.07");
                                           ("brightnessUnit", JStr "AB mag")]])]);
                      ("message_text",
                       JStr "Test alert from TOM Toolkit at 2023-01-01 00:00:00")]))
            [] None]).
Proof.
  destruct (share_get_reads_product_csv (Sample.env 1) Sample.request 1 Sample.photometry
              "/media/M31/phot.csv" Sample.phot_csv Sample.world)
    as (msg & _ & _ & Hplain & _).
  - reflexivity.
  - reflexivity.
  - vm_compute. reflexivity.
  - vm_compute. reflexivity.
  - exists msg.
    rewrite (Hplain ["time"; "filter"; "magnitude"; "error"]
               [["59000.1"; "r"; "17.2"; "0.05"]; ["59001.3"; "g"; "17.9"; "0.07"]]).
    + vm_compute. reflexivity.
    + vm_compute. reflexivity.
    + refine (bool_decide_unpack _ _). vm_compute. exact I.
Defined.

Lemma share_get_other_types_witness :
  ∃ w' msg,
    DataProductShareView.get (Sample.env 1) Sample.request (Some 2) Sample.world
    = (Ok (redirect (Path "/targets/7/")), w') ∧
    trace w' = trace Sample.world ++ [Log DEBUG msg] ∧
    products w' = products Sample.world ∧ reduced w' = reduced Sample.world ∧
    media w' = media Sample.world ∧ flashes w' = flashes Sample.world.
Proof.
  destruct (share_get_other_types (Sample.env 1) Sample.request 2 Sample.spectrum
              Sample.world eq_refl)
    as (w' & msg & Hworld & Hlog & Hp & Hr & _ & Hm & _ & _ & Hf & Hanswer & _).
  - discriminate.
  - exists w', msg. split_and!; try assumption.
    rewrite <- Hworld, <- (Hanswer "/targets/7/" "/targets/7/" eq_refl eq_refl).
    by destruct (DataProductShareView.get _ _ _ _).
Defined.

(** ** DataProductDeleteView.delete *)

Section DeleteView.

Context (env : Env).

Import DataProductDeleteView.

Lemma get_object_found k object w :
  products w !! k = Some object → get_object (Some k) w = (Ok (k, object), w).
Proof. intros H. unfold get_object, find_product. run. by rewrite H. Qed.


End DeleteView.


(** ** DataProductFeatureView.get *)

Section FeatureView.

Context (env : Env).

Import DataProductFeatureView.

(** The loop over the featured rows never raises. *)
Lemma unfeature_ok row w : unfeature env row w = (Ok (), (unfeature env row w).2).
Proof. reflexivity. Qed.

Lemma for_each_unfeature rows : ∀ w,
  for_each rows (unfeature env) w
  = (Ok (), foldl (λ w row, (unfeature env row w).2) w rows).
Proof.
  induction rows as [|row rows IH]; intros w; [reflexivity|].
  cbn [for_each foldl]. unfold mbind at 1, M_bind at 1.
  rewrite unfeature_ok. by rewrite IH.
Qed.

Lemma unfeature_loop_products rows : ∀ w,
  products (foldl (λ w row, (unfeature env row w).2) w rows)
  = foldl (λ (m : gmap Z DataProduct) row, <[row.1 := with_featured row.2 false]> m)
          (products w) rows.
Proof. induction rows as [|row rows IH]; intros w; [reflexivity|]. simpl. by rewrite IH. Qed.

Lemma unfeature_loop_frame rows : ∀ w,
  let w' := foldl (λ w row, (unfeature env row w).2) w rows in
  reduced w' = reduced w ∧ media w' = media w ∧ flashes w' = flashes w ∧
  cache w' ⊆ cache w.
Proof.
  induction rows as [|row rows IH]; intros w; [done|].
  simpl. destruct (IH (unfeature env row w).2) as (Hr & Hm & Hf & Hc).
  repeat split; try (etrans; [eassumption|reflexivity]).
  etrans; [exact Hc|]. simpl.
  apply elem_of_subseteq. intros x Hx. by apply elem_of_difference in Hx as [? _].
Qed.

Lemma unfeature_loop_cache rows : ∀ w row,
  row ∈ rows →
  featured_image_key env row.2 ∉ cache (foldl (λ w row, (unfeature env row w).2) w rows).
Proof.
  induction rows as [|r rows IH]; intros w row Hin; [by apply elem_of_nil in Hin|].
  apply elem_of_cons in Hin as [->|Hin]; [|by apply IH].
  simpl. intros Hkey.
  apply (proj2 (proj2 (proj2 (unfeature_loop_frame rows _)))) in Hkey.
  simpl in Hkey. apply elem_of_difference in Hkey as [_ Hkey].
  apply Hkey. by apply elem_of_singleton.
Qed.

Lemma unfeature_loop_lookup (rows : list (Z * DataProduct)) : ∀ (m : gmap Z DataProduct) j,
  NoDup rows.*1 →
  foldl (λ (m : gmap Z DataProduct) row, <[row.1 := with_featured row.2 false]> m) m rows !! j
  = match (list_to_map rows : gmap Z DataProduct) !! j with
    | Some p => Some (with_featured p false)
    | None => m !! j
    end.
Proof.
  induction rows as [|[a r] rows IH]; intros m j Hnodup; [done|].
  rewrite fmap_cons in Hnodup. apply NoDup_cons in Hnodup as [Ha Hnodup]. simpl in Ha.
  simpl. rewrite (IH _ j Hnodup).
  destruct (decide (a = j)) as [->|Hne].
  - rewrite (not_elem_of_list_to_map_1 rows j Ha). by rewrite !lookup_insert_eq.
  - by rewrite !lookup_insert_ne by done.
Qed.

(** The table after the loop of [get]. *)
Lemma unfeatured_lookup product (m : gmap Z DataProduct) j :
  foldl (λ (m : gmap Z DataProduct) row, <[row.1 := with_featured row.2 false]> m) m
        (map_to_list (filter (currently_featured product) m)) !! j
  = match m !! j with
    | Some p => if decide (currently_featured product (j, p))
                then Some (with_featured p false) else Some p
    | None => None
    end.
Proof.
  rewrite unfeature_loop_lookup by apply NoDup_fst_map_to_list.
  rewrite list_to_map_to_list.
  destruct (filter (currently_featured product) m !! j) as [p|] eqn:Hf.
  - apply map_lookup_filter_Some in Hf as [-> Hp]. by rewrite decide_True.
  - destruct (m !! j) as [p|] eqn:Hm; [|done].
    rewrite decide_False; [done|]. intros Hp.
    assert (filter (currently_featured product) m !! j = Some p) as Hsome
      by by apply map_lookup_filter_Some.
    congruence.
Qed.


Lemma unfeature_loop_trace rows : ∀ w,
  ∃ evs, trace (foldl (λ w row, (unfeature env row w).2) w rows) = trace w ++ evs.
Proof.
  induction rows as [|row rows IH]; intros w.
  - exists []. by rewrite app_nil_r.
  - cbn [foldl]. destruct (IH (unfeature env row w).2) as [evs ->].
    eexists. simpl. rewrite <- !app_assoc. reflexivity.
Qed.

(** The world [get] reaches, the loop and then the save of the selection,
    and the answer it gives there. *)
Lemma get_run request k product w :
  products w !! k = Some product →
  get env request (Some k) w
  = target_detail env request
      (add_event (ProductSave k)
         (set_products <[k := with_featured product true]>
            (foldl (λ w row, (unfeature env row w).2) w
               (map_to_list (filter (currently_featured product) (products w)))))).
Proof.
  intros Hk. unfold get, mbind, M_bind. rewrite (objects_get_found _ _ _ Hk).
  unfold try_except, read, mbind, M_bind. rewrite for_each_unfeature.
  reflexivity.
Qed.

Lemma get_world request k product w :
  products w !! k = Some product →
  (get env request (Some k) w).2
  = add_event (ProductSave k)
      (set_products <[k := with_featured product true]>
         (foldl (λ w row, (unfeature env row w).2) w
            (map_to_list (filter (currently_featured product) (products w))))).
Proof. intros Hk. by rewrite (get_run request k product w Hk), target_detail_run. Qed.

(** A row featured after [get] is the selection or a row of another pair
    that [get] left alone. *)
Lemma featured_after product (m : gmap Z DataProduct) k j p :
  <[k := with_featured product true]>
    (foldl (λ (m : gmap Z DataProduct) row, <[row.1 := with_featured row.2 false]> m) m
       (map_to_list (filter (currently_featured product) m))) !! j = Some p →
  featured p = true →
  (j = k ∧ p = with_featured product true) ∨
  (j ≠ k ∧ m !! j = Some p ∧ ¬ same_pair product p).
Proof.
  intros Hj Hfeatured. destruct (decide (k = j)) as [->|Hne].
  - rewrite lookup_insert_eq in Hj. left. by injection Hj as <-.
  - rewrite lookup_insert_ne in Hj by done. rewrite unfeatured_lookup in Hj.
    right. split; [done|].
    destruct (m !! j) as [p0|]; [|done].
    destruct (decide (currently_featured product (j, p0))) as [Hcf|Hcf].
    + injection Hj as <-. done.
    + injection Hj as <-. split; [done|]. intros Hpair. apply Hcf. by split.
Qed.

(** C8. [get] first unfeatures every featured product of the selection's
    target and data product type, deleting the cached featured image of
    each, and leaves every other row alone; then it saves the selection as
    featured, and answers with the redirect to the target's page resolved
    in the world so reached. Afterwards the selection is the only featured
    product of its pair, and a table with at most one featured product per
    pair is again such a table. *)
Theorem feature_get_unique request k product w :
  products w !! k = Some product →
  ∃ w1 w',
    get env request (Some k) w = target_detail env request w' ∧
    (get env request (Some k) w).2 = w' ∧
    (∀ j p, products w !! j = Some p → featured p = true → same_pair product p →
       products w1 !! j = Some (with_featured p false) ∧
       featured_image_key env p ∉ cache w1) ∧
    (∀ j p, products w !! j = Some p → ¬ (featured p = true ∧ same_pair product p) →
       products w1 !! j = Some p) ∧
    (∀ j, products w !! j = None → products w1 !! j = None) ∧
    products w' = <[k := with_featured product true]> (products w1) ∧
    cache w' = cache w1 ∧
    (∃ evs, trace w1 = trace w ++ evs) ∧
    trace w' = trace w1 ++ [ProductSave k] ∧
    products w' !! k = Some (with_featured product true) ∧
    (∀ j p, products w' !! j = Some p → featured p = true → same_pair product p → j = k) ∧
    (at_most_one_featured (products w) → at_most_one_featured (products w')).
Proof.
  intros Hk.
  set (rows := map_to_list (filter (currently_featured product) (products w))).
  exists (foldl (λ w row, (unfeature env row w).2) w rows). eexists.
  split; [by apply get_run|]. split; [by apply get_world|].
  assert (Hlookup := unfeatured_lookup product (products w)).
  fold rows in Hlookup. rewrite <- unfeature_loop_products in Hlookup.
  split_and!.
  - intros j p Hj Hfeatured Hpair. split.
    + rewrite Hlookup, Hj. by rewrite decide_True.
    + apply (unfeature_loop_cache rows w (j, p)).
      apply elem_of_map_to_list, map_lookup_filter_Some.
      split; [exact Hj|]. split; [exact Hfeatured | exact Hpair].
  - intros j p Hj Hnot. rewrite Hlookup, Hj. by rewrite decide_False by exact Hnot.
  - intros j Hj. by rewrite Hlookup, Hj.
  - reflexivity.
  - reflexivity.
  - apply unfeature_loop_trace.
  - reflexivity.
  - simpl. apply lookup_insert_eq.
  - intros j p Hj Hfeatured Hpair. simpl in Hj. rewrite unfeature_loop_products in Hj.
    destruct (featured_after _ _ _ _ _ Hj Hfeatured) as [[-> _]|(_ & _ & Hnot)]; done.
  - intros Hone k1 p1 H1 k2 p2 H2 Hf1 Hf2 Hpair.
    simpl in H1, H2. rewrite unfeature_loop_products in H1, H2.
    destruct (featured_after _ _ _ _ _ H1 Hf1) as [[-> ->]|(Hne1 & Hm1 & Hnot1)];
      destruct (featured_after _ _ _ _ _ H2 Hf2) as [[-> ->]|(Hne2 & Hm2 & Hnot2)].
    + done.
    + destruct Hnot2. exact Hpair.
    + destruct Hnot1. destruct Hpair as [Ht Hi]. split; symmetry; assumption.
    + exact (Hone k1 p1 Hm1 k2 p2 Hm2 Hf1 Hf2 Hpair).
Qed.

End FeatureView.

Lemma feature_get_unique_witness :
  ∃ w',
    DataProductFeatureView.get (Sample.env 1) Sample.request (Some 4) Sample.world
    = (Ok (redirect (Path "/targets/7/")), w') ∧
    products w' !! 3 = Some (with_featured Sample.finder false) ∧
    products w' !! 4 = Some (with_featured Sample.closeup true) ∧
    (featured_image_key (Sample.env 1) Sample.finder ∉ cache w') ∧
    at_most_one_featured (products w').
Proof.
  destruct (feature_get_unique (Sample.env 1) Sample.request 4 Sample.closeup Sample.world
              eq_refl)
    as (w1 & w' & Hrun & _ & Hunfeatured & _ & _ & Hproducts & Hsame & _ & _ & Hselected & _
        & Hone).
  destruct (Hunfeatured 3 Sample.finder eq_refl eq_refl (conj eq_refl eq_refl))
    as [Hfinder Hcache].
  exists w'. split; [exact Hrun|]. split; [|split; [exact Hselected|split]].
  - rewrite Hproducts. rewrite lookup_insert_ne by discriminate. exact Hfinder.
  - rewrite Hsame. exact Hcache.
  - apply Hone. refine (bool_decide_unpack _ _). vm_compute. exact I.
Defined.

(** ** DataProductUploadView.form_valid *)

Section UploadView.

Context (env : Env).

Import DataProductUploadView.

(** Granting the permissions touches the permissions alone. *)
Lemma grant_ok pk reduced_data group w :
  grant pk reduced_data group w = (Ok (), (grant pk reduced_data group w).2).
Proof. reflexivity. Qed.

Lemma grant_loop pk reduced_data groups : ∀ w,
  ∃ w',
    for_each groups (grant pk reduced_data) w = (Ok (), w') ∧
    products w' = products w ∧ reduced w' = reduced w ∧ next_pk w' = next_pk w ∧
    flashes w' = flashes w.
Proof.
  induction groups as [|group groups IH]; intros w.
  - by exists w.
  - cbn [for_each]. unfold mbind at 1, M_bind at 1. rewrite grant_ok.
    destruct (IH (grant pk reduced_data group w).2) as (w' & -> & Hp & Hr & Hn & Hf).
    by exists w'.
Qed.

Lemma filter_not_references_created pk (values : list string) :
  filter (λ r, ¬ references pk r)
         ((λ v, {| data_product := Some pk; value := v |}) <$> values) = [].
Proof.
  induction values as [|v values IH]; [done|].
  rewrite fmap_cons, filter_cons_False; [done|]. intros H. by apply H.
Qed.

Lemma filter_references_created pk (values : list string) :
  filter (references pk)
         ((λ v, {| data_product := Some pk; value := v |}) <$> values)
  = (λ v, {| data_product := Some pk; value := v |}) <$> values.
Proof.
  induction values as [|v values IH]; [done|].
  rewrite fmap_cons, filter_cons_True by done. by rewrite IH.
Qed.

Lemma filter_not_references_below pk (table : list ReducedDatum) :
  Forall (below pk) table → filter (λ r, ¬ references pk r) table = table.
Proof.
  induction 1 as [|r table Hr _ IH]; [done|].
  rewrite filter_cons_True, IH; [done|].
  unfold references, below in *. intros Href. rewrite Href in Hr. lia.
Qed.

Lemma filter_references_other pk (table : list ReducedDatum) :
  Forall (λ r, ¬ references pk r) table → filter (references pk) table = [].
Proof.
  induction 1 as [|r table Hr _ IH]; [done|]. by rewrite filter_cons_False.
Qed.

(** One turn of the loop, from a well-formed world. *)
Lemma upload_file_spec form target observation_record dp_type f uploads w :
  well_formed w →
  ∃ w1 uploads1,
    upload_file env form target observation_record dp_type f uploads w = (Ok uploads1, w1) ∧
    next_pk w1 = next_pk w + 1 ∧
    match raised (process_upload env (next_pk w)
                    (new_product env target observation_record dp_type f)) with
    | Some e =>
        uploads1 = uploads ∧ products w1 = products w ∧ reduced w1 = reduced w ∧
        flashes w1 = flashes w
                     ++ [(ERROR, error_message env e
                                   (new_product env target observation_record dp_type f))]
    | None =>
        uploads1 = uploads
                   ++ [DataProduct_str env (new_product env target observation_record dp_type f)] ∧
        products w1
        = <[next_pk w := new_product env target observation_record dp_type f]> (products w) ∧
        reduced w1
        = reduced w ++ created_rows env (next_pk w)
                         (new_product env target observation_record dp_type f) ∧
        flashes w1 = flashes w
    end.
Proof.
  intros [Hproducts Hreduced].
  set (dp := new_product env target observation_record dp_type f).
  assert (Hfresh : products w !! next_pk w = None).
  { destruct (products w !! next_pk w) as [p|] eqn:Hp; [|done].
    apply Hproducts in Hp. simpl in Hp. lia. }
  unfold upload_file. fold dp.
  unfold save_new, save, run_data_processor, ReducedDatum_filter_delete, delete_instance. run.
  destruct (raised (process_upload env (next_pk w) dp)) as [e|] eqn:Hraised; run.
  - assert (Hclean : filter (λ r, ¬ references (next_pk w) r)
                       (reduced w ++ created_rows env (next_pk w) dp)
                     = reduced w).
    { unfold created_rows.
      rewrite filter_app, filter_not_references_created, app_nil_r.
      by apply filter_not_references_below. }
    unfold created_rows in Hclean.
    destruct e; run; eexists _, _; (split; [reflexivity|]); cbn;
      rewrite Hclean, delete_insert_eq, (delete_id _ _ Hfresh); by repeat split; try lia.
  - destruct (TARGET_PERMISSIONS_ONLY (settings env)); run.
    + eexists _, _. split; [reflexivity|]. cbn. by repeat split; try lia.
    + match goal with
      | |- context [for_each _ (grant _ ?rows) ?w0] =>
          destruct (grant_loop (next_pk w) rows (cleaned_groups form) w0)
            as (w' & Hrun & Hp & Hr & Hn & Hf)
      end.
      rewrite Hrun. eexists _, _. split; [reflexivity|].
      rewrite Hp, Hr, Hn, Hf. cbn. by repeat split; try lia.
Qed.


Lemma below_mono n n' r : n ≤ n' → below n r → below n' r.
Proof. unfold below. destruct (data_product r); [lia|done]. Qed.

Lemma not_below_not_references n pk r : pk < n → ¬ below n r → ¬ references pk r.
Proof.
  unfold below, references. intros Hlt Hnot Href. rewrite Href in Hnot. by apply Hnot.
Qed.

Lemma below_not_references pk r : below pk r → ¬ references pk r.
Proof. unfold below, references. intros Hb Href. rewrite Href in Hb. lia. Qed.

Lemma created_rows_not_below pk dp : Forall (λ r, ¬ below pk r) (created_rows env pk dp).
Proof.
  unfold created_rows. apply Forall_fmap, Forall_true. intros v. unfold below. simpl. lia.
Qed.

(** The whole loop, from a well-formed world. *)
Lemma upload_files_spec form target observation_record dp_type files : ∀ uploads w,
  well_formed w →
  ∃ w' uploads',
    upload_files env form target observation_record dp_type files uploads w
    = (Ok uploads', w') ∧
    well_formed w' ∧ next_pk w ≤ next_pk w' ∧
    (∀ k, k < next_pk w → products w' !! k = products w !! k) ∧
    (∃ extra, reduced w' = reduced w ++ extra ∧ Forall (λ r, ¬ below (next_pk w) r) extra) ∧
    (∃ more, flashes w' = flashes w ++ more) ∧
    (∃ more, uploads' = uploads ++ more) ∧
    (∀ (i : nat) f, files !! i = Some f →
       upload_settled env target observation_record dp_type uploads' w'
         (next_pk w + Z.of_nat i) f).
Proof.
  induction files as [|f files IH]; intros uploads w Hwf.
  - exists w, uploads. split; [reflexivity|]. split; [done|]. split; [lia|].
    split; [done|]. split; [exists []; by rewrite app_nil_r|].
    split; [exists []; by rewrite app_nil_r|]. split; [exists []; by rewrite app_nil_r|].
    intros i f' Hi. by rewrite lookup_nil in Hi.
  - destruct (upload_file_spec form target observation_record dp_type f uploads w Hwf)
      as (w1 & uploads1 & Hstep & Hnext & Hcase).
    set (pk := next_pk w) in *.
    set (dp := new_product env target observation_record dp_type f) in *.
    destruct Hwf as [Hproducts Hreduced].
    assert (Hfresh : products w !! pk = None).
    { destruct (products w !! pk) as [p|] eqn:Hp; [|done].
      apply Hproducts in Hp. simpl in Hp. lia. }
    assert (Hwf1 : well_formed w1).
    { destruct (raised (process_upload env pk dp)) as [e|].
      - destruct Hcase as (_ & Hp & Hr & _). split.
        + rewrite Hp, Hnext. intros k p Hk. apply Hproducts in Hk. simpl in *. lia.
        + rewrite Hr, Hnext. eapply Forall_impl; [exact Hreduced|].
          intros r. apply below_mono. lia.
      - destruct Hcase as (_ & Hp & Hr & _). split.
        + rewrite Hp, Hnext. intros k p Hk. apply lookup_insert_Some in Hk as [[<- _]|[_ Hk]].
          * simpl. lia.
          * apply Hproducts in Hk. simpl in *. lia.
        + rewrite Hr, Hnext. apply Forall_app. split.
          * eapply Forall_impl; [exact Hreduced|]. intros r. apply below_mono. lia.
          * unfold created_rows. apply Forall_fmap, Forall_true. intros v.
            unfold below. simpl. lia. }
    destruct (IH uploads1 w1 Hwf1)
      as (w' & uploads' & Hloop & Hwf' & Hle & Hframe & (extra & Hextra & Hfar)
          & (more & Hmore) & (names & Hnames) & Hsettled).
    exists w', uploads'. split.
    { cbn [upload_files]. unfold mbind, M_bind. by rewrite Hstep. }
    split; [done|]. split; [lia|].
    assert (Hframe0 : ∀ k, k < pk → products w1 !! k = products w !! k).
    { intros k Hk. destruct (raised (process_upload env pk dp)) as [e|].
      - destruct Hcase as (_ & -> & _). done.
      - destruct Hcase as (_ & -> & _). apply lookup_insert_ne. lia. }
    split. { intros k Hk. rewrite Hframe by lia. by apply Hframe0. }
    assert (Hextra0 : ∃ extra0, reduced w1 = reduced w ++ extra0 ∧
                                Forall (λ r, ¬ below pk r) extra0).
    { destruct (raised (process_upload env pk dp)) as [e|].
      - destruct Hcase as (_ & _ & -> & _). exists []. by rewrite app_nil_r.
      - destruct Hcase as (_ & _ & -> & _). eexists. split; [reflexivity|].
        apply created_rows_not_below. }
    destruct Hextra0 as (extra0 & Hextra0 & Hfar0).
    split.
    { exists (extra0 ++ extra). split.
      - by rewrite Hextra, Hextra0, app_assoc.
      - apply Forall_app. split; [done|].
        eapply Forall_impl; [exact Hfar|]. intros r Hr Hb. apply Hr.
        eapply below_mono; [|exact Hb]. lia. }
    assert (Hflash0 : ∃ more0, flashes w1 = flashes w ++ more0).
    { destruct (raised (process_upload env pk dp)) as [e|].
      - destruct Hcase as (_ & _ & _ & ->). by eexists.
      - destruct Hcase as (_ & _ & _ & ->). exists []. by rewrite app_nil_r. }
    destruct Hflash0 as (more0 & Hflash0).
    split. { exists (more0 ++ more). by rewrite Hmore, Hflash0, app_assoc. }
    assert (Hnames0 : ∃ names0, uploads1 = uploads ++ names0).
    { destruct (raised (process_upload env pk dp)) as [e|].
      - destruct Hcase as (-> & _). exists []. by rewrite app_nil_r.
      - destruct Hcase as (-> & _). by eexists. }
    destruct Hnames0 as (names0 & Hnames0).
    split. { exists (names0 ++ names). by rewrite Hnames, Hnames0, app_assoc. }
    intros [|i] f' Hi.
    + injection Hi as <-. rewrite Z.add_0_r. fold pk. unfold upload_settled. fold dp.
      assert (Hlater : Forall (λ r, ¬ references pk r) extra).
      { eapply Forall_impl; [exact Hfar|]. intros r. apply not_below_not_references. lia. }
      assert (Hearlier : Forall (λ r, ¬ references pk r) (reduced w)).
      { eapply Forall_impl; [exact Hreduced|]. intros r. apply below_not_references. }
      destruct (raised (process_upload env pk dp)) as [e|].
      * destruct Hcase as (_ & Hp & Hr & Hf). split; [|split].
        -- rewrite Hframe by lia. by rewrite Hp.
        -- intros r Hin. rewrite Hextra, Hr in Hin.
           apply elem_of_app in Hin as [Hin|Hin].
           ++ by apply (proj1 (Forall_forall _ _) Hearlier).
           ++ by apply (proj1 (Forall_forall _ _) Hlater).
        -- rewrite Hmore, Hf. apply elem_of_app. left. apply elem_of_app. right.
           by apply list_elem_of_singleton.
      * destruct Hcase as (-> & Hp & Hr & _). split; [|split].
        -- rewrite Hframe by lia. rewrite Hp. apply lookup_insert_eq.
        -- rewrite Hextra, Hr, !filter_app.
           rewrite (filter_references_other pk _ Hearlier).
           rewrite (filter_references_other pk _ Hlater).
           unfold created_rows. rewrite filter_references_created. by rewrite app_nil_r.
        -- rewrite Hnames. apply elem_of_app. left. apply elem_of_app. right.
           by apply list_elem_of_singleton.
    + replace (pk + Z.of_nat (S i)) with (next_pk w1 + Z.of_nat i) by lia.
      by apply Hsettled.
Qed.


(** C1. From a well-formed database, [form_valid] handles every uploaded
    file and answers with the redirect to the referrer of the form, as
    [redirect] resolves it. For each file whose processing raises, be it
    InvalidFileFormatException or another exception, no [ReducedDatum] of
    the file's product and no row of the product is left, and the error is
    flashed for that file; the loop goes on, so each file that processes
    successfully, before or after a failure, keeps its product, exactly the
    reduced data created for it, and its place in the success message. The
    rows that were there before the request are as they were. *)
Theorem form_valid_cleans_failed_uploads request form target observation_record w :
  well_formed w →
  selection form = Some (target, observation_record) →
  ∃ w' uploads,
    form_valid env request form w
    = shortcuts_redirect env (default "/" (cleaned_referrer form)) w' ∧
    (form_valid env request form w).2 = w' ∧
    (∀ (i : nat) f, FILES request !! i = Some f →
       upload_settled env target observation_record (cleaned_data_product_type form)
         uploads w' (next_pk w + Z.of_nat i) f) ∧
    (uploads ≠ [] →
     (SUCCESS, "Successfully uploaded: " +:+ String.concat nl uploads) ∈ flashes w') ∧
    (∀ k, k < next_pk w → products w' !! k = products w !! k) ∧
    (∃ extra, reduced w' = reduced w ++ extra ∧ Forall (λ r, ¬ below (next_pk w) r) extra).
Proof.
  intros Hwf Hselection.
  destruct (upload_files_spec form target observation_record (cleaned_data_product_type form)
              (FILES request) [] w Hwf)
    as (w1 & uploads & Hloop & _ & _ & Hframe & Hextra & _ & _ & Hsettled).
  assert (Hstart : form_valid env request form w
                   = shortcuts_redirect env (default "/" (cleaned_referrer form))
                       (if decide (uploads = []) then w1
                        else add_flash (SUCCESS, "Successfully uploaded: "
                                                 +:+ String.concat nl uploads) w1)).
  { unfold form_valid, selection in *. unfold mbind at 1, M_bind at 1.
    destruct (cleaned_target form) as [t|].
    - injection Hselection as <- <-. run. rewrite Hloop.
      destruct (decide (uploads = [])); reflexivity.
    - destruct (cleaned_observation_record form) as [o|]; [|done].
      injection Hselection as <- <-. run. rewrite Hloop.
      destruct (decide (uploads = [])); reflexivity. }
  assert (Hworld : ∀ to w0, (shortcuts_redirect env to w0).2 = w0).
  { intros to w0. unfold shortcuts_redirect. by destruct (resolve_url env to). }
  eexists _, uploads. split; [exact Hstart|].
  split; [by rewrite Hstart, Hworld|].
  destruct (decide (uploads = [])) as [Hnone|Hsome].
  - split_and!; [exact Hsettled | done | exact Hframe | exact Hextra].
  - split_and!; [| | exact Hframe | exact Hextra].
    + intros i f Hi. specialize (Hsettled i f Hi). unfold upload_settled in *.
      destruct (raised _) as [e|]; [|exact Hsettled].
      destruct Hsettled as (Hp & Hr & Hf). split_and!; [exact Hp | exact Hr |].
      simpl. apply elem_of_app. by left.
    + intros _. simpl. apply elem_of_app. right. by apply list_elem_of_singleton.
Qed.

End UploadView.

Lemma form_valid_cleans_failed_uploads_witness :
  ∃ w',
    DataProductUploadView.form_valid (Sample.env 1) Sample.request Sample.form Sample.world
    = (Ok (redirect (Path "/targets/7/")), w') ∧
    is_Some (products w' !! 5) ∧
    (products w' !! 6 = None ∧ ∀ r, r ∈ reduced w' → ¬ references 6 r) ∧
    (products w' !! 7 = None ∧ ∀ r, r ∈ reduced w' → ¬ references 7 r) ∧
    is_Some (products w' !! 8) ∧
    products w' !! 1 = Some Sample.photometry.
Proof.
  destruct (form_valid_cleans_failed_uploads (Sample.env 1) Sample.request Sample.form
              Sample.M31 None Sample.world)
    as (w' & uploads & Hrun & _ & Hsettled & _ & Hframe & _).
  - refine (bool_decide_unpack _ _). vm_compute. exact I.
  - reflexivity.
  - exists w'. split; [exact Hrun|].
    pose proof (Hsettled 0%nat ("good.csv", "a") eq_refl) as (Hgood & _).
    pose proof (Hsettled 1%nat ("bad.csv", "b") eq_refl) as (Hbad & Hbad' & _).
    pose proof (Hsettled 2%nat ("broken.csv", "c") eq_refl) as (Hbroken & Hbroken' & _).
    pose proof (Hsettled 3%nat ("fine.csv", "d") eq_refl) as (Hfine & _).
    split_and!.
    + eexists. exact Hgood.
    + exact Hbad.
    + exact Hbad'.
    + exact Hbroken.
    + exact Hbroken'.
    + eexists. exact Hfine.
    + rewrite (Hframe 1) by (simpl; lia). reflexivity.
Defined.

(** * Further properties *)

(** ** Failures of the sharing calls *)

Section SharingFailures.

Context (env : Env).

Import DataProductShareView.

(** X1. Without a BASE_URL for the stream, [submit_to_stream] raises the
    KeyError of the failed lookup, the stream name for an absent entry and
    BASE_URL for an entry without that key, and does nothing else. *)
Theorem submit_to_stream_unconfigured stream_name target_name rows message w :
  sharing_key (settings env) stream_name "BASE_URL" = None →
  submit_to_stream env stream_name target_name rows message w
  = (Raise (KeyError (if decide (is_Some (DATA_SHARING (settings env) !! stream_name))
                      then "BASE_URL" else stream_name)), w).
Proof.
  unfold sharing_key, submit_to_stream. intros Hkey. run.
  destruct (DATA_SHARING (settings env) !! stream_name) as [d|]; simpl in Hkey; run.
  - rewrite Hkey. rewrite decide_True by done. reflexivity.
  - rewrite decide_False by (by intros [? ?]). reflexivity.
Qed.

Lemma hermes_entry_missing target_name row key w :
  missing_column row = Some key →
  hermes_entry target_name row w = (Raise (KeyError key), w).
Proof.
  unfold missing_column, hermes_entry. intros Hmiss. run.
  destruct (row !! Some "time") as [t|]; [|by injection Hmiss as <-].
  rewrite decide_False in Hmiss by done. run.
  destruct (row !! Some "filter") as [f|]; [|by injection Hmiss as <-].
  rewrite decide_False in Hmiss by done. run.
  destruct (row !! Some "magnitude") as [m|]; [|by injection Hmiss as <-].
  rewrite decide_False in Hmiss by done. run.
  destruct (row !! Some "error") as [e|]; [|by injection Hmiss as <-].
  by rewrite decide_False in Hmiss by done.
Qed.

Lemma hermes_loop_missing target_name good bad rest key : ∀ acc w,
  Forall photometry_row good →
  missing_column bad = Some key →
  hermes_loop target_name (good ++ bad :: rest) acc w = (Raise (KeyError key), w).
Proof.
  induction good as [|row good IH]; intros acc w Hgood Hbad.
  - cbn [app hermes_loop]. unfold mbind, M_bind.
    by rewrite (hermes_entry_missing _ _ _ _ Hbad).
  - apply Forall_cons in Hgood as [Hrow Hgood].
    destruct (hermes_entry_ok target_name row w Hrow) as (entry & Hentry & _).
    cbn [app hermes_loop]. unfold mbind at 1, M_bind at 1. rewrite Hentry.
    by apply IH.
Qed.

(** X2. When a row lacks a photometry column, [submit_to_stream] raises the
    KeyError of the first column missing from the first such row and sends
    nothing: the rows before it are not posted either. *)
Theorem submit_to_stream_missing_column stream_name target_name good bad rest key message
    base_url w :
  sharing_key (settings env) stream_name "BASE_URL" = Some base_url →
  Forall photometry_row good →
  missing_column bad = Some key →
  submit_to_stream env stream_name target_name (good ++ bad :: rest) message w
  = (Raise (KeyError key), w).
Proof.
  intros Hbase Hgood Hbad. unfold sharing_key in Hbase.
  destruct (DATA_SHARING (settings env) !! stream_name) as [d|] eqn:Hd; [|done].
  simpl in Hbase. unfold submit_to_stream. run. rewrite Hd. run. rewrite Hbase. run.
  by rewrite (hermes_loop_missing _ _ _ _ _ [] w Hgood Hbad).
Qed.


(** X3. With exactly one target found, the product's file in the storage
    and both calls answered, [share_with_tom] returns after the GET, the
    opening of the file, one POST and two debug lines. The POST carries the
    id of the first listed target, the product's type and the file under
    its storage name as text/csv, with the Media-Type header and the
    credentials; the debug lines report the status code and the text of
    the reply. Nothing but the trace changes. *)
Theorem share_with_tom_posts_product tom_name product base username password reply first
    others contents response w :
  sharing_key (settings env) tom_name "BASE_URL" = Some base →
  sharing_key (settings env) tom_name "USERNAME" = Some username →
  sharing_key (settings env) tom_name "PASSWORD" = Some password →
  targets_reply env base (username, password) product = inr reply →
  count reply = 1 →
  results reply = first :: others →
  media w !! upload_path env product = Some contents →
  dataproduct_reply env base product (remote_id first) contents = inr response →
  ∃ w',
    share_with_tom env tom_name product w = (Ok (), w') ∧
    trace w'
    = trace w
      ++ [targets_get base (username, password) product;
          FileOpen (upload_path env product);
          dataproduct_post base (username, password) product (remote_id first) contents;
          Log DEBUG ("DataProductShareView.share_with_tom response.status_code: "
                     +:+ pretty (status_code response));
          Log DEBUG ("DataProductShareView.share_with_tom response.text: "
                     +:+ text response)] ∧
    untouched w w'.
Proof.
  intros Hb Hu Hp Hreply Hcount Hresults Hfile Hresponse.
  rewrite (share_with_tom_cases _ _ _ _ _ _ w Hb Hu Hp). cbv zeta. rewrite Hreply.
  rewrite decide_True by done. rewrite Hresults.
  unfold post_dataproduct, upload_path, dataproduct_reply in *. run. rewrite Hfile. run.
  rewrite Hresponse. run.
  eexists. split; [reflexivity|].
  split; [exact (trace_add_events [_; _; _; _; _] w)|]. by repeat split.
Qed.



End SharingFailures.

Lemma submit_to_stream_unconfigured_witness :
  DataProductShareView.submit_to_stream (Sample.env 1) "fink" "M31" [Sample.row1]
    "From TOMToolkit" Sample.world
  = (Raise (KeyError "fink"), Sample.world).
Proof.
  exact (submit_to_stream_unconfigured (Sample.env 1) "fink" "M31" [Sample.row1]
           "From TOMToolkit" Sample.world eq_refl).
Defined.

Lemma submit_to_stream_missing_column_witness :
  DataProductShareView.submit_to_stream (Sample.env 1) "hermes" "M31"
    ([Sample.row1] ++ Cases.short_row :: [Sample.row2]) "From TOMToolkit" Sample.world
  = (Raise (KeyError "filter"), Sample.world).
Proof.
  apply (submit_to_stream_missing_column (Sample.env 1) "hermes" "M31" [Sample.row1]
           Cases.short_row [Sample.row2] "filter" "From TOMToolkit"
           "https://hermes.example/" Sample.world).
  - reflexivity.
  - refine (bool_decide_unpack _ _). vm_compute. exact I.
  - vm_compute. reflexivity.
Defined.

Lemma share_with_tom_posts_product_witness :
  ∃ w',
    DataProductShareView.share_with_tom (Sample.env 1) "tom" Sample.photometry Sample.world
    = (Ok (), w') ∧
    trace w'
    = trace Sample.world
      ++ [targets_get "https://tom.example/" ("alice", "secret") Sample.photometry;
          FileOpen "/media/M31/phot.csv";
          dataproduct_post "https://tom.example/" ("alice", "secret") Sample.photometry 42
            Sample.phot_csv;
          Log DEBUG "DataProductShareView.share_with_tom response.status_code: 201";
          Log DEBUG "DataProductShareView.share_with_tom response.text: created"] ∧
    untouched Sample.world w'.
Proof.
  exact (share_with_tom_posts_product (Sample.env 1) "tom" Sample.photometry
           "https://tom.example/" "alice" "secret" _ _ _ Sample.phot_csv
           {| status_code := 201; text := "created" |}
           Sample.world eq_refl eq_refl eq_refl eq_refl eq_refl eq_refl eq_refl eq_refl).
Defined.



(** ** What sharing leaves alone *)

Section SharingFrame.

Context (env : Env).

Import DataProductShareView.

Lemma untouched_refl w : untouched w w.
Proof. by repeat split. Qed.

Lemma untouched_add_events evs : ∀ w, untouched w (foldl (λ w e, add_event e w) w evs).
Proof.
  induction evs as [|e evs IH]; intros w; [apply untouched_refl|].
  simpl. destruct (IH (add_event e w)) as (? & ? & ? & ? & ? & ? & ?).
  by repeat split.
Qed.

Lemma untouched_trans w1 w2 w3 : untouched w1 w2 → untouched w2 w3 → untouched w1 w3.
Proof.
  intros (? & ? & ? & ? & ? & ? & ?) (? & ? & ? & ? & ? & ? & ?).
  repeat split; congruence.
Qed.

Lemma submit_to_stream_untouched stream_name target_name rows message w :
  untouched w (submit_to_stream env stream_name target_name rows message w).2.
Proof.
  destruct (submit_to_stream_cases env stream_name target_name rows message w)
    as [[e ->]|(url & body & r & ->)].
  - apply untouched_refl.
  - exact (untouched_add_events [_] w).
Qed.

Lemma post_dataproduct_untouched base auth product remote_pk w :
  untouched w (post_dataproduct env base auth product remote_pk w).2.
Proof.
  pose proof (post_dataproduct_cases env base auth product remote_pk w) as Hcases.
  cbv zeta in Hcases.
  destruct (media w !! upload_path env product) as [contents|].
  - destruct remote_pk as [i|].
    + destruct (dataproduct_reply env base product i contents);
        rewrite Hcases; apply untouched_add_events.
    + rewrite Hcases. exact (untouched_add_events [_] w).
  - assert (Hrun : post_dataproduct env base auth product remote_pk w
                   = (Raise (FileNotFoundError (upload_path env product)),
                      add_event (FileOpen (upload_path env product)) w)).
    { by destruct remote_pk. }
    rewrite Hrun. exact (untouched_add_events [_] w).
Qed.

Lemma share_with_tom_untouched tom_name product w :
  untouched w (share_with_tom env tom_name product w).2.
Proof.
  destruct (decide (misconfigured (settings env) tom_name)) as [Hmis|Hcfg].
  - destruct (sharing_credentials_err env tom_name w Hmis) as [msg Hmsg].
    unfold share_with_tom, mbind, M_bind. rewrite Hmsg. apply untouched_refl.
  - destruct (configured_keys env tom_name Hcfg) as (base & u & p & Hb & Hu & Hp).
    rewrite (share_with_tom_cases _ _ _ _ _ _ w Hb Hu Hp). cbv zeta.
    set (w1 := add_event _ w).
    assert (H1 : untouched w w1) by exact (untouched_add_events [_] w).
    destruct (targets_reply env base (u, p) product) as [e|reply]; [exact H1|].
    destruct (decide (count reply = 1)).
    + destruct (results reply); [exact H1|].
      eapply untouched_trans; [exact H1|apply post_dataproduct_untouched].
    + destruct (decide (_ ∨ _)).
      * exact (untouched_add_events [_; _] w).
      * eapply untouched_trans; [exact H1|apply post_dataproduct_untouched].
Qed.

Lemma get_object_spec pk w :
  get_object pk w
  = match pk with
    | None => (Raise AttributeError, w)
    | Some _ =>
        match find_product pk w with
        | Some r => (Ok r, w)
        | None => (Raise Http404, w)
        end
    end.
Proof.
  unfold get_object. destruct pk as [k|]; [|done]. unfold mbind, M_bind, read.
  by destruct (find_product (Some k) w).
Qed.

Lemma target_detail_untouched request w : (target_detail env request w).2 = w.
Proof. by rewrite target_detail_run. Qed.

(** [get] after the debug line, when the product is a photometry product:
    what it leaves is the world of a run of [submit_to_stream], or the
    world with at most the opening of the file recorded. *)
Lemma share_get_world request pk w :
  untouched w (get env request pk w).2 ∧
  ∃ evs,
    trace (get env request pk w).2 = trace w ++ evs ∧
    filter (λ e, is_get e) evs = [] ∧
    (filter (λ e, is_http e) evs = [] ∨
     ∃ url body, filter (λ e, is_http e) evs = [HttpPost url body [] None]).
Proof.
  pose proof (share_get_cases env request pk w) as Hcases.
  destruct (find_product pk w) as [[k p]|].
  2:{ rewrite Hcases. split; [apply untouched_refl|].
      exists []. split; [by rewrite app_nil_r|]. split; [done|by left]. }
  destruct Hcases as [msg Hcases]. cbv zeta in Hcases.
  assert (H0 : untouched w (add_event (Log DEBUG msg) w) ∧
               trace (add_event (Log DEBUG msg) w) = trace w ++ [Log DEBUG msg]).
  { split; [exact (untouched_add_events [_] w)|done]. }
  assert (Hquiet : ∀ evs, evs = [Log DEBUG msg] ∨ (∃ path, evs = [Log DEBUG msg; FileOpen path]) →
    filter (λ e, is_get e) evs = [] ∧
    (filter (λ e, is_http e) evs = [] ∨
     ∃ url body, filter (λ e, is_http e) evs = [HttpPost url body [] None])).
  { intros evs [->|[path ->]]; (split; [done|by left]). }
  destruct (decide (data_product_type p = "photometry")) as [Htype|Htype].
  2:{ rewrite Hcases, target_detail_untouched. split; [apply H0|].
      eexists. split; [apply H0|]. apply Hquiet. by left. }
  destruct (decide (file_name (data p) = "")) as [Hname|Hname].
  { rewrite Hcases. split; [apply H0|].
    eexists. split; [apply H0|]. apply Hquiet. by left. }
  destruct (storage_path env (file_name (data p))) as [e|path].
  { rewrite Hcases. split; [apply H0|].
    eexists. split; [apply H0|]. apply Hquiet. by left. }
  destruct (media w !! path) as [contents|].
  2:{ rewrite Hcases. split; [exact (untouched_add_events [_; _] w)|].
      eexists. split; [exact (trace_add_events [_; _] w)|]. apply Hquiet. right. by eexists. }
  destruct (csv.DictReader _ _ contents) as [e|rows].
  { rewrite Hcases. split; [exact (untouched_add_events [_; _] w)|].
    eexists. split; [exact (trace_add_events [_; _] w)|]. apply Hquiet. right. by eexists. }
  rewrite Hcases. unfold mbind, M_bind.
  destruct (submit_to_stream_cases env "hermes" (target_name (target p)) rows
              "From TOMToolkit" (add_event (FileOpen path) (add_event (Log DEBUG msg) w)))
    as [[e Hrun]|(url & body & r & Hrun)]; rewrite Hrun.
  - split; [exact (untouched_add_events [_; _] w)|].
    eexists. split; [exact (trace_add_events [_; _] w)|]. apply Hquiet. right. by eexists.
  - assert (Hworld : (match r with
                      | Ok _ => target_detail env request
                                  (add_event (HttpPost url body [] None)
                                     (add_event (FileOpen path) (add_event (Log DEBUG msg) w)))
                      | Raise e0 => (Raise e0,
                                     add_event (HttpPost url body [] None)
                                       (add_event (FileOpen path)
                                          (add_event (Log DEBUG msg) w)))
                      end).2
                     = foldl (λ w e, add_event e w) w
                         [Log DEBUG msg; FileOpen path; HttpPost url body [] None]).
    { destruct r; [by rewrite target_detail_untouched|done]. }
    rewrite Hworld. split; [apply untouched_add_events|].
    eexists. split; [exact (trace_add_events [_; _; _] w)|]. split; [done|].
    right. by eexists _, _.
Qed.

(** X6. Sharing is read-only: whatever their arguments and however they
    end, [submit_to_stream], [share_with_tom] and [get] leave the product
    and reduced-data tables, the key counter, the storage, the cache, the
    permissions and the flash messages as they were. *)
Theorem sharing_is_read_only stream_name name rows message tom_name product request pk w :
  untouched w (submit_to_stream env stream_name name rows message w).2 ∧
  untouched w (share_with_tom env tom_name product w).2 ∧
  untouched w (get env request pk w).2.
Proof.
  split; [apply submit_to_stream_untouched|]. split; [apply share_with_tom_untouched|].
  apply share_get_world.
Qed.

(** X7. [get] never queries a destination TOM: for every request and
    product the trace it appends holds no GET and at most one HTTP call,
    a POST without credentials. *)
Theorem share_get_never_contacts_a_tom request pk w :
  ∃ evs,
    trace (get env request pk w).2 = trace w ++ evs ∧
    filter (λ e, is_get e) evs = [] ∧
    (filter (λ e, is_http e) evs = [] ∨
     ∃ url body, filter (λ e, is_http e) evs = [HttpPost url body [] None]).
Proof. apply share_get_world. Qed.

(** X8. For a photometry product [get] gives no redirect when the product
    has no file, raising ValueError before any file is opened; when the
    storage refuses the name of the file, raising what the storage raises;
    when the file is not in the storage, raising FileNotFoundError after
    the attempt to open it; and when HERMES has no BASE_URL in the
    settings, raising the KeyError of the failed lookup after the file was
    read. The debug line, and from the third case on the opening of the
    file, are all it leaves in the trace. *)
Theorem share_get_photometry_failures request k product w :
  products w !! k = Some product →
  data_product_type product = "photometry" →
  ∃ msg,
    (file_name (data product) = "" →
     get env request (Some k) w
     = (Raise (ValueError "The 'data' attribute has no file associated with it."),
        add_event (Log DEBUG msg) w)) ∧
    (∀ e,
       file_name (data product) ≠ "" →
       storage_path env (file_name (data product)) = inl e →
       get env request (Some k) w = (Raise e, add_event (Log DEBUG msg) w)) ∧
    (∀ path,
       file_name (data product) ≠ "" →
       storage_path env (file_name (data product)) = inr path →
       media w !! path = None →
       get env request (Some k) w
       = (Raise (FileNotFoundError path),
          add_event (FileOpen path) (add_event (Log DEBUG msg) w))) ∧
    (∀ path contents rows,
       file_name (data product) ≠ "" →
       storage_path env (file_name (data product)) = inr path →
       media w !! path = Some contents →
       csv.DictReader (csv_nul_error env) ","%char contents = inr rows →
       sharing_key (settings env) "hermes" "BASE_URL" = None →
       get env request (Some k) w
       = (Raise (KeyError (if decide (is_Some (DATA_SHARING (settings env) !! "hermes"))
                           then "BASE_URL" else "hermes")),
          add_event (FileOpen path) (add_event (Log DEBUG msg) w))).
Proof.
  intros Hk Htype.
  pose proof (share_get_cases env request (Some k) w) as Hcases.
  unfold find_product in Hcases. simpl in Hcases. rewrite Hk in Hcases. simpl in Hcases.
  destruct Hcases as [msg Hcases]. rewrite decide_True in Hcases by done.
  exists msg. split_and!.
  - intros Hname. by rewrite decide_True in Hcases by done.
  - intros e Hname Hpath. rewrite decide_False in Hcases by done.
    by rewrite Hpath in Hcases.
  - intros path Hname Hpath Hfile. rewrite decide_False in Hcases by done.
    rewrite Hpath in Hcases. cbv zeta in Hcases. by rewrite Hfile in Hcases.
  - intros path contents rows Hname Hpath Hfile Hrows Hkey.
    rewrite decide_False in Hcases by done.
    rewrite Hpath in Hcases. cbv zeta in Hcases. rewrite Hfile, Hrows in Hcases.
    rewrite Hcases. unfold mbind, M_bind.
    unfold sharing_key in Hkey. unfold submit_to_stream. run.
    destruct (DATA_SHARING (settings env) !! "hermes") as [d|]; simpl in Hkey; run.
    + rewrite Hkey. by rewrite decide_True by done.
    + by rewrite decide_False by (by intros [? ?]).
Qed.

End SharingFrame.

Lemma share_get_photometry_failures_witness :
  (∃ msg,
     DataProductShareView.get (Sample.env 1) Sample.request (Some 9)
       (set_products <[9 := Cases.nameless]> Sample.world)
     = (Raise (ValueError "The 'data' attribute has no file associated with it."),
        add_event (Log DEBUG msg) (set_products <[9 := Cases.nameless]> Sample.world))) ∧
  (∃ msg,
     DataProductShareView.get (Sample.env 1) Sample.request (Some 9)
       (set_products <[9 := Cases.lost]> Sample.world)
     = (Raise (FileNotFoundError "/media/M31/lost.csv"),
        add_event (FileOpen "/media/M31/lost.csv")
          (add_event (Log DEBUG msg) (set_products <[9 := Cases.lost]> Sample.world)))).
Proof.
  split.
  - destruct (share_get_photometry_failures (Sample.env 1) Sample.request 9 Cases.nameless
                (set_products <[9 := Cases.nameless]> Sample.world))
      as (msg & Hnameless & _).
    + vm_compute. reflexivity.
    + reflexivity.
    + exists msg. apply Hnameless. reflexivity.
  - destruct (share_get_photometry_failures (Sample.env 1) Sample.request 9 Cases.lost
                (set_products <[9 := Cases.lost]> Sample.world))
      as (msg & _ & _ & Hlost & _).
    + vm_compute. reflexivity.
    + reflexivity.
    + exists msg. apply Hlost.
      * discriminate.
      * vm_compute. reflexivity.
      * vm_compute. reflexivity.
Defined.

(** ** A product that is not there *)

(** X9. When no product has the requested key, the share and feature views
    raise DoesNotExist and the delete view raises Http404; for a URL
    without a key the share and feature views raise DoesNotExist as well,
    and the delete view raises AttributeError. Each view stops before any
    effect: the world is as it was. *)
Theorem missing_product_stops_the_view (env : Env) request pk w :
  find_product pk w = None →
  DataProductShareView.get env request pk w = (Raise DoesNotExist, w) ∧
  DataProductFeatureView.get env request pk w = (Raise DoesNotExist, w) ∧
  DataProductDeleteView.delete env request pk w
  = (Raise (match pk with Some _ => Http404 | None => AttributeError end), w).
Proof.
  intros Hmissing. split_and!.
  - pose proof (share_get_cases env request pk w) as Hcases. by rewrite Hmissing in Hcases.
  - unfold DataProductFeatureView.get, mbind, M_bind.
    by rewrite objects_get_spec, Hmissing.
  - unfold DataProductDeleteView.delete, mbind, M_bind.
    rewrite get_object_spec. destruct pk; [|done]. by rewrite Hmissing.
Qed.

Lemma missing_product_stops_the_view_witness :
  (DataProductShareView.get (Sample.env 1) Sample.request (Some 99) Sample.world
   = (Raise DoesNotExist, Sample.world) ∧
   DataProductFeatureView.get (Sample.env 1) Sample.request (Some 99) Sample.world
   = (Raise DoesNotExist, Sample.world) ∧
   DataProductDeleteView.delete (Sample.env 1) Sample.request (Some 99) Sample.world
   = (Raise Http404, Sample.world)) ∧
  DataProductDeleteView.delete (Sample.env 1) Sample.request None Sample.world
  = (Raise AttributeError, Sample.world).
Proof.
  split.
  - exact (missing_product_stops_the_view (Sample.env 1) Sample.request (Some 99)
             Sample.world eq_refl).
  - exact (proj2 (proj2 (missing_product_stops_the_view (Sample.env 1) Sample.request None
                           Sample.world eq_refl))).
Defined.

(** ** DataProductDeleteView.delete, further *)

Section DeleteFurther.

Context (env : Env).

Import DataProductDeleteView.

(** The world a deletion reaches, field by field. *)
Lemma delete_run request k object w :
  products w !! k = Some object →
  ∃ w',
    delete env request (Some k) w
    = (Ok (redirect (Path (get_success_url env request))), w') ∧
    products w' = base.delete k (products w) ∧
    reduced w' = filter (λ r, ¬ references k r) (reduced w) ∧
    next_pk w' = next_pk w ∧
    media w' = (if decide (file_name (data object) = "") then media w
                else base.delete (data_path env object) (media w)) ∧
    cache w' = cache w ∧ perms w' = perms w ∧ flashes w' = flashes w.
Proof.
  intros Hk. unfold delete, super_delete, mbind, M_bind.
  rewrite (get_object_found _ _ _ Hk).
  unfold ReducedDatum_filter_delete, FieldFile_delete, save, delete_instance. run.
  erewrite get_object_found by exact Hk.
  destruct (decide (file_name (data object) = "")) as [Hname|Hname]; run.
  - erewrite get_object_found by exact Hk. run.
    eexists. split; [reflexivity|]. by repeat split.
  - erewrite get_object_found by (simpl; apply lookup_insert_eq). run.
    eexists. split; [reflexivity|]. simpl. rewrite delete_insert_eq. by repeat split.
Qed.

(** X10. A deletion cannot be repeated: after [delete] has removed a
    product, the same request raises Http404 and changes nothing. *)
Theorem delete_twice_is_not_found request k object w :
  products w !! k = Some object →
  ∃ w',
    delete env request (Some k) w
    = (Ok (redirect (Path (get_success_url env request))), w') ∧
    delete env request (Some k) w' = (Raise Http404, w').
Proof.
  intros Hk. destruct (delete_run request k object w Hk) as (w' & Hrun & Hproducts & _).
  exists w'. split; [exact Hrun|].
  unfold delete, mbind, M_bind. rewrite get_object_spec. unfold find_product. simpl.
  by rewrite Hproducts, lookup_delete_eq.
Qed.

(** X11. [delete] keeps the database consistent: when every reduced datum
    that names a product names an existing one, the same holds afterwards,
    and the keys stay below the key counter. *)
Theorem delete_keeps_integrity request k object w :
  products w !! k = Some object →
  (referential_integrity w → referential_integrity (delete env request (Some k) w).2) ∧
  (well_formed w → well_formed (delete env request (Some k) w).2).
Proof.
  intros Hk.
  destruct (delete_run request k object w Hk) as (w' & -> & Hp & Hr & Hn & _).
  simpl. split.
  - unfold referential_integrity. rewrite Hp, Hr. intros Hint.
    apply Forall_forall. intros r Hin.
    apply list_elem_of_filter in Hin as [Hother Hin].
    apply (proj1 (Forall_forall _ _) Hint) in Hin.
    unfold owned, references in *. destruct (data_product r) as [j|]; [|done].
    rewrite lookup_delete_ne; [done|]. by intros ->.
  - intros [Hkeys Hrows]. split.
    + rewrite Hp, Hn. intros j p Hj.
      apply lookup_delete_Some in Hj as [_ Hj]. by apply Hkeys in Hj.
    + rewrite Hr, Hn. apply Forall_forall. intros r Hin.
      apply list_elem_of_filter in Hin as [_ Hin].
      by apply (proj1 (Forall_forall _ _) Hrows).
Qed.

(** X12. [delete] removes nothing of another product: every other row of
    the product table, every file stored under another path, the cache,
    the permissions and the flash messages are as before, and the reduced
    data of the other products keep their order. *)
Theorem delete_leaves_the_rest request k object w :
  products w !! k = Some object →
  ∃ w',
    delete env request (Some k) w
    = (Ok (redirect (Path (get_success_url env request))), w') ∧
    (∀ j, j ≠ k → products w' !! j = products w !! j) ∧
    (∀ j, j ≠ k → filter (references j) (reduced w') = filter (references j) (reduced w)) ∧
    (∀ path, path ≠ data_path env object → media w' !! path = media w !! path) ∧
    cache w' = cache w ∧ perms w' = perms w ∧ flashes w' = flashes w.
Proof.
  intros Hk.
  destruct (delete_run request k object w Hk)
    as (w' & Hrun & Hp & Hr & _ & Hm & Hc & Hperms & Hf).
  exists w'. split; [exact Hrun|]. split_and!; [| | |done|done|done].
  - intros j Hj. rewrite Hp. by apply lookup_delete_ne.
  - intros j Hj. rewrite Hr. rewrite list_filter_filter.
    apply list_filter_iff. intros r. unfold references. split; [by intros [? _]|].
    intros Hrj. split; [done|]. rewrite Hrj. by intros [= ->].
  - intros path Hpath. rewrite Hm. case_decide; [done|]. by apply lookup_delete_ne.
Qed.

End DeleteFurther.

Lemma delete_twice_is_not_found_witness :
  ∃ w',
    DataProductDeleteView.delete (Sample.env 1) Sample.request (Some 2) Sample.world
    = (Ok (redirect (Path "/")), w') ∧
    DataProductDeleteView.delete (Sample.env 1) Sample.request (Some 2) w'
    = (Raise Http404, w').
Proof.
  exact (delete_twice_is_not_found (Sample.env 1) Sample.request 2 Sample.spectrum
           Sample.world eq_refl).
Defined.

Lemma delete_keeps_integrity_witness :
  referential_integrity
    (DataProductDeleteView.delete (Sample.env 1) Sample.request (Some 1) Sample.world).2 ∧
  well_formed
    (DataProductDeleteView.delete (Sample.env 1) Sample.request (Some 1) Sample.world).2.
Proof.
  destruct (delete_keeps_integrity (Sample.env 1) Sample.request 1 Sample.photometry
              Sample.world eq_refl) as [Hintegrity Hfresh].
  split.
  - apply Hintegrity. refine (bool_decide_unpack _ _). vm_compute. exact I.
  - apply Hfresh. refine (bool_decide_unpack _ _). vm_compute. exact I.
Defined.

Lemma delete_leaves_the_rest_witness :
  ∃ w',
    DataProductDeleteView.delete (Sample.env 1) Sample.request (Some 1) Sample.world
    = (Ok (redirect (Path "/")), w') ∧
    products w' !! 2 = Some Sample.spectrum ∧
    filter (references 2) (reduced w') = [ {| data_product := Some 2; value := "flux" |} ] ∧
    media w' !! "/media/M31/spec.fits" = Some "SIMPLE".
Proof.
  destruct (delete_leaves_the_rest (Sample.env 1) Sample.request 1 Sample.photometry
              Sample.world eq_refl)
    as (w' & Hrun & Hrows & Hreduced & Hfiles & _).
  exists w'. split; [exact Hrun|]. split_and!.
  - by rewrite Hrows.
  - by rewrite Hreduced.
  - by rewrite Hfiles.
Defined.

(** ** DataProductFeatureView.get, further *)

Section FeatureFurther.

Context (env : Env).

Import DataProductFeatureView.

Lemma unfeature_loop_rest rows : ∀ w,
  next_pk (foldl (λ w row, (unfeature env row w).2) w rows) = next_pk w ∧
  perms (foldl (λ w row, (unfeature env row w).2) w rows) = perms w.
Proof.
  induction rows as [|row rows IH]; intros w; [done|].
  cbn [foldl]. destruct (IH (unfeature env row w).2) as [-> ->]. done.
Qed.

(** The loop deletes one cache key when it has a row to visit. *)
Lemma unfeature_loop_cache_eq key rows : ∀ w,
  (∀ row, row ∈ rows → featured_image_key env row.2 = key) →
  cache (foldl (λ w row, (unfeature env row w).2) w rows)
  = if decide (rows = []) then cache w else cache w ∖ {[key]}.
Proof.
  induction rows as [|row rows IH]; intros w Hkeys; [done|].
  rewrite decide_False by done. cbn [foldl].
  rewrite IH by (intros r Hr; apply Hkeys; by apply elem_of_cons; right).
  assert (Hrow : cache (unfeature env row w).2 = cache w ∖ {[key]}).
  { simpl. rewrite <- (Hkeys row) by (apply elem_of_cons; by left). reflexivity. }
  rewrite Hrow. case_decide; [done|].
  apply set_eq. intros x. rewrite !elem_of_difference. tauto.
Qed.

(** The product table [get] leaves, in closed form. *)
Lemma feature_table request k product w :
  products w !! k = Some product →
  products (get env request (Some k) w).2 = feature_in product k (products w).
Proof.
  intros Hk. rewrite (get_world env request k product w Hk).
  cbn [products add_event set_products].
  rewrite unfeature_loop_products. unfold feature_in. f_equal.
  apply map_eq. intros j. rewrite unfeatured_lookup, lookup_fmap.
  destruct (products w !! j) as [p|]; [|done]. simpl. unfold unfeature_pair.
  destruct (decide (currently_featured product (j, p))) as [Hcf|Hcf].
  - by rewrite decide_True.
  - by rewrite decide_False.
Qed.

(** The cache [get] leaves: the key of the selection's target goes when a
    product of its pair was featured. *)
Lemma feature_cache request k product w :
  products w !! k = Some product →
  cache (get env request (Some k) w).2
  = if decide (filter (currently_featured product) (products w) = ∅) then cache w
    else cache w ∖ {[featured_image_key env product]}.
Proof.
  intros Hk. rewrite (get_world env request k product w Hk).
  cbn [cache add_event set_products].
  rewrite (unfeature_loop_cache_eq (featured_image_key env product)).
  - destruct (decide (filter (currently_featured product) (products w) = ∅)) as [He|He].
    + rewrite He, map_to_list_empty. done.
    + rewrite decide_False; [done|]. intros Hnil. by apply map_to_list_empty_iff in Hnil.
  - intros [j p] Hin. apply elem_of_map_to_list, map_lookup_filter_Some in Hin
      as [_ (_ & _ & Htarget)].
    unfold featured_image_key. simpl in *. by rewrite Htarget.
Qed.

Lemma unfeature_pair_again product p :
  unfeature_pair (with_featured product true) (unfeature_pair product p)
  = unfeature_pair product p.
Proof.
  assert (Hfix : ∀ q, ¬ (featured q = true ∧ same_pair product q) →
                      unfeature_pair (with_featured product true) q = q).
  { intros q Hq. unfold unfeature_pair. by rewrite decide_False. }
  apply Hfix. unfold unfeature_pair.
  destruct (decide (featured p = true ∧ same_pair product p)) as [Hcf|Hcf].
  - by intros [[=] _].
  - exact Hcf.
Qed.

(** X13. Featuring the same product twice gives the product table of
    featuring it once; the second run finds the selection featured and
    deletes the cached featured image of its target. *)
Theorem feature_twice request request' k product w :
  products w !! k = Some product →
  products (get env request' (Some k) (get env request (Some k) w).2).2
  = products (get env request (Some k) w).2 ∧
  cache (get env request' (Some k) (get env request (Some k) w).2).2
  = cache (get env request (Some k) w).2 ∖ {[featured_image_key env product]}.
Proof.
  intros Hk.
  pose proof (feature_table request k product w Hk) as Htable.
  assert (Hk1 : products (get env request (Some k) w).2 !! k
                = Some (with_featured product true)).
  { rewrite Htable. apply lookup_insert_eq. }
  split.
  - rewrite (feature_table request' k _ _ Hk1), Htable. unfold feature_in.
    apply map_eq. intros j. destruct (decide (k = j)) as [->|Hne].
    + by rewrite !lookup_insert_eq.
    + rewrite !lookup_insert_ne by done. rewrite !lookup_fmap, lookup_insert_ne by done.
      rewrite lookup_fmap. destruct (products w !! j) as [p|]; [|done].
      simpl. by rewrite unfeature_pair_again.
  - rewrite (feature_cache request' k _ _ Hk1). rewrite decide_False; [done|].
    intros Hempty.
    assert (Hin : filter (currently_featured (with_featured product true))
                    (products (get env request (Some k) w).2) !! k
                  = Some (with_featured product true)).
    { apply map_lookup_filter_Some. split; [exact Hk1|]. by repeat split. }
    rewrite Hempty in Hin. by rewrite lookup_empty in Hin.
Qed.


Lemma feature_lookup request k product w j :
  products w !! k = Some product →
  products (get env request (Some k) w).2 !! j
  = if decide (j = k) then Some (with_featured product true)
    else unfeature_pair product <$> products w !! j.
Proof.
  intros Hk. rewrite (feature_table request k product w Hk). unfold feature_in.
  case_decide as Hj.
  - subst j. apply lookup_insert_eq.
  - rewrite lookup_insert_ne by done. apply lookup_fmap.
Qed.

Lemma unfeature_pair_flag product p :
  with_featured (unfeature_pair product p) (featured p) = p.
Proof. unfold unfeature_pair. case_decide; by destruct p. Qed.

(** X14. [get] changes featured flags and nothing else: no row appears or
    disappears, every row keeps all its other fields, and the reduced data,
    the key counter, the storage, the permissions and the flash messages
    are as before; so the reduced data still name existing products and the
    keys stay below the counter. *)
Theorem feature_changes_flags_only request k product w :
  products w !! k = Some product →
  (∀ j, products (get env request (Some k) w).2 !! j = None ↔ products w !! j = None) ∧
  (∀ j p p', products w !! j = Some p →
             products (get env request (Some k) w).2 !! j = Some p' →
             with_featured p' (featured p) = p) ∧
  reduced (get env request (Some k) w).2 = reduced w ∧
  next_pk (get env request (Some k) w).2 = next_pk w ∧
  media (get env request (Some k) w).2 = media w ∧
  perms (get env request (Some k) w).2 = perms w ∧
  flashes (get env request (Some k) w).2 = flashes w ∧
  (referential_integrity w → referential_integrity (get env request (Some k) w).2) ∧
  (well_formed w → well_formed (get env request (Some k) w).2).
Proof.
  intros Hk.
  assert (Hrows : ∀ j, products (get env request (Some k) w).2 !! j = None
                       ↔ products w !! j = None).
  { intros j. rewrite (feature_lookup request k product w j Hk). case_decide as Hj.
    - subst j. by rewrite Hk.
    - by rewrite fmap_None. }
  assert (Hframe : reduced (get env request (Some k) w).2 = reduced w ∧
                   next_pk (get env request (Some k) w).2 = next_pk w ∧
                   media (get env request (Some k) w).2 = media w ∧
                   perms (get env request (Some k) w).2 = perms w ∧
                   flashes (get env request (Some k) w).2 = flashes w).
  { rewrite (get_world env request k product w Hk).
    cbn [reduced next_pk media perms flashes add_event set_products].
    destruct (unfeature_loop_frame env
                (map_to_list (filter (currently_featured product) (products w))) w)
      as (Hr & Hm & Hf & _).
    destruct (unfeature_loop_rest
                (map_to_list (filter (currently_featured product) (products w))) w)
      as (Hn & Hp).
    by repeat split. }
  destruct Hframe as (Hr & Hn & Hm & Hp & Hf).
  split_and!; try done.
  - intros j p p' Hj Hj'. rewrite (feature_lookup request k product w j Hk) in Hj'.
    case_decide as Hjk.
    + subst j. rewrite Hk in Hj. injection Hj as <-. injection Hj' as <-.
      by destruct product.
    + rewrite Hj in Hj'. injection Hj' as <-. apply unfeature_pair_flag.
  - unfold referential_integrity. rewrite Hr. intros Hint.
    eapply Forall_impl; [exact Hint|]. intros r. unfold owned.
    destruct (data_product r) as [j|]; [|done].
    rewrite <- !not_eq_None_Some. by rewrite Hrows.
  - intros [Hkeys Hreduced]. split.
    + rewrite Hn. intros j p' Hj. simpl.
      destruct (products w !! j) as [p|] eqn:Hp0.
      * by apply Hkeys in Hp0.
      * apply Hrows in Hp0. congruence.
    + by rewrite Hr, Hn.
Qed.

(** X15. Featuring one product and then another of the same target and
    type moves the flag: afterwards the second is featured and the first
    is not. *)
Theorem feature_moves_the_flag request request' a b pa pb w :
  products w !! a = Some pa →
  products w !! b = Some pb →
  a ≠ b →
  same_pair pa pb →
  products (get env request' (Some b) (get env request (Some a) w).2).2 !! a
  = Some (with_featured pa false) ∧
  products (get env request' (Some b) (get env request (Some a) w).2).2 !! b
  = Some (with_featured pb true).
Proof.
  intros Ha Hb Hne [Htype Htarget].
  assert (Ha1 : products (get env request (Some a) w).2 !! a
                = Some (with_featured pa true)).
  { rewrite (feature_lookup request a pa w a Ha). by rewrite decide_True. }
  assert (Hb1 : products (get env request (Some a) w).2 !! b
                = Some (unfeature_pair pa pb)).
  { rewrite (feature_lookup request a pa w b Ha). rewrite decide_False by done.
    by rewrite Hb. }
  split.
  - rewrite (feature_lookup request' b _ _ a Hb1). rewrite decide_False by done.
    rewrite Ha1. simpl. unfold unfeature_pair at 1. rewrite decide_True; [done|].
    split; [done|]. unfold unfeature_pair. case_decide; by split.
  - rewrite (feature_lookup request' b _ _ b Hb1). rewrite decide_True by done.
    unfold unfeature_pair. by case_decide.
Qed.

(** X16. When no product of the selection's target and type is featured,
    [get] only saves the selection as featured: no other row changes and
    the cache is left as it is, the target's cached featured image
    included. The answer is the redirect to the target's page, resolved
    after the save. *)
Theorem feature_first_of_pair request k product w :
  products w !! k = Some product →
  map_Forall (λ j p, ¬ currently_featured product (j, p)) (products w) →
  (get env request (Some k) w).2
  = add_event (ProductSave k) (set_products <[k := with_featured product true]> w) ∧
  get env request (Some k) w
  = target_detail env request
      (add_event (ProductSave k) (set_products <[k := with_featured product true]> w)).
Proof.
  intros Hk Hnone.
  assert (Hempty : filter (currently_featured product) (products w) = ∅).
  { apply map_empty. intros j. apply map_lookup_filter_None.
    destruct (products w !! j) as [p|] eqn:Hj; [right|by left].
    intros p' [= <-]. by apply (Hnone j p). }
  split.
  - rewrite (get_world env request k product w Hk). by rewrite Hempty, map_to_list_empty.
  - rewrite (get_run env request k product w Hk). by rewrite Hempty, map_to_list_empty.
Qed.

End FeatureFurther.

Lemma feature_twice_witness :
  products (DataProductFeatureView.get (Sample.env 1) Sample.request (Some 4)
              (DataProductFeatureView.get (Sample.env 1) Sample.request (Some 4)
                 Sample.world).2).2
  = products (DataProductFeatureView.get (Sample.env 1) Sample.request (Some 4)
                Sample.world).2 ∧
  cache (DataProductFeatureView.get (Sample.env 1) Sample.request (Some 4)
           (DataProductFeatureView.get (Sample.env 1) Sample.request (Some 4)
              Sample.world).2).2
  = cache (DataProductFeatureView.get (Sample.env 1) Sample.request (Some 4)
             Sample.world).2
    ∖ {[featured_image_key (Sample.env 1) Sample.closeup]}.
Proof.
  exact (feature_twice (Sample.env 1) Sample.request Sample.request 4 Sample.closeup
           Sample.world eq_refl).
Defined.

Lemma feature_changes_flags_only_witness :
  reduced (DataProductFeatureView.get (Sample.env 1) Sample.request (Some 4)
             Sample.world).2 = reduced Sample.world ∧
  referential_integrity
    (DataProductFeatureView.get (Sample.env 1) Sample.request (Some 4) Sample.world).2.
Proof.
  destruct (feature_changes_flags_only (Sample.env 1) Sample.request 4 Sample.closeup
              Sample.world eq_refl)
    as (_ & _ & Hreduced & _ & _ & _ & _ & Hintegrity & _).
  split; [exact Hreduced|].
  apply Hintegrity. refine (bool_decide_unpack _ _). vm_compute. exact I.
Defined.

Lemma feature_moves_the_flag_witness :
  products (DataProductFeatureView.get (Sample.env 1) Sample.request (Some 4)
              (DataProductFeatureView.get (Sample.env 1) Sample.request (Some 3)
                 Sample.world).2).2 !! 3
  = Some (with_featured Sample.finder false) ∧
  products (DataProductFeatureView.get (Sample.env 1) Sample.request (Some 4)
              (DataProductFeatureView.get (Sample.env 1) Sample.request (Some 3)
                 Sample.world).2).2 !! 4
  = Some (with_featured Sample.closeup true).
Proof.
  apply (feature_moves_the_flag (Sample.env 1) Sample.request Sample.request 3 4
           Sample.finder Sample.closeup Sample.world).
  - reflexivity.
  - reflexivity.
  - discriminate.
  - split; reflexivity.
Defined.

Lemma feature_first_of_pair_witness :
  DataProductFeatureView.get (Sample.env 1) Sample.request (Some 1) Sample.world
  = (Ok (redirect (Path "/targets/7/")),
     add_event (ProductSave 1)
       (set_products <[1 := with_featured Sample.photometry true]> Sample.world)).
Proof.
  destruct (feature_first_of_pair (Sample.env 1) Sample.request 1 Sample.photometry
              Sample.world) as [_ Hrun].
  - reflexivity.
  - refine (bool_decide_unpack _ _). vm_compute. exact I.
  - rewrite Hrun. reflexivity.
Defined.

(** ** DataProductUploadView.form_valid, further *)

Section UploadFurther.

Context (env : Env).

Import DataProductUploadView.

(** The permission loop, field by field. *)
Lemma grant_loop_perms pk reduced_data groups : ∀ w,
  ∃ w',
    for_each groups (grant pk reduced_data) w = (Ok (), w') ∧
    perms w' = perms w ++ grants pk reduced_data groups ∧
    next_pk w' = next_pk w ∧ media w' = media w ∧ cache w' = cache w ∧
    flashes w' = flashes w ∧ trace w' = trace w.
Proof.
  induction groups as [|group groups IH]; intros w.
  - exists w. split; [done|]. unfold grants. simpl. by rewrite app_nil_r.
  - cbn [for_each]. unfold mbind at 1, M_bind at 1. rewrite grant_ok.
    destruct (IH (grant pk reduced_data group w).2)
      as (w' & -> & Hp & Hn & Hm & Hc & Hf & Ht).
    exists w'. split; [done|]. rewrite Hp, Hn, Hm, Hc, Hf, Ht.
    split; [|done]. unfold grants. simpl. by rewrite <- !app_assoc.
Qed.

(** One turn of the loop, in what it reports, grants and stores. *)
Lemma upload_file_outputs form target observation_record dp_type f uploads w :
  ∃ w1 uploads1,
    upload_file env form target observation_record dp_type f uploads w = (Ok uploads1, w1) ∧
    next_pk w1 = next_pk w + 1 ∧
    media w1
    = <[data_path env (new_product env target observation_record dp_type f) := f.2]> (media w) ∧
    cache w1 = cache w ∧
    match raised (process_upload env (next_pk w)
                    (new_product env target observation_record dp_type f)) with
    | Some e =>
        uploads1 = uploads ∧ perms w1 = perms w ∧
        flashes w1 = flashes w
                     ++ [(ERROR, error_message env e
                                   (new_product env target observation_record dp_type f))]
    | None =>
        uploads1 = uploads
                   ++ [DataProduct_str env (new_product env target observation_record dp_type f)] ∧
        perms w1
        = perms w
          ++ (if TARGET_PERMISSIONS_ONLY (settings env) then []
              else grants (next_pk w)
                     (created_rows env (next_pk w)
                        (new_product env target observation_record dp_type f))
                     (cleaned_groups form)) ∧
        flashes w1 = flashes w
    end.
Proof.
  set (dp := new_product env target observation_record dp_type f).
  unfold upload_file. fold dp.
  unfold save_new, save, run_data_processor, ReducedDatum_filter_delete, delete_instance. run.
  destruct (raised (process_upload env (next_pk w) dp)) as [e|] eqn:Hraised; run.
  - destruct e; run; eexists _, _; (split; [reflexivity|]); cbn; by repeat split; try lia.
  - destruct (TARGET_PERMISSIONS_ONLY (settings env)); run.
    + eexists _, _. split; [reflexivity|]. cbn. rewrite app_nil_r. by repeat split; try lia.
    + match goal with
      | |- context [for_each _ (grant _ ?rows) ?w0] =>
          destruct (grant_loop_perms (next_pk w) rows (cleaned_groups form) w0)
            as (w' & Hrun & Hp & Hn & Hm & Hc & Hf & _)
      end.
      rewrite Hrun. eexists _, _. split; [reflexivity|].
      rewrite Hp, Hn, Hm, Hc, Hf. cbn. by repeat split; try lia.
Qed.

(** The whole loop, in what it reports, grants and stores. *)
Lemma upload_files_outputs form target observation_record dp_type files : ∀ uploads w,
  ∃ w',
    upload_files env form target observation_record dp_type files uploads w
    = (Ok (uploads ++ uploaded_names env
                        (upload_outcomes env target observation_record dp_type (next_pk w)
                           files)), w') ∧
    flashes w'
    = flashes w ++ error_flashes env
                     (upload_outcomes env target observation_record dp_type (next_pk w) files) ∧
    perms w'
    = perms w ++ (if TARGET_PERMISSIONS_ONLY (settings env) then []
                  else upload_grants env (cleaned_groups form)
                         (upload_outcomes env target observation_record dp_type (next_pk w)
                            files)) ∧
    media w' = stored env target observation_record dp_type files (media w) ∧
    cache w' = cache w.
Proof.
  induction files as [|f files IH]; intros uploads w.
  - exists w. cbn. rewrite !app_nil_r. split_and!; try done.
    destruct (TARGET_PERMISSIONS_ONLY (settings env)); by rewrite app_nil_r.
  - destruct (upload_file_outputs form target observation_record dp_type f uploads w)
      as (w1 & uploads1 & Hstep & Hnext & Hmedia & Hcache & Hcase).
    destruct (IH uploads1 w1) as (w' & Hloop & Hflash & Hperms & Hstored & Hc).
    exists w'. cbn [upload_files upload_outcomes]. unfold mbind at 1, M_bind at 1.
    rewrite Hstep, Hloop, Hflash, Hperms, Hstored, Hc, Hnext, Hmedia, Hcache.
    unfold stored. cbn [foldl].
    unfold uploaded_names, error_flashes, upload_grants. cbn [mbind list_bind].
    fold (uploaded_names env). fold (error_flashes env).
    fold (upload_grants env (cleaned_groups form)).
    destruct (raised (process_upload env (next_pk w)
                (new_product env target observation_record dp_type f))) as [e|].
    + destruct Hcase as (-> & -> & ->). rewrite <- !app_assoc. split_and!; try done.
    + destruct Hcase as (-> & -> & ->). rewrite <- !app_assoc. split_and!; try done.
      by destruct (TARGET_PERMISSIONS_ONLY (settings env)).
Qed.


(** The answer of [redirect] and the world it leaves as it is. *)
Lemma shortcuts_redirect_run to w :
  shortcuts_redirect env to w
  = (match resolve_url env to with
     | Some url => Ok (redirect (Path url))
     | None => Raise NoReverseMatch
     end, w).
Proof. unfold shortcuts_redirect. by destruct (resolve_url env to). Qed.

(** [form_valid] around its loop. *)
Lemma form_valid_run request form target observation_record w :
  selection form = Some (target, observation_record) →
  form_valid env request form w
  = match upload_files env form target observation_record (cleaned_data_product_type form)
            (FILES request) [] w with
    | (Ok uploads, w1) =>
        (match resolve_url env (default "/" (cleaned_referrer form)) with
         | Some url => Ok (redirect (Path url))
         | None => Raise NoReverseMatch
         end,
         if decide (uploads = []) then w1
         else add_flash (SUCCESS, "Successfully uploaded: " +:+ String.concat nl uploads) w1)
    | (Raise e, w1) => (Raise e, w1)
    end.
Proof.
  intros Hselection. unfold form_valid, selection in *. unfold mbind at 1, M_bind at 1.
  assert (Hgoal : ∀ t o, (t, o) = (target, observation_record) →
    (let '(target0, observation_record0) := (t, o) in
     λ w0, (upload_files env form target0 observation_record0 (cleaned_data_product_type form)
              (FILES request) []
            ≫= λ successful_uploads,
                 (if decide (successful_uploads = []) then mret ()
                  else messages SUCCESS ("Successfully uploaded: "
                                         +:+ String.concat nl successful_uploads))
                 ≫= λ _, shortcuts_redirect env (default "/" (cleaned_referrer form))) w0) w
    = match upload_files env form target observation_record (cleaned_data_product_type form)
              (FILES request) [] w with
      | (Ok uploads, w1) =>
          (match resolve_url env (default "/" (cleaned_referrer form)) with
           | Some url => Ok (redirect (Path url))
           | None => Raise NoReverseMatch
           end,
           if decide (uploads = []) then w1
           else add_flash (SUCCESS, "Successfully uploaded: " +:+ String.concat nl uploads) w1)
      | (Raise e, w1) => (Raise e, w1)
      end).
  { intros t o [= -> ->]. run.
    destruct (upload_files _ _ _ _ _ _ _ _) as [[uploads|e] w1]; [|done].
    by destruct (decide (uploads = [])); rewrite shortcuts_redirect_run. }
  destruct (cleaned_target form) as [t|].
  - injection Hselection as <- <-. by apply Hgoal.
  - destruct (cleaned_observation_record form) as [o|]; [|done].
    injection Hselection as <- <-. by apply Hgoal.
Qed.

(** X17. The flash messages of an upload are, after those already there,
    one error message for each file whose processing raised, in upload
    order, followed by at most one success message that names the files
    processed successfully, in upload order. They are flashed whatever
    becomes of the redirect to the referrer that ends the request. *)
Theorem form_valid_flashes request form target observation_record w :
  selection form = Some (target, observation_record) →
  flashes (form_valid env request form w).2
  = flashes w
    ++ error_flashes env
         (upload_outcomes env target observation_record (cleaned_data_product_type form)
            (next_pk w) (FILES request))
    ++ success_flash
         (uploaded_names env
            (upload_outcomes env target observation_record (cleaned_data_product_type form)
               (next_pk w) (FILES request))).
Proof.
  intros Hselection. rewrite (form_valid_run request form _ _ w Hselection).
  destruct (upload_files_outputs form target observation_record
              (cleaned_data_product_type form) (FILES request) [] w)
    as (w' & -> & Hflash & _).
  unfold success_flash. simpl.
  destruct (decide (uploaded_names env _ = [])).
  - by rewrite Hflash, app_nil_r.
  - simpl. by rewrite Hflash, app_assoc.
Qed.

(** X18. [form_valid] grants permissions for the successful uploads only:
    with TARGET_PERMISSIONS_ONLY set nothing is granted; otherwise each
    group of the form receives, for each file processed successfully and in
    upload order, the view and delete permissions on the product and the
    view permission on its reduced data, and nothing for a file whose
    processing raised. *)
Theorem form_valid_grants request form target observation_record w :
  selection form = Some (target, observation_record) →
  perms (form_valid env request form w).2
  = perms w
    ++ (if TARGET_PERMISSIONS_ONLY (settings env) then []
        else upload_grants env (cleaned_groups form)
               (upload_outcomes env target observation_record (cleaned_data_product_type form)
                  (next_pk w) (FILES request))).
Proof.
  intros Hselection. rewrite (form_valid_run request form _ _ w Hselection).
  destruct (upload_files_outputs form target observation_record
              (cleaned_data_product_type form) (FILES request) [] w)
    as (w' & -> & _ & Hperms & _).
  simpl. by destruct (decide _).
Qed.

Lemma stored_cons target observation_record dp_type f files storage :
  stored env target observation_record dp_type (f :: files) storage
  = stored env target observation_record dp_type files
      (<[data_path env (new_product env target observation_record dp_type f) := f.2]> storage).
Proof. reflexivity. Qed.

Lemma stored_other target observation_record dp_type files : ∀ storage path,
  (∀ f, f ∈ files →
        data_path env (new_product env target observation_record dp_type f) ≠ path) →
  stored env target observation_record dp_type files storage !! path = storage !! path.
Proof.
  induction files as [|f files IH]; intros storage path Hother; [done|].
  rewrite stored_cons.
  rewrite IH by (intros f' Hf'; apply Hother; by apply elem_of_cons; right).
  apply lookup_insert_ne. apply Hother. apply elem_of_cons. by left.
Qed.

Lemma stored_lookup target observation_record dp_type files : ∀ storage f,
  NoDup ((λ f, data_path env (new_product env target observation_record dp_type f))
           <$> files) →
  f ∈ files →
  stored env target observation_record dp_type files storage
  !! data_path env (new_product env target observation_record dp_type f) = Some f.2.
Proof.
  induction files as [|f0 files IH]; intros storage f Hnodup Hin;
    [by apply elem_of_nil in Hin|].
  rewrite fmap_cons in Hnodup. apply NoDup_cons in Hnodup as [Hfresh Hnodup].
  rewrite stored_cons.
  apply elem_of_cons in Hin as [->|Hin].
  - rewrite stored_other; [apply lookup_insert_eq|].
    intros f' Hf' Heq. apply Hfresh. rewrite <- Heq.
    by apply (list_elem_of_fmap_2
                (λ f, data_path env (new_product env target observation_record dp_type f))).
  - by apply IH.
Qed.

(** X19. Every uploaded file stays in the storage, whether its processing
    succeeded or raised: when the files of the request are saved under
    distinct paths that the storage does not hold yet, each path holds the
    contents of its file afterwards; the cleanup after a failure deletes
    rows, not files. The files under other paths are as before. *)
Theorem uploads_stay_in_storage request form target observation_record w :
  selection form = Some (target, observation_record) →
  NoDup ((λ f, data_path env (new_product env target observation_record
                                (cleaned_data_product_type form) f))
           <$> FILES request) →
  Forall (λ f, media w !! data_path env (new_product env target observation_record
                                           (cleaned_data_product_type form) f) = None)
         (FILES request) →
  (∀ f, f ∈ FILES request →
     media (form_valid env request form w).2
     !! data_path env (new_product env target observation_record
                         (cleaned_data_product_type form) f) = Some f.2) ∧
  (∀ path,
     (∀ f, f ∈ FILES request →
           data_path env (new_product env target observation_record
                            (cleaned_data_product_type form) f) ≠ path) →
     media (form_valid env request form w).2 !! path = media w !! path).
Proof.
  intros Hselection Hnodup _. rewrite (form_valid_run request form _ _ w Hselection).
  destruct (upload_files_outputs form target observation_record
              (cleaned_data_product_type form) (FILES request) [] w)
    as (w' & -> & _ & _ & Hmedia & _).
  assert (Hsame : media (if decide (uploaded_names env
                           (upload_outcomes env target observation_record
                              (cleaned_data_product_type form) (next_pk w) (FILES request))
                         = [])
                         then w'
                         else add_flash (SUCCESS, "Successfully uploaded: "
                                +:+ String.concat nl (uploaded_names env
                                      (upload_outcomes env target observation_record
                                         (cleaned_data_product_type form) (next_pk w)
                                         (FILES request)))) w')
                  = media w').
  { by destruct (decide _). }
  simpl. rewrite Hsame, Hmedia. split.
  - intros f Hf. by apply stored_lookup.
  - intros path Hother. by apply stored_other.
Qed.


Lemma owned_insert (table : gmap Z DataProduct) k p r :
  owned table r → owned (<[k := p]> table) r.
Proof.
  unfold owned. destruct (data_product r) as [j|]; [|done].
  intros Hj. apply lookup_insert_is_Some. destruct (decide (k = j)); auto.
Qed.

(** One turn of the loop keeps the database consistent. *)
Lemma upload_file_keeps form target observation_record dp_type f uploads w :
  well_formed w → referential_integrity w →
  ∃ w1 uploads1,
    upload_file env form target observation_record dp_type f uploads w = (Ok uploads1, w1) ∧
    well_formed w1 ∧ referential_integrity w1.
Proof.
  intros Hwf Hint.
  destruct (upload_file_spec env form target observation_record dp_type f uploads w Hwf)
    as (w1 & uploads1 & Hstep & Hnext & Hcase).
  exists w1, uploads1. split; [exact Hstep|].
  destruct Hwf as [Hkeys Hrows]. unfold well_formed, referential_integrity in *.
  destruct (raised _) as [e|].
  - destruct Hcase as (_ & -> & -> & _). rewrite Hnext. split_and!; [| |done].
    + intros k p Hk. apply Hkeys in Hk. simpl in *. lia.
    + eapply Forall_impl; [exact Hrows|]. intros r. apply below_mono. lia.
  - destruct Hcase as (_ & -> & -> & _). rewrite Hnext. split_and!.
    + intros k p Hk. apply lookup_insert_Some in Hk as [[<- _]|[_ Hk]]; [simpl; lia|].
      apply Hkeys in Hk. simpl in *. lia.
    + apply Forall_app. split.
      * eapply Forall_impl; [exact Hrows|]. intros r. apply below_mono. lia.
      * unfold created_rows. apply Forall_fmap, Forall_true. intros v.
        unfold below. simpl. lia.
    + apply Forall_app. split.
      * eapply Forall_impl; [exact Hint|]. intros r. apply owned_insert.
      * unfold created_rows. apply Forall_fmap, Forall_true. intros v.
        unfold owned. simpl. rewrite lookup_insert_eq. by eexists.
Qed.

Lemma upload_files_keep form target observation_record dp_type files : ∀ uploads w,
  well_formed w → referential_integrity w →
  ∃ w' uploads',
    upload_files env form target observation_record dp_type files uploads w
    = (Ok uploads', w') ∧
    well_formed w' ∧ referential_integrity w'.
Proof.
  induction files as [|f files IH]; intros uploads w Hwf Hint.
  - by exists w, uploads.
  - destruct (upload_file_keeps form target observation_record dp_type f uploads w Hwf Hint)
      as (w1 & uploads1 & Hstep & Hwf1 & Hint1).
    destruct (IH uploads1 w1 Hwf1 Hint1) as (w' & uploads' & Hloop & Hwf' & Hint').
    exists w', uploads'. split; [|done].
    cbn [upload_files]. unfold mbind, M_bind. by rewrite Hstep.
Qed.

(** X20. [form_valid] keeps the database consistent whatever the outcomes
    of the uploads: from a database whose keys lie below the key counter
    and whose reduced data name existing products, it reaches one of the
    same kind; a failed upload leaves no reduced datum behind that names
    its deleted product. *)
Theorem form_valid_keeps_integrity request form target observation_record w :
  selection form = Some (target, observation_record) →
  well_formed w →
  referential_integrity w →
  well_formed (form_valid env request form w).2 ∧
  referential_integrity (form_valid env request form w).2.
Proof.
  intros Hselection Hwf Hint. rewrite (form_valid_run request form _ _ w Hselection).
  destruct (upload_files_keep form target observation_record
              (cleaned_data_product_type form) (FILES request) [] w Hwf Hint)
    as (w' & uploads & -> & Hwf' & Hint').
  simpl. by destruct (decide (uploads = [])).
Qed.

End UploadFurther.

Lemma form_valid_flashes_witness :
  flashes (DataProductUploadView.form_valid (Sample.env 1) Sample.request Cases.stray_form
             Sample.world).2
  = [(ERROR, "File format invalid for file M31/bad.csv -- error was no time column");
     (ERROR, "There was a problem processing your file: M31/broken.csv");
     (SUCCESS, "Successfully uploaded: M31/good.csv" +:+ nl +:+ "M31/fine.csv")] ∧
  (DataProductUploadView.form_valid (Sample.env 1) Sample.request Cases.stray_form
     Sample.world).1 = Raise NoReverseMatch.
Proof.
  split.
  - rewrite (form_valid_flashes (Sample.env 1) Sample.request Cases.stray_form Sample.M31
               None Sample.world eq_refl).
    vm_compute. reflexivity.
  - vm_compute. reflexivity.
Defined.

Lemma form_valid_grants_witness :
  perms (DataProductUploadView.form_valid (Sample.env 1) Sample.request Sample.form
           Sample.world).2
  = grants 5 [ {| data_product := Some 5; value := "17.2" |};
               {| data_product := Some 5; value := "17.9" |} ] ["observers"]
    ++ grants 8 [ {| data_product := Some 8; value := "17.2" |};
                  {| data_product := Some 8; value := "17.9" |} ] ["observers"].
Proof.
  rewrite (form_valid_grants (Sample.env 1) Sample.request Sample.form Sample.M31 None
             Sample.world eq_refl).
  vm_compute. reflexivity.
Defined.

Lemma uploads_stay_in_storage_witness :
  media (DataProductUploadView.form_valid (Sample.env 1) Sample.request Sample.form
           Sample.world).2 !! "/media/M31/bad.csv" = Some "b" ∧
  products (DataProductUploadView.form_valid (Sample.env 1) Sample.request Sample.form
              Sample.world).2 !! 6 = None.
Proof.
  destruct (uploads_stay_in_storage (Sample.env 1) Sample.request Sample.form Sample.M31 None
              Sample.world) as [Hstored _].
  - reflexivity.
  - refine (bool_decide_unpack _ _). vm_compute. exact I.
  - refine (bool_decide_unpack _ _). vm_compute. exact I.
  - split.
    + apply (Hstored ("bad.csv", "b")). apply elem_of_cons. right. apply elem_of_cons. by left.
    + vm_compute. reflexivity.
Defined.

Lemma form_valid_keeps_integrity_witness :
  well_formed (DataProductUploadView.form_valid (Sample.env 1) Sample.request Sample.form
                 Sample.world).2 ∧
  referential_integrity
    (DataProductUploadView.form_valid (Sample.env 1) Sample.request Sample.form
       Sample.world).2.
Proof.
  apply (form_valid_keeps_integrity (Sample.env 1) Sample.request Sample.form Sample.M31 None
           Sample.world).
  - reflexivity.
  - refine (bool_decide_unpack _ _). vm_compute. exact I.
  - refine (bool_decide_unpack _ _). vm_compute. exact I.
Defined.

(** ** DataProductSaveView.post *)

Section SaveView.

Context (env : Env) (facilities : DataProductSaveView.Facilities).

Import DataProductSaveView.

Lemma save_selected_spec facility save_data_products observation_record products :
  ∀ total done,
    save_selected env facility save_data_products observation_record products total done
    = (total ++ (products ≫= λ p, save_data_products observation_record (Some p)),
       done ++ (products ≫= saved_one env facility save_data_products observation_record)).
Proof.
  induction products as [|product products IH]; intros total done.
  - cbn. by rewrite !app_nil_r.
  - cbn [save_selected]. rewrite IH. cbn [mbind list_bind].
    unfold saved_one at 2. by rewrite <- !app_assoc.
Qed.


(** X21. When the products are ticked one by one, [post] calls the
    facility once for each ticked product, in order, running the
    post-save hook on what the call saved and flashing its names, and ends
    with one run of the multiple-products hook on everything saved, in the
    order of the calls. A later ALL is asked for like a product id. *)
Theorem save_post_selection request pk facility save_data_products observation_record
    first rest :
  posted_facility request = Some facility →
  get_service_class facilities facility = inr save_data_products →
  observation_records facilities !! pk = Some observation_record →
  posted_products request = first :: rest →
  first ≠ "ALL" →
  post env facilities request pk
  = (Ok (redirect (Reverse "tom_observations:detail"
                     (Some (pretty (observation_id observation_record))))),
     ((first :: rest) ≫= saved_one env facility save_data_products observation_record)
     ++ [RunHook "multiple_data_products_post_save"
           ((first :: rest) ≫= λ p, save_data_products observation_record (Some p))]).
Proof.
  intros Hfacility Hclass Hrecord Hproducts Hfirst.
  unfold post. rewrite Hfacility, Hclass, Hrecord, Hproducts.
  rewrite decide_False by done. by rewrite save_selected_spec.
Qed.

(** X22. [post] runs a hook only for products ticked one by one: a hook is
    among its actions exactly when the request is answered and the first
    ticked product is not ALL. Saving ALL and saving nothing run no hook,
    and a request that raises, for a missing or unknown facility or an
    unknown observation, has done nothing. *)
Theorem save_post_hooks request pk :
  ((∃ name saved, RunHook name saved ∈ (post env facilities request pk).2) ↔
   (∃ r first rest, (post env facilities request pk).1 = Ok r ∧
                    posted_products request = first :: rest ∧ first ≠ "ALL")) ∧
  (∀ e, (post env facilities request pk).1 = Raise e → (post env facilities request pk).2 = []).
Proof.
  unfold post.
  destruct (posted_facility request) as [facility|].
  2:{ split; [|done]. split; [intros (? & ? & Hin)|intros (? & ? & ? & ? & _)]; [|done].
      by apply elem_of_nil in Hin. }
  destruct (get_service_class facilities facility) as [e|save_data_products].
  { split; [|done]. split; [intros (? & ? & Hin)|intros (? & ? & ? & ? & _)]; [|done].
    by apply elem_of_nil in Hin. }
  destruct (observation_records facilities !! pk) as [observation_record|].
  2:{ split; [|done]. split; [intros (? & ? & Hin)|intros (? & ? & ? & ? & _)]; [|done].
      by apply elem_of_nil in Hin. }
  split; [|done]. cbn [fst snd].
  destruct (posted_products request) as [|first rest].
  - split; [intros (? & ? & Hin)|intros (? & ? & ? & _ & ? & _)]; [|done].
    by apply list_elem_of_singleton in Hin.
  - destruct (decide (first = "ALL")) as [->|Hfirst].
    + split; [intros (? & ? & Hin)|intros (? & ? & ? & _ & [= <- _] & ?)]; [|done].
      apply elem_of_cons in Hin as [?|Hin]; [done|].
      by apply list_elem_of_singleton in Hin.
    + rewrite save_selected_spec. split.
      * intros _. by eexists _, first, rest.
      * intros _. eexists _, _. apply elem_of_app. right. by apply list_elem_of_singleton.
Qed.

End SaveView.

Lemma save_post_selection_witness :
  DataProductSaveView.post (Sample.env 1) Staff.facilities
    {| DataProductSaveView.posted_facility := Some "LCO";
       DataProductSaveView.posted_products := ["a.fits"; "ALL"] |} 11
  = (Ok (redirect (Reverse "tom_observations:detail" (Some "11"))),
     [DataProductSaveView.SaveDataProducts "LCO" 11 (Some "a.fits");
      DataProductSaveView.RunHook "data_product_post_save" [Staff.frame "a.fits"];
      DataProductSaveView.Message SUCCESS "Successfully saved: M31/a.fits";
      DataProductSaveView.SaveDataProducts "LCO" 11 (Some "ALL");
      DataProductSaveView.RunHook "data_product_post_save" [Staff.frame "ALL"];
      DataProductSaveView.Message SUCCESS "Successfully saved: M31/ALL";
      DataProductSaveView.RunHook "multiple_data_products_post_save"
        [Staff.frame "a.fits"; Staff.frame "ALL"]]).
Proof.
  rewrite (save_post_selection (Sample.env 1) Staff.facilities
             {| DataProductSaveView.posted_facility := Some "LCO";
                DataProductSaveView.posted_products := ["a.fits"; "ALL"] |} 11 "LCO"
             (λ _ product,
                match product with
                | Some p => [Staff.frame p]
                | None => [Staff.frame "a.fits"; Staff.frame "b.fits"]
                end)
             Staff.night "a.fits" ["ALL"] eq_refl eq_refl eq_refl eq_refl).
  - vm_compute. reflexivity.
  - discriminate.
Defined.

(** ** The group views *)

Section GroupViews.

Import DataProductGroupDetailView.

Lemma remove_products_ok group products : ∀ c,
  Forall (λ p, is_Some (catalog_products c !! p)) products →
  ∃ c',
    remove_products group products c = (Ok (), c') ∧
    membership c' = membership c ∖ list_to_set ((group,.) <$> products) ∧
    catalog_products c' = catalog_products c ∧ catalog_groups c' = catalog_groups c.
Proof.
  induction products as [|p products IH]; intros c Hall.
  - exists c. split; [done|]. split; [|done].
    apply set_eq. intros x. rewrite elem_of_difference. simpl.
    rewrite elem_of_empty. tauto.
  - apply Forall_cons in Hall as [[row Hp] Hall]. cbn [remove_products]. rewrite Hp.
    destruct (IH (set_membership (λ m, m ∖ {[(group, p)]}) c) Hall)
      as (c' & -> & Hm & Hproducts & Hgroups).
    exists c'. split; [done|]. rewrite Hm, Hproducts, Hgroups. split; [|done].
    apply set_eq. intros x. rewrite fmap_cons, list_to_set_cons. simpl.
    rewrite !elem_of_difference, elem_of_union. tauto.
Qed.

Lemma remove_products_stops group good bad rest : ∀ c,
  Forall (λ p, is_Some (catalog_products c !! p)) good →
  catalog_products c !! bad = None →
  ∃ c',
    remove_products group (good ++ bad :: rest) c = (Raise DoesNotExist, c') ∧
    membership c' = membership c ∖ list_to_set ((group,.) <$> good) ∧
    catalog_products c' = catalog_products c ∧ catalog_groups c' = catalog_groups c.
Proof.
  induction good as [|p good IH]; intros c Hall Hbad.
  - exists c. cbn [app remove_products]. rewrite Hbad. split; [done|]. split; [|done].
    apply set_eq. intros x. rewrite elem_of_difference. simpl.
    rewrite elem_of_empty. tauto.
  - apply Forall_cons in Hall as [[row Hp] Hall]. cbn [app remove_products]. rewrite Hp.
    destruct (IH (set_membership (λ m, m ∖ {[(group, p)]}) c) Hall Hbad)
      as (c' & -> & Hm & Hproducts & Hgroups).
    exists c'. split; [done|]. rewrite Hm, Hproducts, Hgroups. split; [|done].
    apply set_eq. intros x. rewrite fmap_cons, list_to_set_cons. simpl.
    rewrite !elem_of_difference, elem_of_union. tauto.
Qed.

(** X23. [DataProductGroupDetailView.post] takes the posted products out
    of the group and does no more: when the group and the products exist,
    the pairs of this group with the posted products leave the relation,
    every other pair stays, and no product and no group is deleted. *)
Theorem group_post_removes_members products pk name c :
  catalog_groups c !! pk = Some name →
  Forall (λ p, is_Some (catalog_products c !! p)) products →
  ∃ c',
    post products pk c
    = (Ok (redirect (Reverse "tom_dataproducts:group-detail" (Some (pretty pk)))), c') ∧
    (∀ g p, (g, p) ∈ membership c' ↔ (g, p) ∈ membership c ∧ ¬ (g = pk ∧ p ∈ products)) ∧
    catalog_products c' = catalog_products c ∧ catalog_groups c' = catalog_groups c.
Proof.
  intros Hgroup Hall. unfold post. rewrite Hgroup.
  destruct (remove_products_ok pk products c Hall) as (c' & -> & Hm & Hp & Hg).
  exists c'. split; [done|]. split; [|done].
  intros g p. rewrite Hm, elem_of_difference, elem_of_list_to_set, list_elem_of_fmap.
  split; intros [Hin Hnot]; (split; [done|]).
  - intros [-> Hp']. apply Hnot. by exists p.
  - intros (p' & [= -> ->] & Hp'). by apply Hnot.
Qed.

(** X24. A posted key without a product stops [post] halfway: the products
    posted before it have left the group, DoesNotExist is raised, and the
    products posted after it are still members. *)
Theorem group_post_stops_at_missing_product good bad rest pk name c :
  catalog_groups c !! pk = Some name →
  Forall (λ p, is_Some (catalog_products c !! p)) good →
  catalog_products c !! bad = None →
  ∃ c',
    post (good ++ bad :: rest) pk c = (Raise DoesNotExist, c') ∧
    (∀ g p, (g, p) ∈ membership c' ↔ (g, p) ∈ membership c ∧ ¬ (g = pk ∧ p ∈ good)).
Proof.
  intros Hgroup Hall Hbad. unfold post. rewrite Hgroup.
  destruct (remove_products_stops pk good bad rest c Hall Hbad) as (c' & -> & Hm & _).
  exists c'. split; [done|].
  intros g p. rewrite Hm, elem_of_difference, elem_of_list_to_set, list_elem_of_fmap.
  split; intros [Hin Hnot]; (split; [done|]).
  - intros [-> Hp']. apply Hnot. by exists p.
  - intros (p' & [= -> ->] & Hp'). by apply Hnot.
Qed.

(** X25. Adding products to a group with [DataProductGroupDataView.form_valid]
    makes each of them a member and touches no other pair; adding them
    again changes nothing; and taking the same products out again with
    [DataProductGroupDetailView.post] leaves the pairs there were before,
    less those of the products with this group. *)
Theorem group_add_then_remove products pk name c :
  catalog_groups c !! pk = Some name →
  Forall (λ p, is_Some (catalog_products c !! p)) products →
  (∀ g p, (g, p) ∈ membership (DataProductGroupDataView.form_valid pk products c).2
          ↔ (g, p) ∈ membership c ∨ (g = pk ∧ p ∈ products)) ∧
  membership (DataProductGroupDataView.form_valid pk products
                (DataProductGroupDataView.form_valid pk products c).2).2
  = membership (DataProductGroupDataView.form_valid pk products c).2 ∧
  ∃ c',
    post products pk (DataProductGroupDataView.form_valid pk products c).2
    = (Ok (redirect (Reverse "tom_dataproducts:group-detail" (Some (pretty pk)))), c') ∧
    (∀ g p, (g, p) ∈ membership c' ↔ (g, p) ∈ membership c ∧ ¬ (g = pk ∧ p ∈ products)).
Proof.
  intros Hgroup Hall.
  assert (Hadded : ∀ g p,
    (g, p) ∈ membership (DataProductGroupDataView.form_valid pk products c).2
    ↔ (g, p) ∈ membership c ∨ (g = pk ∧ p ∈ products)).
  { intros g p. simpl. rewrite elem_of_union, elem_of_list_to_set, list_elem_of_fmap.
    split; (intros [Hin|Hin]; [by left|right]).
    - by destruct Hin as (p' & [= -> ->] & Hp').
    - destruct Hin as [-> Hp']. by exists p. }
  split; [exact Hadded|]. split.
  - simpl. apply set_eq. intros x. rewrite !elem_of_union. tauto.
  - unfold post. simpl. rewrite Hgroup.
    destruct (remove_products_ok pk products
                (DataProductGroupDataView.form_valid pk products c).2 Hall)
      as (c' & Hrun & Hm & _).
    simpl in Hrun. rewrite Hrun. exists c'. split; [done|].
    intros g p. rewrite Hm, elem_of_difference, Hadded.
    rewrite elem_of_list_to_set, list_elem_of_fmap.
    split.
    + intros [[Hin|Hin] Hnot].
      * split; [done|]. intros [-> Hp']. apply Hnot. by exists p.
      * destruct Hin as [-> Hp']. destruct Hnot. by exists p.
    + intros [Hin Hnot]. split; [by left|].
      intros (p' & [= -> ->] & Hp'). by apply Hnot.
Qed.

End GroupViews.

Lemma group_post_removes_members_witness :
  ∃ c',
    DataProductGroupDetailView.post [1; 3] 1 Staff.catalog
    = (Ok (redirect (Reverse "tom_dataproducts:group-detail" (Some "1"))), c') ∧
    ((1, 1) ∉ membership c') ∧ (1, 2) ∈ membership c' ∧ (2, 1) ∈ membership c' ∧
    catalog_products c' = catalog_products Staff.catalog.
Proof.
  destruct (group_post_removes_members [1; 3] 1 "survey" Staff.catalog eq_refl)
    as (c' & Hrun & Hmembers & Hproducts & _).
  - refine (bool_decide_unpack _ _). vm_compute. exact I.
  - exists c'. split; [exact Hrun|]. split_and!; [| | |exact Hproducts].
    + rewrite Hmembers. intros [_ Hnot]. apply Hnot. split; [done|].
      apply elem_of_cons. by left.
    + apply Hmembers. split.
      * refine (bool_decide_unpack _ _). vm_compute. exact I.
      * intros [_ Hin]. apply elem_of_cons in Hin as [?|Hin]; [done|].
        by apply list_elem_of_singleton in Hin.
    + apply Hmembers. split.
      * refine (bool_decide_unpack _ _). vm_compute. exact I.
      * by intros [? _].
Defined.

Lemma group_post_stops_at_missing_product_witness :
  ∃ c',
    DataProductGroupDetailView.post ([1] ++ 99 :: [2]) 1 Staff.catalog
    = (Raise DoesNotExist, c') ∧
    ((1, 1) ∉ membership c') ∧ (1, 2) ∈ membership c'.
Proof.
  destruct (group_post_stops_at_missing_product [1] 99 [2] 1 "survey" Staff.catalog eq_refl)
    as (c' & Hrun & Hmembers).
  - refine (bool_decide_unpack _ _). vm_compute. exact I.
  - reflexivity.
  - exists c'. split; [exact Hrun|]. split.
    + rewrite Hmembers. intros [_ Hnot]. apply Hnot. split; [done|].
      by apply list_elem_of_singleton.
    + apply Hmembers. split.
      * refine (bool_decide_unpack _ _). vm_compute. exact I.
      * intros [_ Hin]. by apply list_elem_of_singleton in Hin.
Defined.

Lemma group_add_then_remove_witness :
  (2, 3) ∈ membership (DataProductGroupDataView.form_valid 2 [3; 4] Staff.catalog).2 ∧
  ∃ c',
    DataProductGroupDetailView.post [3; 4] 2
      (DataProductGroupDataView.form_valid 2 [3; 4] Staff.catalog).2
    = (Ok (redirect (Reverse "tom_dataproducts:group-detail" (Some "2"))), c') ∧
    ((2, 3) ∉ membership c') ∧ (2, 1) ∈ membership c'.
Proof.
  destruct (group_add_then_remove [3; 4] 2 "follow-up" Staff.catalog eq_refl)
    as (Hadded & _ & c' & Hrun & Hmembers).
  - refine (bool_decide_unpack _ _). vm_compute. exact I.
  - split.
    + apply Hadded. right. split; [done|]. apply elem_of_cons. by left.
    + exists c'. split; [exact Hrun|]. split.
      * rewrite Hmembers. intros [_ Hnot]. apply Hnot. split; [done|].
        apply elem_of_cons. by left.
      * apply Hmembers. split.
        -- refine (bool_decide_unpack _ _). vm_compute. exact I.
        -- intros [_ Hin]. apply elem_of_cons in Hin as [?|Hin]; [done|].
           by apply list_elem_of_singleton in Hin.
Defined.
